(** * Food distribution portal: dashboard, request form and citizen portal

    A shallow embedding of the three React components of the repository
    and of the part of the hosted document store they talk to:

    - [Dashboard]   : the warehouse dashboard (inventory table, request
                      manager, its two live listeners);
    - [RequestForm] : the public request submission form;
    - [Portal]      : the manager / citizen portal over
                      [distribution_records] (src/App.js).

    The document store is an external service.  Its collections are finite
    maps from document ids to document data; a write either happens or is
    rejected as a whole, and a rejected write is caught by every caller
    (each [await] sits in a [try]/[catch]) so that the store is then left
    as it was.

    A component does not read the store when a handler runs: it works
    from its state, the last snapshot that a listener has delivered, and
    that snapshot may be behind the store.  The handlers therefore take
    the state of the page and the store as two arguments. *)

From stdpp Require Import gmap strings list fin_maps sorting.
From Stdlib Require Import ZArith Lia Ascii Decimal DecimalString DecimalPos DecimalZ.

Open Scope Z_scope.

(** ** JavaScript numbers, as far as the handlers use them

    A number is a double.  Quantities and amounts are integers by
    convention, and an integer stays one under [+] and [-]: [Num z] is the
    double of value [z] (no sign is kept for zero), [Inf] an infinity.
    [parseInt] may also produce [NaN]; every arithmetic operation
    propagates it and every comparison with it is false. *)

Module Number.

Inductive number :=
| Num (z : Z)
| NaN
| Inf (negative : bool).

(** The double nearest to the integer [z].  Up to [2 ^ 53] it is [z]
    itself; beyond, the 53 leading bits are kept and the rest is rounded
    off, a tie going to the even significand; what rounds to [2 ^ 1024]
    or more is an infinity. *)
Definition round (z : Z) : number :=
  let m := Z.abs z in
  if m <? 2 ^ 53 then Num z else
  let e := Z.log2 m - 52 in
  let q := m / 2 ^ e in
  let r := m mod 2 ^ e in
  let half := 2 ^ (e - 1) in
  let q' := if r <? half then q
            else if half <? r then q + 1
            else if Z.even q then q else q + 1 in
  if 2 ^ 1024 <=? q' * 2 ^ e then Inf (z <? 0) else Num (Z.sgn z * (q' * 2 ^ e)).

(** [a + b] *)
Definition add (a b : number) : number :=
  match a, b with
  | Num x, Num y => round (x + y)
  | NaN, _ | _, NaN => NaN
  | Inf n, Inf n' => if Bool.eqb n n' then Inf n else NaN
  | Inf n, Num _ | Num _, Inf n => Inf n
  end.

(** [a - b] *)
Definition sub (a b : number) : number :=
  match a, b with
  | Num x, Num y => round (x - y)
  | NaN, _ | _, NaN => NaN
  | Inf n, Inf n' => if Bool.eqb n n' then NaN else Inf n
  | Inf n, Num _ => Inf n
  | Num _, Inf n => Inf (negb n)
  end.

(** [a < b] *)
Definition lt (a b : number) : bool :=
  match a, b with
  | Num x, Num y => x <? y
  | NaN, _ | _, NaN => false
  | Inf n, Inf n' => n && negb n'
  | Inf n, Num _ => n
  | Num _, Inf n => negb n
  end.

(** [a >= b] *)
Definition ge (a b : number) : bool :=
  match a, b with
  | NaN, _ | _, NaN => false
  | _, _ => negb (lt a b)
  end.

(** The property the data model asks of a stock level: an integer that
    is not negative. *)
Definition nonneg (a : number) : Prop :=
  match a with
  | Num x => 0 <= x
  | NaN | Inf _ => False
  end.

(** [a >= 0]: as [nonneg], or the positive infinity. *)
Definition not_negative (a : number) : Prop :=
  match a with
  | Num x => 0 <= x
  | Inf negative => negative = false
  | NaN => False
  end.

(** The integers between [Number.MIN_SAFE_INTEGER] and
    [Number.MAX_SAFE_INTEGER]: each is a double, and so are their
    neighbours. *)
Definition safe (z : Z) : Prop := - 2 ^ 53 < z < 2 ^ 53.

End Number.
Export Number(number, Num, NaN, Inf).

(** ** The document store *)

Module Firestore.

Section Collection.
Context {A : Type}.

(** A snapshot of a collection: the documents of the collection as
    [(id, data)] pairs, in whatever order the store delivers them.  It is
    what [snapshot.docs.map(doc => ({id: doc.id, ...doc.data()}))]
    builds. *)
Definition delivers (c : gmap string A) (docs : list (string * A)) : Prop :=
  docs ≡ₚ map_to_list c.

(** A filtered query ([where(field, '==', v)]) delivers the matching
    documents only. *)
Definition delivers_where (keep : A → bool) (c : gmap string A)
    (docs : list (string * A)) : Prop :=
  docs ≡ₚ filter (λ d, keep d.2) (map_to_list c).

(** [updateDoc(ref, fields)]: a partial field merge into an existing
    document; rejected when the document does not exist. *)
Definition updateDoc (id : string) (merge : A → A) (c : gmap string A)
    : option (gmap string A) :=
  match c !! id with
  | Some d => Some (<[id := merge d]> c)
  | None => None
  end.

(** [addDoc(collection, data)], the store having picked [id]. *)
Definition addDoc (id : string) (d : A) (c : gmap string A) : gmap string A :=
  <[id := d]> c.

End Collection.

End Firestore.

(** ** Documents shared by the dashboard and the request form *)

(** Documents of [.../public/data/inventory]. *)
Module Inv.
Record t := {
  item : string;
  quantity : number;
  unit : string;
  expiration : string;
  lastUpdated : string
}.

(** The field merge [{quantity: q, lastUpdated: now}]. *)
Definition merge (q : number) (now : string) (d : t) : t :=
  {| item := item d; quantity := q; unit := unit d;
     expiration := expiration d; lastUpdated := now |}.
End Inv.

(** A field that a document may lack, hold as [null], or hold with a
    value. *)
Inductive nullable (A : Type) :=
| Absent
| Null
| Value (a : A).
Arguments Absent {A}.
Arguments Null {A}.
Arguments Value {A} a.

(** Documents of [.../public/data/requests].  The seeded requests carry
    no [contactEmail] and no [timestamp] ([None]: the field is absent);
    [processedBy] is absent until a manager acts, and [null] after a
    reset. *)
Module Req.
Record t := {
  organization : string;
  item : string;
  amount : number;
  status : string;
  contactEmail : option string;
  requestedDate : string;
  timestamp : option string;
  processedBy : nullable string
}.

(** The field merge [{status: st, processedBy: p}], [p] being a string
    or [null] ([None]). *)
Definition merge (st : string) (p : option string) (d : t) : t :=
  {| organization := organization d; item := item d; amount := amount d;
     status := st; contactEmail := contactEmail d;
     requestedDate := requestedDate d; timestamp := timestamp d;
     processedBy := match p with Some iso => Value iso | None => Null end |}.
End Req.

(** What a component knows of its surroundings when a handler runs:
    whether [db] has been set, whether authentication has settled, and
    whether the store accepts the write the handler is about to send (a
    refused write is a rejected promise). *)
Record Env := {
  db : bool;
  isAuthReady : bool;
  online : bool
}.

(** The guard every handler starts with lets the run through. *)
Definition ready (e : Env) : Prop := db e = true ∧ isAuthReady e = true.

(** ** The warehouse dashboard (src/unnamed/part_000) *)

Module Dashboard.

(** The two collections the dashboard reads and writes. *)
Record Store := {
  inventoryCollection : gmap string Inv.t;
  requestsCollection : gmap string Req.t
}.

(** *** Batched writes ([writeBatch], [batch.update], [batch.commit])

    The [processedBy] of a staged request update is a string or [null]
    ([None]). *)

Inductive write :=
| UpdateRequest (requestId : string) (status : string) (processedBy : option string)
| UpdateInventory (itemId : string) (quantity : number) (lastUpdated : string).

Definition apply_write (w : write) (s : Store) : option Store :=
  match w with
  | UpdateRequest id st p =>
      c ← Firestore.updateDoc id (Req.merge st p) (requestsCollection s);
      Some {| inventoryCollection := inventoryCollection s; requestsCollection := c |}
  | UpdateInventory id q now =>
      c ← Firestore.updateDoc id (Inv.merge q now) (inventoryCollection s);
      Some {| inventoryCollection := c; requestsCollection := requestsCollection s |}
  end.

Fixpoint apply_writes (batch : list write) (s : Store) : option Store :=
  match batch with
  | [] => Some s
  | w :: batch' => s' ← apply_write w s; apply_writes batch' s'
  end.

(** [batch.commit()]: every staged write is applied, or the commit is
    rejected and none is. *)
Definition commit (e : Env) (batch : list write) (s : Store) : option Store :=
  if online e then apply_writes batch s else None.

(** How a handler run ended. *)
Inductive outcome :=
| NotReady          (* "Database not ready." *)
| NotFound          (* no such inventory item: silent return / "Cannot ship." *)
| Insufficient      (* "Insufficient stock to ship ..." *)
| Written           (* the write was accepted *)
| Rejected.         (* the write was refused and the error logged *)

(** *** [InventoryTable]: [handleUpdateStock] *)

Definition handleUpdateStock (e : Env) (now : string)
    (inventory : list (string * Inv.t)) (itemId : string) (s : Store)
    : outcome * Store :=
  if negb (db e) || negb (isAuthReady e) then (NotReady, s) else
  match find (λ i, String.eqb i.1 itemId) inventory with
  | None => (NotFound, s)
  | Some item =>
      let newQuantity := Number.add (Inv.quantity item.2) (Num 10) in
      match (if online e
             then Firestore.updateDoc itemId (Inv.merge newQuantity now)
                    (inventoryCollection s)
             else None) with
      | Some c => (Written, {| inventoryCollection := c;
                                requestsCollection := requestsCollection s |})
      | None => (Rejected, s)
      end
  end.

(** *** [RequestManager]: [handleStatusUpdate]

    [now] is the clock reading stored in [processedBy], [now'] the one
    stored in [lastUpdated]. *)

Definition handleStatusUpdate (e : Env) (now now' : string)
    (inventory : list (string * Inv.t))
    (requestId requestItem : string) (requestAmount : number)
    (newStatus : string) (s : Store) : outcome * Store :=
  if negb (db e) || negb (isAuthReady e) then (NotReady, s) else
  let batch :=
    [UpdateRequest requestId newStatus
       (if negb (String.eqb newStatus "Pending") then Some now else None)] in
  let staged : outcome + list write :=
    if String.eqb newStatus "Shipped" then
      match find (λ i, String.eqb (Inv.item i.2) requestItem) inventory with
      | None => inl NotFound
      | Some inventoryItem =>
          let newQuantity := Number.sub (Inv.quantity inventoryItem.2) requestAmount in
          if Number.lt newQuantity (Num 0) then inl Insufficient
          else inr (batch ++ [UpdateInventory inventoryItem.1 newQuantity now'])
      end
    else inr batch in
  match staged with
  | inl stop => (stop, s)
  | inr batch =>
      match commit e batch s with
      | Some s' => (Written, s')
      | None => (Rejected, s)
      end
  end.

(** *** What the two tables render

    A button carries what its [onClick] passes to the handler and whether
    it is [disabled]; a disabled button fires no click. *)

Record click := {
  requestId : string;
  requestItem : string;
  requestAmount : number;
  newStatus : string
}.

Record button := {
  label : string;
  disabled : bool;
  onClick : click
}.

(** [inventoryItem && inventoryItem.quantity >= request.amount] *)
Definition isShippable (inventoryItem : option (string * Inv.t)) (request : Req.t) : bool :=
  match inventoryItem with
  | Some i => Number.ge (Inv.quantity i.2) (Req.amount request)
  | None => false
  end.

(** One card of the request list.  The Ship button computes its [title]
    from [inventoryItem.quantity] whenever the request is not shippable:
    with no matching inventory item that read throws and the render
    fails ([None]). *)
Definition requestCard (ready : bool) (inventory : list (string * Inv.t))
    (request : string * Req.t) : option (list button) :=
  let inventoryItem := find (λ i, String.eqb (Inv.item i.2) (Req.item request.2)) inventory in
  let shippable := isShippable inventoryItem request.2 in
  let press st := {| requestId := request.1; requestItem := Req.item request.2;
                     requestAmount := Req.amount request.2; newStatus := st |} in
  let approve :=
    if String.eqb (Req.status request.2) "Pending"
    then [{| label := "Approve"; disabled := negb ready; onClick := press "Approved" |}]
    else [] in
  ship ← (if String.eqb (Req.status request.2) "Approved"
          then match shippable, inventoryItem with
               | false, None => None
               | _, _ => Some [{| label := "Ship";
                                  disabled := negb ready || negb shippable;
                                  onClick := press "Shipped" |}]
               end
          else Some []);
  let reset :=
    if String.eqb (Req.status request.2) "Approved" || String.eqb (Req.status request.2) "Shipped"
    then [{| label := "Reset"; disabled := negb ready; onClick := press "Pending" |}]
    else [] in
  Some (approve ++ ship ++ reset).

(** [requests.map(request => ...)]: all cards, or no page at all. *)
Definition RequestManager (ready : bool) (requests : list (string * Req.t))
    (inventory : list (string * Inv.t)) : option (list button) :=
  cards ← mapM (requestCard ready inventory) requests; Some (concat cards).

(** The "Add 10" buttons of the inventory table: the item ids they pass
    to [handleUpdateStock], for the rows whose button is not disabled. *)
Definition InventoryTable (ready : bool) (inventory : list (string * Inv.t)) : list string :=
  if ready then (λ i, i.1) <$> inventory else [].

(** *** The live listeners of the dashboard

    Both hand the mapped documents to the state setter as they come. *)

Definition inventoryListener (docs : list (string * Inv.t)) : list (string * Inv.t) :=
  docs.

Definition requestsListener (docs : list (string * Req.t)) : list (string * Req.t) :=
  docs.

(** *** One user action on the dashboard

    The page shows the latest snapshot of both collections; the user
    presses one of the buttons that are rendered and not disabled, and the
    handler behind it runs to its end. *)

Inductive step (e : Env) (s : Store) : Store → Prop :=
| step_status inventory requests buttons b now now' :
    Firestore.delivers (inventoryCollection s) inventory →
    Firestore.delivers (requestsCollection s) requests →
    RequestManager (isAuthReady e) (requestsListener requests)
      (inventoryListener inventory) = Some buttons →
    b ∈ buttons →
    disabled b = false →
    step e s (handleStatusUpdate e now now' (inventoryListener inventory)
                (requestId (onClick b)) (requestItem (onClick b))
                (requestAmount (onClick b)) (newStatus (onClick b)) s).2
| step_stock inventory itemId now :
    Firestore.delivers (inventoryCollection s) inventory →
    itemId ∈ InventoryTable (isAuthReady e) (inventoryListener inventory) →
    step e s (handleUpdateStock e now (inventoryListener inventory) itemId s).2.

(** The same, for a page that may be behind: it shows a snapshot of
    [shownInventory] and one of [shownRequests], what the two collections
    held when each was taken, while the store has become [s] (another
    manager has acted, and the next snapshots are still on their way). *)
Inductive press (e : Env) (shownInventory : gmap string Inv.t)
    (shownRequests : gmap string Req.t) (s : Store) : Store → Prop :=
| press_status inventory requests buttons b now now' :
    Firestore.delivers shownInventory inventory →
    Firestore.delivers shownRequests requests →
    RequestManager (isAuthReady e) (requestsListener requests)
      (inventoryListener inventory) = Some buttons →
    b ∈ buttons →
    disabled b = false →
    press e shownInventory shownRequests s
      (handleStatusUpdate e now now' (inventoryListener inventory)
         (requestId (onClick b)) (requestItem (onClick b))
         (requestAmount (onClick b)) (newStatus (onClick b)) s).2
| press_stock inventory itemId now :
    Firestore.delivers shownInventory inventory →
    itemId ∈ InventoryTable (isAuthReady e) (inventoryListener inventory) →
    press e shownInventory shownRequests s
      (handleUpdateStock e now (inventoryListener inventory) itemId s).2.

(** *** [getStatusColor] and the border of a request card *)

Definition getStatusColor (status : string) : string :=
  if String.eqb status "Approved" then "bg-teal-100 text-teal-700 border-teal-300"
  else if String.eqb status "Pending" then "bg-yellow-100 text-yellow-700 border-yellow-300"
  else if String.eqb status "Shipped" then "bg-indigo-100 text-indigo-700 border-indigo-300"
  else if String.eqb status "Low Stock" then "bg-red-100 text-red-700 border-red-300"
  else "bg-gray-100 text-gray-700 border-gray-300".

(** [s.split(sep)] for a separator of one character: the pieces between
    the separators, the empty ones too. *)
Fixpoint split (sep : ascii) (s : string) : list string :=
  match s with
  | EmptyString => [EmptyString]
  | String c s' =>
      if Ascii.eqb c sep then EmptyString :: split sep s'
      else match split sep s' with
           | piece :: pieces => String c piece :: pieces
           | [] => [String c EmptyString]
           end
  end.

(** [style={{borderColor: getStatusColor(request.status).split(' ')[3]}}]:
    [None] is [undefined]. *)
Definition borderColor (request : Req.t) : option string :=
  split " " (getStatusColor (Req.status request)) !! 3%nat.

(** *** The figures of the stat cards *)


(** [requests.filter(r => r.status === 'Pending').length] *)
Definition pendingRequests (requests : list (string * Req.t)) : nat :=
  length (List.filter (λ r, String.eqb (Req.status r.2) "Pending") requests).


(** *** [seedInitialData] and the inventory listener that calls it

    The six [addDoc] calls are numbered 0 to 5: [newId k] is the id the
    store gives the [k]-th document, [accepted k] whether the store takes
    it, [clock k] the [k]-th reading of [new Date().toISOString()].  The
    four inventory documents are sent together; the two requests are sent
    only when none of the four was refused. *)

Definition initialData (clock : nat → string) : list Inv.t :=
  [ {| Inv.item := "Canned Beans"; Inv.quantity := Num 450; Inv.unit := "cases";
       Inv.expiration := "2026-08-01"; Inv.lastUpdated := clock 0%nat |};
    {| Inv.item := "Fresh Produce Mix"; Inv.quantity := Num 120; Inv.unit := "crates";
       Inv.expiration := "2025-10-15"; Inv.lastUpdated := clock 1%nat |};
    {| Inv.item := "Dry Pasta"; Inv.quantity := Num 600; Inv.unit := "boxes";
       Inv.expiration := "2027-01-20"; Inv.lastUpdated := clock 2%nat |};
    {| Inv.item := "Dairy (UHT Milk)"; Inv.quantity := Num 30; Inv.unit := "gallons";
       Inv.expiration := "2025-11-05"; Inv.lastUpdated := clock 3%nat |} ].

Definition initialRequests : list Req.t :=
  [ {| Req.organization := "Community Shelter A"; Req.item := "Canned Beans";
       Req.amount := Num 50; Req.status := "Pending"; Req.contactEmail := None;
       Req.requestedDate := "2025-10-08"; Req.timestamp := None;
       Req.processedBy := Absent |};
    {| Req.organization := "Food Bank Central"; Req.item := "Dry Pasta";
       Req.amount := Num 100; Req.status := "Approved"; Req.contactEmail := None;
       Req.requestedDate := "2025-10-07"; Req.timestamp := None;
       Req.processedBy := Absent |} ].

(** [Promise.all(docs.map(data => addDoc(ref, data)))], the calls being
    numbered from [first]: the documents the store takes are added, and
    the whole is fulfilled when it took them all. *)
Fixpoint addAll {A} (newId : nat → string) (accepted : nat → bool) (first : nat)
    (docs : list A) (c : gmap string A) : bool * gmap string A :=
  match docs with
  | [] => (true, c)
  | d :: docs' =>
      let c' := if accepted first then Firestore.addDoc (newId first) d c else c in
      let rest := addAll newId accepted (S first) docs' c' in
      (accepted first && rest.1, rest.2)
  end.

Definition seedInitialData (newId : nat → string) (accepted : nat → bool)
    (clock : nat → string) (s : Store) : Store :=
  let inv := addAll newId accepted 0 (initialData clock) (inventoryCollection s) in
  if inv.1 then
    {| inventoryCollection := inv.2;
       requestsCollection :=
         (addAll newId accepted 4 initialRequests (requestsCollection s)).2 |}
  else
    {| inventoryCollection := inv.2; requestsCollection := requestsCollection s |}.

(** The callback of the inventory listener: the new [inventory] state,
    and the store after the seeding it may start. *)
Definition onInventorySnapshot (newId : nat → string) (accepted : nat → bool)
    (clock : nat → string) (docs : list (string * Inv.t)) (s : Store)
    : list (string * Inv.t) * Store :=
  let data := inventoryListener docs in
  (data, if (length data =? 0)%nat then seedInitialData newId accepted clock s else s).

End Dashboard.

(** ** The public request form (src/unnamed/part_001) *)

Module RequestForm.

(** *** [parseInt] with no radix argument

    Leading white space is skipped, then a sign is read, then [0x] or
    [0X], then the longest run of digits of the radix; no digit at all
    gives [NaN], and the integer that was read is returned as the double
    nearest to it.  (Past twenty significant decimal digits the language
    lets an engine read the further digits as zeros; the current engines
    do not.)

    A string is the UTF-8 bytes of its text.  White space is what the
    language counts as such, line terminators included: U+0009 to U+000D
    and U+0020, of one byte; U+00A0, of two; U+1680, U+2000 to U+200A,
    U+2028, U+2029, U+202F, U+205F, U+3000 and U+FEFF, of three. *)

Definition is_space (c : ascii) : bool :=
  let n := nat_of_ascii c in
  ((9 <=? n) && (n <=? 13) || (n =? 32))%nat.

Definition is_space2 (c1 c2 : ascii) : bool :=
  ((nat_of_ascii c1 =? 194) && (nat_of_ascii c2 =? 160))%nat.

Definition is_space3 (c1 c2 c3 : ascii) : bool :=
  let a := nat_of_ascii c1 in
  let b := nat_of_ascii c2 in
  let c := nat_of_ascii c3 in
  ((a =? 225) && (b =? 154) && (c =? 128)
   || (a =? 226) && (b =? 128)
      && ((128 <=? c) && (c <=? 138) || (c =? 168) || (c =? 169) || (c =? 175))
   || (a =? 226) && (b =? 129) && (c =? 159)
   || (a =? 227) && (b =? 128) && (c =? 128)
   || (a =? 239) && (b =? 187) && (c =? 191))%nat.

Fixpoint skip_spaces (s : string) : string :=
  match s with
  | String c1 s1 =>
      if is_space c1 then skip_spaces s1 else
      match s1 with
      | String c2 s2 =>
          if is_space2 c1 c2 then skip_spaces s2 else
          match s2 with
          | String c3 s3 => if is_space3 c1 c2 c3 then skip_spaces s3 else s
          | EmptyString => s
          end
      | EmptyString => s
      end
  | EmptyString => s
  end.

Definition digit_of (radix : Z) (c : ascii) : option Z :=
  let n := Z.of_nat (nat_of_ascii c) in
  let d := if (48 <=? n) && (n <=? 57) then Some (n - 48)
           else if (97 <=? n) && (n <=? 122) then Some (n - 87)
           else if (65 <=? n) && (n <=? 90) then Some (n - 55)
           else None in
  d' ← d; if d' <? radix then Some d' else None.

(** The longest prefix of digits, read in [radix]; [None] when it is empty. *)
Fixpoint digits (radix : Z) (s : string) (acc : option Z) : option Z :=
  match s with
  | String c s' =>
      match digit_of radix c with
      | Some d => digits radix s' (Some (default 0 acc * radix + d))
      | None => acc
      end
  | EmptyString => acc
  end.

(** The digits after the sign: hexadecimal after [0x] or [0X], decimal
    otherwise. *)
Definition magnitude (s : string) : option Z :=
  let '(radix, s) :=
    match s with
    | String "0"%char (String "x"%char s')
    | String "0"%char (String "X"%char s') => (16, s')
    | _ => (10, s)
    end in
  digits radix s None.

Definition parseInt (s : string) : number :=
  let s := skip_spaces s in
  let '(sign, s) :=
    match s with
    | String "-"%char s' => (-1, s')
    | String "+"%char s' => (1, s')
    | _ => (1, s)
    end in
  match magnitude s with
  | Some n => Number.round (sign * n)
  | None => NaN
  end.

(** The [amount] state: the number [10] it starts from and is reset to,
    or the text of the input once the user has typed ([e.target.value]). *)
Inductive amountState :=
| Typed (text : string)
| Preset (n : Z).

(** [String(n)] for an integer [n] of less than 22 digits: its decimal
    numeral. *)
Definition toString (n : Z) : string := NilZero.string_of_int (Z.to_int n).

(** [parseInt(amount)]: a number is first turned into a string. *)
Definition parseInt_amount (a : amountState) : number :=
  match a with
  | Typed text => parseInt text
  | Preset n => parseInt (toString n)
  end.

(** [iso.split('T')[0]] *)
Fixpoint split_T_0 (iso : string) : string :=
  match iso with
  | String c s' => if Ascii.eqb c "T"%char then EmptyString else String c (split_T_0 s')
  | EmptyString => EmptyString
  end.

Record Form := {
  organizationName : string;
  requestedItem : string;
  amount : amountState;
  contactEmail : string;
  submissionStatus : option string
}.

(** [handleSubmit].  [now] and [now'] are the two readings of
    [new Date().toISOString()], [newId] the id the store gives the new
    document. *)
Definition newRequest (now now' : string) (f : Form) : Req.t :=
  {| Req.organization := organizationName f;
     Req.item := requestedItem f;
     Req.amount := parseInt_amount (amount f);
     Req.contactEmail := Some (contactEmail f);
     Req.status := "Pending";
     Req.requestedDate := split_T_0 now;
     Req.timestamp := Some now';
     Req.processedBy := Absent |}.

Definition handleSubmit (e : Env) (now now' newId : string) (f : Form)
    (requests : gmap string Req.t) : Form * gmap string Req.t :=
  if negb (db e) || negb (isAuthReady e) then
    ({| organizationName := organizationName f; requestedItem := requestedItem f;
        amount := amount f; contactEmail := contactEmail f;
        submissionStatus := Some "error" |}, requests)
  else if online e then
    ({| organizationName := ""; requestedItem := requestedItem f;
        amount := Preset 10; contactEmail := "";
        submissionStatus := Some "success" |},
     Firestore.addDoc newId (newRequest now now' f) requests)
  else
    ({| organizationName := organizationName f; requestedItem := requestedItem f;
        amount := amount f; contactEmail := contactEmail f;
        submissionStatus := Some "error" |}, requests).

End RequestForm.

(** ** The manager / citizen portal (src/App.js) *)

Module Portal.

(** Documents of [.../public/data/distribution_records].  [timestamp] is
    the [Date] that the listener reads the stored value as (a store
    timestamp through [toDate()], anything else through [new Date(...)]):
    an instant, in milliseconds, or the invalid date ([None]), which is
    what a record without [timestamp] gives. *)
Module Rec.
Record t := {
  recipientId : string;
  foodItem : string;
  quantity : number;
  location : string;
  status : string;
  timestamp : option Z
}.

Definition merge (st : string) (d : t) : t :=
  {| recipientId := recipientId d; foodItem := foodItem d;
     quantity := quantity d; location := location d;
     status := st; timestamp := timestamp d |}.
End Rec.

(** [userId && userId.startsWith(p)], for a [userId] that is [null] or a
    string. *)
Definition startsWith (p : string) (userId : option string) : bool :=
  match userId with
  | Some u => String.prefix p u
  | None => false
  end.

Definition isManager (userId : option string) : bool := startsWith "manager-" userId.
Definition isCitizen (userId : option string) : bool := startsWith "citizen-" userId.

(** [!userId] is also true of the empty string. *)
Definition noUser (userId : option string) : bool :=
  match userId with
  | Some u => String.eqb u ""
  | None => true
  end.

(** [recordsQuery]: the whole collection, or for a citizen
    [where('recipientId', '==', userId)]. *)
Definition recordsQuery (userId : option string) (r : Rec.t) : bool :=
  if isCitizen userId
  then match userId with
       | Some u => String.eqb (Rec.recipientId r) u
       | None => false
       end
  else true.

(** [new Date(ms)] for a number: the instant itself when it lies within
    8.64e15 ms of the epoch, the invalid date otherwise. *)
Definition newDate (ms : number) : option Z :=
  match ms with
  | Num z => if Z.abs z <=? 8640000000000000 then Some z else None
  | NaN | Inf _ => None
  end.

(** [date.getTime()]: [NaN] for the invalid date. *)
Definition getTime (date : option Z) : number :=
  match date with
  | Some ms => Num ms
  | None => NaN
  end.

(** [Array.prototype.sort] with a comparator that is consistent on the
    array: a stable sort, here by insertion.  An element goes before the
    first one it does not compare greater than. *)
Section Sort.
Context {A : Type} (compare : A → A → number).

Fixpoint insert (x : A) (l : list A) : list A :=
  match l with
  | [] => [x]
  | y :: l' => if Number.lt (Num 0) (compare x y) then y :: insert x l' else x :: l
  end.

Definition sort (l : list A) : list A := foldr insert [] l.

End Sort.

(** A comparator that returns [NaN] for some pair of the array is not
    consistent, and the language then leaves the order to the engine:
    all that is known of the result is that it holds the same elements. *)
Record Engine := {
  arrange : list (string * Rec.t) → list (string * Rec.t);
  arrange_Permutation docs : arrange docs ≡ₚ docs
}.

(** [(a, b) => b.timestamp.getTime() - a.timestamp.getTime()] *)
Definition newestFirst (a b : string * Rec.t) : number :=
  Number.sub (getTime (Rec.timestamp b.2)) (getTime (Rec.timestamp a.2)).

(** Every record of the list has a date that can be read: the
    comparator then never returns [NaN]. *)
Definition readable (docs : list (string * Rec.t)) : bool :=
  forallb (λ d, match Rec.timestamp d.2 with Some _ => true | None => false end) docs.

(** The data-fetching effect subscribes to [recordsQuery] once [db] and
    [userId] are there, and to nothing before. *)
Definition subscribe (e : Env) (userId : option string) : option (Rec.t → bool) :=
  if negb (db e) || noUser userId then None else Some (recordsQuery userId).

(** The snapshot listener: map, sort in memory, [setRecords]. *)
Definition recordsListener (engine : Engine) (docs : list (string * Rec.t))
    : list (string * Rec.t) :=
  if readable docs then sort newestFirst docs else arrange engine docs.

(** The page under the header: which of the two views is shown, and the
    rows of its table. *)
Inductive page :=
| ManagerDashboard (rows : list (string * Rec.t))
| CitizenPortal (rows : list (string * Rec.t)).

Definition render (userId : option string) (records : list (string * Rec.t)) : page :=
  if isManager userId then ManagerDashboard records else CitizenPortal records.

Definition rows (p : page) : list (string * Rec.t) :=
  match p with
  | ManagerDashboard r | CitizenPortal r => r
  end.

(** [updateRecordStatus] *)
Definition updateRecordStatus (e : Env) (userId : option string)
    (recordId newStatus : string) (records : gmap string Rec.t) : gmap string Rec.t :=
  if negb (db e) || negb (isManager userId) then records else
  match (if online e
         then Firestore.updateDoc recordId (Rec.merge newStatus) records
         else None) with
  | Some c => c
  | None => records
  end.

(** *** Identities

    [generateUserId]: [rnd] is what
    [Math.random().toString(36).substring(2, 9)] gives. *)
Definition generateUserId (rnd : string) : string := "citizen-" +:+ rnd.

(** The callback of [onAuthStateChanged], as a function of the [uid] of
    the signed-in user ([None]: no user).  It is created once, by an
    effect without dependencies, so that the [userId] it reads in
    [else if (!userId)] is the initial [null]. *)
Definition onAuthStateChanged (rnd : string) (user : option string) : option string :=
  match user with
  | Some uid => Some (if String.eqb uid "" then generateUserId rnd else uid)
  | None => Some (generateUserId rnd)
  end.

(** *** The figures of the citizen portal *)

(** [records.filter(r => r.status === st).length] *)
Definition countStatus (st : string) (records : list (string * Rec.t)) : nat :=
  length (List.filter (λ r, String.eqb (Rec.status r.2) st) records).

Definition totalPending (records : list (string * Rec.t)) : nat :=
  countStatus "Pending" records.
Definition totalCompleted (records : list (string * Rec.t)) : nat :=
  countStatus "Completed" records.

(** [records.find(r => r.status === 'Pending')?.location || 'TBD'] *)
Definition nextDistribution (records : list (string * Rec.t)) : string :=
  match find (λ r, String.eqb (Rec.status r.2) "Pending") records with
  | Some r => if String.eqb (Rec.location r.2) "" then "TBD" else Rec.location r.2
  | None => "TBD"
  end.

(** *** The action column of the table

    The ids of the rows that carry a "Complete" button: the pending rows
    of the manager view. *)
Definition completeButtons (p : page) : list string :=
  match p with
  | ManagerDashboard records =>
      (λ r, r.1) <$> List.filter (λ r, String.eqb (Rec.status r.2) "Pending") records
  | CitizenPortal _ => []
  end.

(** *** [uploadSampleData] *)

(** [s.replace(pattern, replacement)] for a string pattern: the first
    occurrence is replaced (the replacements used here hold no [$]). *)
Fixpoint replace (pattern replacement s : string) : string :=
  if String.prefix pattern s
  then replacement +:+
         String.substring (String.length pattern)
           (String.length s - String.length pattern) s
  else match s with
       | String c s' => String c (replace pattern replacement s')
       | EmptyString => EmptyString
       end.

(** The three records built when the module is loaded: [rnd k] is the
    random part of the [k]-th generated identifier, [loaded k] the
    [k]-th reading of [Date.now()]. *)
Definition initialRecords (rnd : nat → string) (loaded : nat → Z) : list Rec.t :=
  [ {| Rec.recipientId := generateUserId (rnd 0%nat); Rec.foodItem := "Rice (5kg)";
       Rec.quantity := Num 1; Rec.location := "Central Hub A";
       Rec.status := "Pending";
       Rec.timestamp := newDate (Number.sub (Num (loaded 0%nat)) (Num 100000)) |};
    {| Rec.recipientId := generateUserId (rnd 1%nat); Rec.foodItem := "Beans (1kg)";
       Rec.quantity := Num 3; Rec.location := "Local Center B";
       Rec.status := "Completed";
       Rec.timestamp := newDate (Number.sub (Num (loaded 1%nat)) (Num 50000)) |};
    {| Rec.recipientId := generateUserId (rnd 2%nat); Rec.foodItem := "Oil (1L)";
       Rec.quantity := Num 1; Rec.location := "Central Hub A";
       Rec.status := "Pending";
       Rec.timestamp := newDate (Number.sub (Num (loaded 2%nat)) (Num 10000)) |} ].

(** The five sample records.  [uuid 0] is the [crypto.randomUUID()] of
    the manager id, [uuid 1] to [uuid 3] those of the three citizens;
    [now] and [now'] are the two readings of [new Date()]. *)
Definition sampleRecords (userId : string) (uuid rnd : nat → string)
    (loaded : nat → Z) (now now' : Z) : list Rec.t :=
  [ {| Rec.recipientId := "manager-" +:+ String.substring 0 8 (uuid 0%nat);
       Rec.foodItem := "Management Report"; Rec.quantity := Num 1;
       Rec.location := "HQ"; Rec.status := "Completed";
       Rec.timestamp := Some now |} ]
  ++ imap (λ k r,
             {| Rec.recipientId :=
                  replace "citizen-"
                    ("citizen-" +:+ String.substring 0 5 (uuid (S k)))
                    (Rec.recipientId r);
                Rec.foodItem := Rec.foodItem r; Rec.quantity := Rec.quantity r;
                Rec.location := Rec.location r; Rec.status := Rec.status r;
                Rec.timestamp := Rec.timestamp r |})
       (initialRecords rnd loaded)
  ++ [ {| Rec.recipientId := userId; Rec.foodItem := "Citizen Kit";
          Rec.quantity := Num 1; Rec.location := "Local Center D";
          Rec.status := "Pending"; Rec.timestamp := Some now' |} ].

(** [batch.set(newDocRef, record)] for each record, the [k]-th under the
    fresh id [newId k]. *)
Fixpoint setAll (newId : nat → string) (first : nat) (docs : list Rec.t)
    (c : gmap string Rec.t) : gmap string Rec.t :=
  match docs with
  | [] => c
  | d :: docs' => setAll newId (S first) docs' (<[newId first := d]> c)
  end.

(** The button is on the manager dashboard, where [userId] is a string. *)
Definition uploadSampleData (e : Env) (userId : string) (uuid rnd : nat → string)
    (loaded : nat → Z) (now now' : Z) (newId : nat → string)
    (records : gmap string Rec.t)
    : gmap string Rec.t :=
  if negb (db e) then records
  else if online e
       then setAll newId 0 (sampleRecords userId uuid rnd loaded now now') records
       else records.

End Portal.

(** ** The starter data of [seedInitialData], as a running scenario *)

Module Scenario.
Import Dashboard.

Definition up : Env := {| db := true; isAuthReady := true; online := true |}.

Definition seededAt : string := "2025-10-06T08:00:00.000Z".

Definition cannedBeans : Inv.t :=
  {| Inv.item := "Canned Beans"; Inv.quantity := Num 450; Inv.unit := "cases";
     Inv.expiration := "2026-08-01"; Inv.lastUpdated := seededAt |}.
Definition freshProduce : Inv.t :=
  {| Inv.item := "Fresh Produce Mix"; Inv.quantity := Num 120; Inv.unit := "crates";
     Inv.expiration := "2025-10-15"; Inv.lastUpdated := seededAt |}.
Definition dryPasta (boxes : Z) : Inv.t :=
  {| Inv.item := "Dry Pasta"; Inv.quantity := Num boxes; Inv.unit := "boxes";
     Inv.expiration := "2027-01-20"; Inv.lastUpdated := seededAt |}.
Definition uhtMilk : Inv.t :=
  {| Inv.item := "Dairy (UHT Milk)"; Inv.quantity := Num 30; Inv.unit := "gallons";
     Inv.expiration := "2025-11-05"; Inv.lastUpdated := seededAt |}.

Definition shelterA : Req.t :=
  {| Req.organization := "Community Shelter A"; Req.item := "Canned Beans";
     Req.amount := Num 50; Req.status := "Pending"; Req.contactEmail := None;
     Req.requestedDate := "2025-10-08"; Req.timestamp := None;
     Req.processedBy := Absent |}.
Definition foodBank (units : Z) : Req.t :=
  {| Req.organization := "Food Bank Central"; Req.item := "Dry Pasta";
     Req.amount := Num units; Req.status := "Approved"; Req.contactEmail := None;
     Req.requestedDate := "2025-10-07"; Req.timestamp := None;
     Req.processedBy := Absent |}.

(** The snapshot of the inventory with [boxes] boxes of pasta, and of the
    requests with the food bank asking for [units] of them. *)
Definition stock (boxes : Z) : list (string * Inv.t) :=
  [("inv-beans", cannedBeans); ("inv-produce", freshProduce);
   ("inv-pasta", dryPasta boxes); ("inv-milk", uhtMilk)].
Definition orders (units : Z) : list (string * Req.t) :=
  [("req-shelter", shelterA); ("req-bank", foodBank units)].

Definition warehouse (boxes units : Z) : Store :=
  {| inventoryCollection := list_to_map (stock boxes);
     requestsCollection := list_to_map (orders units) |}.

(** A submission of the public form, as the specification gives it. *)
Definition shelterForm : RequestForm.Form :=
  {| RequestForm.organizationName := "Shelter A";
     RequestForm.requestedItem := "Rice";
     RequestForm.amount := RequestForm.Typed "20";
     RequestForm.contactEmail := "desk@shelter-a.example";
     RequestForm.submissionStatus := None |}.

(** The same form with another text in the amount field. *)
Definition shelterAsks (text : string) : RequestForm.Form :=
  {| RequestForm.organizationName := "Shelter A";
     RequestForm.requestedItem := "Rice";
     RequestForm.amount := RequestForm.Typed text;
     RequestForm.contactEmail := "desk@shelter-a.example";
     RequestForm.submissionStatus := None |}.

(** Two requests that came in through the form, a day apart. *)
Definition tuesdayRequest : Req.t :=
  RequestForm.newRequest "2025-10-07T09:00:00.000Z" "2025-10-07T09:00:00.001Z"
    shelterForm.
Definition wednesdayRequest : Req.t :=
  RequestForm.newRequest "2025-10-08T09:00:00.000Z" "2025-10-08T09:00:00.001Z"
    shelterForm.

(** Distribution records of two citizens and of a manager. *)
Definition riceFor (who : string) (at_ : Z) : Portal.Rec.t :=
  {| Portal.Rec.recipientId := who; Portal.Rec.foodItem := "Rice (5kg)";
     Portal.Rec.quantity := Num 1; Portal.Rec.location := "Central Hub A";
     Portal.Rec.status := "Pending"; Portal.Rec.timestamp := Some at_ |}.

Definition ledger : list (string * Portal.Rec.t) :=
  [("rec-1", riceFor "citizen-ab12cd3" 1000);
   ("rec-2", riceFor "citizen-zz99yy8" 2000);
   ("rec-3", riceFor "manager-1f0e2d3c" 3000);
   ("rec-4", riceFor "citizen-ab12cd3" 4000)].

(** A record that was stored without a timestamp. *)
Definition undated (who : string) : Portal.Rec.t :=
  {| Portal.Rec.recipientId := who; Portal.Rec.foodItem := "Oil (1L)";
     Portal.Rec.quantity := Num 1; Portal.Rec.location := "Local Center B";
     Portal.Rec.status := "Completed"; Portal.Rec.timestamp := None |}.

(** Two engines: one leaves an array it cannot order as it is, the other
    turns it around. *)
Definition asIs : Portal.Engine :=
  {| Portal.arrange := λ docs, docs;
     Portal.arrange_Permutation := λ docs, Permutation_refl docs |}.

Definition turned : Portal.Engine :=
  {| Portal.arrange := reverse;
     Portal.arrange_Permutation := λ docs, reverse_Permutation docs |}.

(** The seeded warehouse after its pasta document has been deleted. *)
Definition pastaGone : Store :=
  {| inventoryCollection := delete "inv-pasta" (inventoryCollection (warehouse 600 100));
     requestsCollection := requestsCollection (warehouse 600 100) |}.

(** An environment whose store refuses every write, a warehouse with no
    document at all, and the ids the store hands out for new documents. *)
Definition offline : Env := {| db := true; isAuthReady := true; online := false |}.

Definition emptyWarehouse : Dashboard.Store :=
  {| Dashboard.inventoryCollection := ∅; Dashboard.requestsCollection := ∅ |}.

Definition freshId (k : nat) : string :=
  "doc-" +:+ String (ascii_of_nat (97 + k)) EmptyString.

End Scenario.

(** ** Vocabulary of the properties *)

(** Every stock level of the collection is an integer that is not
    negative; and every stock level is [>= 0]. *)
Definition stock_ok (c : gmap string Inv.t) : Prop :=
  ∀ id d, c !! id = Some d → Number.nonneg (Inv.quantity d).

Definition stock_not_negative (c : gmap string Inv.t) : Prop :=
  ∀ id d, c !! id = Some d → Number.not_negative (Inv.quantity d).

(** The exact sum of the stock levels of a page, all integers. *)
Definition units (inventory : list (string * Inv.t)) : Z :=
  foldr (λ i sum, match Inv.quantity i.2 with Num q => q + sum | _ => sum end) 0 inventory.

(** The status changes the request life cycle allows. *)
Definition allowed_transition (old new : string) : Prop :=
  (old, new) ∈ [("Pending", "Approved"); ("Approved", "Shipped");
                ("Approved", "Pending"); ("Shipped", "Pending")].

(** Newest first, for the records of the portal: no record comes before
    a newer one (a record whose date cannot be read constrains nothing).
    And for the requests of the dashboard: an ISO time stamp is newer
    when it is later in the order of strings, and a request without one
    constrains nothing. *)
Definition newest_first (docs : list (string * Portal.Rec.t)) : Prop :=
  StronglySorted (λ a b, match Portal.Rec.timestamp a.2, Portal.Rec.timestamp b.2 with
                         | Some x, Some y => y <= x
                         | _, _ => True
                         end) docs.

Definition requests_newest_first (docs : list (string * Req.t)) : Prop :=
  Sorted (λ a b, match Req.timestamp a.2, Req.timestamp b.2 with
                 | Some x, Some y => String.leb y x = true
                 | _, _ => True
                 end) docs.

(** The record carries the instant [t]. *)
Definition dated (t : Z) (d : string * Portal.Rec.t) : bool :=
  match Portal.Rec.timestamp d.2 with
  | Some x => x =? t
  | None => false
  end.

(** What no handler of the dashboard rewrites in a request, and in an
    inventory item. *)
Definition same_request_details (r r' : Req.t) : Prop :=
  Req.organization r' = Req.organization r ∧ Req.item r' = Req.item r ∧
  Req.amount r' = Req.amount r ∧ Req.contactEmail r' = Req.contactEmail r ∧
  Req.requestedDate r' = Req.requestedDate r ∧ Req.timestamp r' = Req.timestamp r.

Definition same_item_details (d d' : Inv.t) : Prop :=
  Inv.item d' = Inv.item d ∧ Inv.unit d' = Inv.unit d ∧
  Inv.expiration d' = Inv.expiration d.

(** * Properties *)

Section NumberFacts.

(** Some roundings: the first integer that no double holds, two ties,
    the largest double and the first integer that rounds to infinity. *)
Example round_samples :
  Number.round (2 ^ 53) = Num (2 ^ 53) ∧
  Number.round (2 ^ 53 + 1) = Num (2 ^ 53) ∧
  Number.round (2 ^ 53 + 3) = Num (2 ^ 53 + 4) ∧
  Number.round (- (2 ^ 53 + 3)) = Num (- (2 ^ 53 + 4)) ∧
  Number.add (Num 9007199254740991) (Num 10) = Num 9007199254741000 ∧
  Number.sub (Num 9007199254740994) (Num 1) = Num 9007199254740992 ∧
  Number.round (2 ^ 1024 - 2 ^ 971) = Num (2 ^ 1024 - 2 ^ 971) ∧
  Number.round (2 ^ 1024 - 2 ^ 970 - 1) = Num (2 ^ 1024 - 2 ^ 971) ∧
  Number.round (2 ^ 1024 - 2 ^ 970) = Inf false ∧
  Number.round (- 2 ^ 1024) = Inf true.
Proof. split_and!; vm_compute; reflexivity. Qed.

Lemma round_safe z : Number.safe z → Number.round z = Num z.
Proof.
  unfold Number.safe, Number.round. intros Hz.
  destruct (Z.ltb_spec (Z.abs z) (2 ^ 53)) as [_|H]; [done|lia].
Qed.

(** The three ways an integer is rounded: kept as it is; moved to a
    double of the same sign and of magnitude [2 ^ 53] at least; or, past
    the largest double, to the infinity of its sign. *)
Lemma round_cases z :
  Z.abs z < 2 ^ 53 ∧ Number.round z = Num z ∨
  2 ^ 53 <= Z.abs z ∧
    ((∃ v, 2 ^ 53 <= v ∧ Number.round z = Num (Z.sgn z * v)) ∨
     Number.round z = Inf (z <? 0)).
Proof.
  unfold Number.round.
  destruct (Z.ltb_spec (Z.abs z) (2 ^ 53)) as [H|H]; [by left|right].
  split; [done|].
  set (m := Z.abs z) in *. set (e := Z.log2 m - 52).
  set (q := m / 2 ^ e). set (r := m mod 2 ^ e). set (half := 2 ^ (e - 1)).
  set (q' := if r <? half then q else if half <? r then q + 1
             else if Z.even q then q else q + 1).
  assert (He : 1 <= e).
  { assert (Z.log2 (2 ^ 53) <= Z.log2 m) by (by apply Z.log2_le_mono).
    rewrite Z.log2_pow2 in H0 by lia. lia. }
  assert (Hp : 2 <= 2 ^ e).
  { change 2 with (2 ^ 1) at 1. apply Z.pow_le_mono_r; lia. }
  assert (Hq : 2 ^ 52 <= q).
  { apply Z.div_le_lower_bound; [lia|].
    assert (0 < m) by lia.
    destruct (Z.log2_spec m) as [Hlo _]; [done|].
    replace (Z.log2 m) with (e + 52) in Hlo by lia.
    rewrite Z.pow_add_r in Hlo by lia. lia. }
  assert (Hq' : q <= q').
  { subst q'. destruct (r <? half), (half <? r), (Z.even q); lia. }
  assert (Hv : 2 ^ 53 <= q' * 2 ^ e).
  { change (2 ^ 53) with (2 ^ 52 * 2). assert (0 < 2 ^ 52) by lia. nia. }
  destruct (2 ^ 1024 <=? q' * 2 ^ e); [by right|left]. eauto.
Qed.

Lemma round_lt_0 z : Number.lt (Number.round z) (Num 0) = (z <? 0).
Proof.
  destruct (round_cases z) as [[_ ->]|[H [(v & Hv & ->)| ->]]]; simpl; [done| |].
  - assert (0 < 2 ^ 53) by lia.
    destruct (Z.ltb_spec z 0), (Z.ltb_spec (Z.sgn z * v) 0); try done; nia.
  - done.
Qed.

Lemma round_gt_0 z : Number.lt (Num 0) (Number.round z) = (0 <? z).
Proof.
  destruct (round_cases z) as [[_ ->]|[H [(v & Hv & ->)| ->]]]; simpl; [done| |].
  - assert (0 < 2 ^ 53) by lia.
    destruct (Z.ltb_spec 0 z), (Z.ltb_spec 0 (Z.sgn z * v)); try done; nia.
  - assert (0 < 2 ^ 53) by lia.
    destruct (Z.ltb_spec z 0), (Z.ltb_spec 0 z); try done; lia.
Qed.


Lemma round_not_negative z : 0 <= z → Number.not_negative (Number.round z).
Proof.
  intros Hz.
  destruct (round_cases z) as [[_ ->]|[H [(v & Hv & ->)| ->]]]; simpl; [done| |].
  - assert (0 < 2 ^ 53) by lia. nia.
  - destruct (Z.ltb_spec z 0); [lia|done].
Qed.

End NumberFacts.

Section StoreFacts.
Context {A : Type}.
Implicit Types (c : gmap string A) (docs : list (string * A)).

Lemma delivers_elem c docs id d :
  Firestore.delivers c docs → (id, d) ∈ docs ↔ c !! id = Some d.
Proof.
  unfold Firestore.delivers. intros ->. apply elem_of_map_to_list.
Qed.

Lemma find_elem (P : string * A → bool) docs x :
  find P docs = Some x → x ∈ docs ∧ P x = true.
Proof.
  intros H. apply find_some in H as [H1 H2]. split; [|done].
  by apply list_elem_of_In.
Qed.

Lemma find_delivered (P : string * A → bool) c docs x :
  Firestore.delivers c docs → find P docs = Some x →
  c !! x.1 = Some x.2 ∧ P x = true.
Proof.
  intros Hd [Hin HP]%find_elem. split; [|done].
  apply (delivers_elem c docs); [done|]. by destruct x.
Qed.

Lemma find_none_delivered (P : string * A → bool) c docs id d :
  Firestore.delivers c docs → find P docs = None →
  c !! id = Some d → P (id, d) = false.
Proof.
  intros Hd Hnone Hc. apply (find_none _ _ Hnone).
  apply list_elem_of_In. by apply (delivers_elem c docs).
Qed.

Lemma find_by_id c docs id d :
  Firestore.delivers c docs → c !! id = Some d →
  find (λ i, String.eqb i.1 id) docs = Some (id, d).
Proof.
  intros Hd Hc.
  destruct (find _ docs) as [[id' d']|] eqn:Hf.
  - apply (find_delivered _ c) in Hf as [Hc' Heq]; [|done].
    simpl in *. apply String.eqb_eq in Heq as ->. congruence.
  - apply (find_none_delivered _ c docs id d) in Hf; [|done..].
    simpl in Hf. by rewrite String.eqb_refl in Hf.
Qed.

Lemma updateDoc_Some id (f : A → A) c d :
  c !! id = Some d → Firestore.updateDoc id f c = Some (<[id := f d]> c).
Proof. unfold Firestore.updateDoc. by intros ->. Qed.

Lemma updateDoc_None id (f : A → A) c :
  c !! id = None → Firestore.updateDoc id f c = None.
Proof. unfold Firestore.updateDoc. by intros ->. Qed.

Lemma updateDoc_inv id (f : A → A) c c' :
  Firestore.updateDoc id f c = Some c' →
  ∃ d, c !! id = Some d ∧ c' = <[id := f d]> c.
Proof.
  unfold Firestore.updateDoc. destruct (c !! id) as [d|]; [|done].
  intros [= <-]. eauto.
Qed.

End StoreFacts.

Section ShipFacts.
Import Dashboard.
Implicit Types (e : Env) (s : Store) (inventory : list (string * Inv.t)).

Lemma not_ready_guard e :
  ready e → negb (db e) || negb (isAuthReady e) = false.
Proof. by intros [-> ->]. Qed.

(** What a Ship run does, by cases on the lookup and on the stock. *)
Lemma ship_run e now now' inventory requestId requestItem requestAmount s :
  ready e →
  handleStatusUpdate e now now' inventory requestId requestItem requestAmount
    "Shipped" s =
  match find (λ i, String.eqb (Inv.item i.2) requestItem) inventory with
  | None => (NotFound, s)
  | Some i =>
      if Number.lt (Number.sub (Inv.quantity i.2) requestAmount) (Num 0)
      then (Insufficient, s)
      else match commit e [UpdateRequest requestId "Shipped" (Some now);
                           UpdateInventory i.1
                             (Number.sub (Inv.quantity i.2) requestAmount) now'] s with
           | Some s' => (Written, s')
           | None => (Rejected, s)
           end
  end.
Proof.
  intros Hr. unfold handleStatusUpdate. rewrite (not_ready_guard e Hr).
  change (String.eqb "Shipped" "Shipped") with true.
  change (String.eqb "Shipped" "Pending") with false. cbv [negb].
  destruct (find _ inventory) as [i|]; [|done].
  by destruct (Number.lt _ _).
Qed.

(** A run that is not a Ship run stages the status update alone. *)
Lemma status_run e now now' inventory requestId requestItem requestAmount newStatus s :
  ready e → String.eqb newStatus "Shipped" = false →
  handleStatusUpdate e now now' inventory requestId requestItem requestAmount
    newStatus s =
  match commit e [UpdateRequest requestId newStatus
                    (if negb (String.eqb newStatus "Pending") then Some now else None)] s with
  | Some s' => (Written, s')
  | None => (Rejected, s)
  end.
Proof.
  intros Hr Hs. unfold handleStatusUpdate. rewrite (not_ready_guard e Hr).
  by rewrite Hs.
Qed.

Lemma not_ready_status_run e now now' inventory requestId requestItem requestAmount newStatus s :
  ¬ ready e →
  handleStatusUpdate e now now' inventory requestId requestItem requestAmount
    newStatus s = (NotReady, s).
Proof.
  intros Hr. unfold handleStatusUpdate.
  destruct (db e) eqn:?, (isAuthReady e) eqn:?; try done.
  destruct Hr. by split.
Qed.

(** The batch of a Ship run, committed on a store that holds both
    documents. *)
Lemma commit_ship e requestId itemId st p q now' r d s :
  online e = true →
  requestsCollection s !! requestId = Some r →
  inventoryCollection s !! itemId = Some d →
  commit e [UpdateRequest requestId st p; UpdateInventory itemId q now'] s =
  Some {| inventoryCollection := <[itemId := Inv.merge q now' d]> (inventoryCollection s);
          requestsCollection := <[requestId := Req.merge st p r]> (requestsCollection s) |}.
Proof.
  intros Ho Hr Hd. unfold commit. rewrite Ho. simpl.
  rewrite (updateDoc_Some _ _ _ _ Hr). simpl.
  by rewrite (updateDoc_Some _ _ _ _ Hd).
Qed.

Lemma commit_offline e batch s : online e = false → commit e batch s = None.
Proof. unfold commit. by intros ->. Qed.


(** How a Ship run ends: with the store as it was, or "Written" and the
    two documents of the batch, both found in the store, both updated. *)
Lemma ship_outcome e now now' inventory requestId requestItem requestAmount s :
  let run := handleStatusUpdate e now now' inventory requestId requestItem
               requestAmount "Shipped" s in
  run.1 ≠ Written ∧ run.2 = s ∨
  ∃ i r held,
    ready e ∧ online e = true ∧
    find (λ i, String.eqb (Inv.item i.2) requestItem) inventory = Some i ∧
    Number.lt (Number.sub (Inv.quantity i.2) requestAmount) (Num 0) = false ∧
    requestsCollection s !! requestId = Some r ∧
    inventoryCollection s !! i.1 = Some held ∧
    run = (Written,
           {| inventoryCollection :=
                <[i.1 := Inv.merge (Number.sub (Inv.quantity i.2) requestAmount) now' held]>
                  (inventoryCollection s);
              requestsCollection :=
                <[requestId := Req.merge "Shipped" (Some now) r]> (requestsCollection s) |}).
Proof.
  intros run. subst run.
  destruct (db e) eqn:Hdb, (isAuthReady e) eqn:Hau;
    try (rewrite not_ready_status_run by (intros [? ?]; congruence); by left).
  assert (Hr : ready e) by done.
  rewrite ship_run by done.
  destruct (find _ inventory) as [i|] eqn:Hf; [|by left].
  destruct (Number.lt _ _) eqn:Hlt; [by left|].
  unfold commit. destruct (online e) eqn:Ho; [|by left]. simpl.
  destruct (Firestore.updateDoc requestId _ _) as [c|] eqn:Hu; [|by left].
  simpl. apply updateDoc_inv in Hu as (r & Hreq & ->).
  destruct (Firestore.updateDoc i.1 _ _) as [c'|] eqn:Hu'; [|by left].
  simpl in *. apply updateDoc_inv in Hu' as (held & Hinv & ->).
  right. exists i, r, held. by split_and!.
Qed.


End ShipFacts.

Section HandlerEffects.
Import Dashboard.
Implicit Types (e : Env) (s : Store) (inventory : list (string * Inv.t)).

(** Every way a status run can leave the store: untouched; with the
    request updated; or, for "Shipped" only, with the request and the
    stock of the found item updated together. *)
Lemma handleStatusUpdate_effect
    e now now' inventory requestId requestItem requestAmount newStatus s :
  let s' := (handleStatusUpdate e now now' inventory requestId requestItem
               requestAmount newStatus s).2 in
  s' = s ∨
  ∃ r, requestsCollection s !! requestId = Some r ∧
       requestsCollection s' =
         <[requestId := Req.merge newStatus
                          (if negb (String.eqb newStatus "Pending") then Some now else None) r]>
           (requestsCollection s) ∧
       (inventoryCollection s' = inventoryCollection s ∧ newStatus ≠ "Shipped" ∨
        ∃ i d, newStatus = "Shipped" ∧
               find (λ i, String.eqb (Inv.item i.2) requestItem) inventory = Some i ∧
               Number.lt (Number.sub (Inv.quantity i.2) requestAmount) (Num 0) = false ∧
               inventoryCollection s !! i.1 = Some d ∧
               inventoryCollection s' =
                 <[i.1 := Inv.merge (Number.sub (Inv.quantity i.2) requestAmount) now' d]>
                   (inventoryCollection s)).
Proof.
  intros s'. subst s'. unfold handleStatusUpdate.
  destruct (negb (db e) || negb (isAuthReady e)); [by left|].
  destruct (String.eqb newStatus "Shipped") eqn:Hship.
  - apply String.eqb_eq in Hship as ->.
    destruct (find _ inventory) as [i|] eqn:Hf; [|by left].
    destruct (Number.lt _ _) eqn:Hlt; [by left|].
    unfold commit. destruct (online e); [|by left]. simpl.
    destruct (Firestore.updateDoc requestId _ _) as [c|] eqn:Hu; [|by left].
    simpl. apply updateDoc_inv in Hu as (r & Hr & ->).
    destruct (Firestore.updateDoc i.1 _ _) as [c'|] eqn:Hu'; [|by left].
    simpl in *. apply updateDoc_inv in Hu' as (d & Hd & ->).
    right. exists r. split_and!; [done..|]. right. by exists i, d.
  - apply String.eqb_neq in Hship.
    unfold commit. destruct (online e); [|by left]. simpl.
    destruct (Firestore.updateDoc requestId _ _) as [c|] eqn:Hu; [|by left].
    simpl. apply updateDoc_inv in Hu as (r & Hr & ->).
    right. exists r. split_and!; [done..|]. by left.
Qed.

(** Every way a restock run can leave the store. *)
Lemma handleUpdateStock_effect e now inventory itemId s :
  let s' := (handleUpdateStock e now inventory itemId s).2 in
  s' = s ∨
  ∃ i d, find (λ i, String.eqb i.1 itemId) inventory = Some i ∧
         inventoryCollection s !! itemId = Some d ∧
         s' = {| inventoryCollection :=
                   <[itemId := Inv.merge (Number.add (Inv.quantity i.2) (Num 10)) now d]>
                     (inventoryCollection s);
                 requestsCollection := requestsCollection s |}.
Proof.
  intros s'. subst s'. unfold handleUpdateStock.
  destruct (negb (db e) || negb (isAuthReady e)); [by left|].
  destruct (find _ inventory) as [i|] eqn:Hf; [|by left].
  destruct (online e); [|by left].
  destruct (Firestore.updateDoc itemId _ _) as [c|] eqn:Hu; [|by left].
  simpl. apply updateDoc_inv in Hu as (d & Hd & ->).
  right. by exists i, d.
Qed.

Lemma stock_not_negative_insert (c : gmap string Inv.t) id d :
  stock_ok c → Number.not_negative (Inv.quantity d) →
  stock_not_negative (<[id := d]> c).
Proof.
  intros Hc Hd id' d'. rewrite lookup_insert. case_decide.
  - by intros [= <-].
  - intros Hl. specialize (Hc _ _ Hl). by destruct (Inv.quantity d').
Qed.

Lemma stock_ok_not_negative (c : gmap string Inv.t) :
  stock_ok c → stock_not_negative c.
Proof. intros Hc id d Hl. specialize (Hc _ _ Hl). by destruct (Inv.quantity d). Qed.

Lemma stock_ok_insert (c : gmap string Inv.t) id d :
  stock_ok c → Number.nonneg (Inv.quantity d) → stock_ok (<[id := d]> c).
Proof.
  intros Hc Hd id' d'. rewrite lookup_insert. case_decide.
  - by intros [= <-].
  - apply Hc.
Qed.

(** A number that is not [NaN] and has passed the check [< 0] is
    [>= 0]. *)
Lemma not_negative_not_lt (a : number) :
  a ≠ NaN → Number.lt a (Num 0) = false → Number.not_negative a.
Proof.
  destruct a as [x| |[]]; simpl; try done.
  intros _. destruct (Z.ltb_spec x 0); [done|lia].
Qed.

Lemma sub_integers_not_NaN (a : number) z :
  Number.nonneg a → Number.sub a (Num z) ≠ NaN.
Proof.
  destruct a as [x| |]; simpl; try done. intros _.
  by destruct (round_cases (x - z)) as [[_ ->]|[_ [(v & _ & ->)| ->]]].
Qed.

Lemma not_negative_add_10 (a : number) :
  Number.nonneg a → Number.not_negative (Number.add a (Num 10)).
Proof.
  destruct a as [x| |]; simpl; try done. intros ?. apply round_not_negative. lia.
Qed.

(** What a stock level that is an integer is [>=] than. *)
Lemma ge_integer x (b : number) :
  Number.ge (Num x) b = true → (∃ y, b = Num y ∧ y <= x) ∨ b = Inf true.
Proof.
  destruct b as [y| |[]]; simpl; try done; [|by right].
  destruct (Z.ltb_spec x y); [done|]. left. by exists y.
Qed.


End HandlerEffects.

Section ScenarioFacts.
Import Dashboard Scenario.

Lemma delivers_list_to_map {A} (docs : list (string * A)) :
  NoDup docs.*1 → Firestore.delivers (list_to_map docs) docs.
Proof.
  intros H. unfold Firestore.delivers. symmetry. by apply map_to_list_to_map.
Qed.

Lemma stock_delivered boxes units :
  Firestore.delivers (inventoryCollection (warehouse boxes units)) (stock boxes).
Proof.
  apply delivers_list_to_map. compute_done.
Qed.

Lemma orders_delivered boxes units :
  Firestore.delivers (requestsCollection (warehouse boxes units)) (orders units).
Proof.
  apply delivers_list_to_map. compute_done.
Qed.

Lemma up_ready : ready up.
Proof. by split. Qed.

Lemma delivers_concrete {A} (c : gmap string A) (docs : list (string * A)) :
  NoDup docs.*1 → c = list_to_map docs → Firestore.delivers c docs.
Proof. intros Hnd ->. by apply delivers_list_to_map. Qed.

End ScenarioFacts.

Section Shipping.
Import Dashboard.
Implicit Types (e : Env) (s : Store) (inventory : list (string * Inv.t)).

(** C1, amended. A Ship run sends one batch,
    [[update request; update inventory]], and the store takes both
    updates or neither.  Whatever the page shows and the store holds: a
    run that does not end "Written" leaves the store as it was; a run
    that ends "Written" has found both documents in the store, has set
    the request to "Shipped" (stamped with the time of the run) and the
    stock of the item to the quantity on the page minus the requested
    amount, and has changed nothing else.  When the page shows the
    current snapshot, the request is approved, the stock [q] covers the
    amount [a] and [q - a] is below [2 ^ 53], the run goes through
    whenever the store accepts the commit, and then the stock is
    [q - a], the old stock minus the amount, and the request is
    "Shipped". *)
Theorem ship_decrements_stock_and_marks_shipped e now now' :
  (∀ inventory requestId requestItem requestAmount s,
     let run := handleStatusUpdate e now now' inventory requestId requestItem
                  requestAmount "Shipped" s in
     (run.1 ≠ Written → run.2 = s) ∧
     (run.1 = Written →
        ∃ itemId shown r held r' held',
          find (λ i, String.eqb (Inv.item i.2) requestItem) inventory
            = Some (itemId, shown) ∧
          requestsCollection s !! requestId = Some r ∧
          inventoryCollection s !! itemId = Some held ∧
          requestsCollection run.2 !! requestId = Some r' ∧
          inventoryCollection run.2 !! itemId = Some held' ∧
          Req.status r' = "Shipped" ∧
          Req.processedBy r' = Value now ∧
          same_request_details r r' ∧
          Inv.quantity held' = Number.sub (Inv.quantity shown) requestAmount ∧
          Inv.lastUpdated held' = now' ∧
          same_item_details held held' ∧
          (∀ id, id ≠ itemId →
             inventoryCollection run.2 !! id = inventoryCollection s !! id) ∧
          (∀ id, id ≠ requestId →
             requestsCollection run.2 !! id = requestsCollection s !! id))) ∧
  (∀ inventory requestId r itemId d q a s,
     ready e →
     Firestore.delivers (inventoryCollection s) inventory →
     requestsCollection s !! requestId = Some r →
     Req.status r = "Approved" →
     Req.amount r = Num a →
     find (λ i, String.eqb (Inv.item i.2) (Req.item r)) inventory = Some (itemId, d) →
     Inv.quantity d = Num q →
     a <= q →
     Number.safe (q - a) →
     let run := handleStatusUpdate e now now' inventory requestId (Req.item r)
                  (Req.amount r) "Shipped" s in
     (online e = true → run.1 = Written) ∧
     (run.1 = Written →
        Inv.quantity <$> inventoryCollection s !! itemId = Some (Num q) ∧
        Inv.quantity <$> inventoryCollection run.2 !! itemId = Some (Num (q - a)) ∧
        Req.status <$> requestsCollection run.2 !! requestId = Some "Shipped")).
Proof.
  split.
  - intros inventory requestId requestItem requestAmount s run.
    destruct (ship_outcome e now now' inventory requestId requestItem requestAmount s)
      as [[Hne Hs]|(i & r & held & _ & _ & Hf & _ & Hreq & Hinv & Hrun)];
      fold run in Hne, Hs || fold run in Hrun.
    + split; [done|]. by intros Hw.
    + rewrite Hrun. simpl. split; [done|]. intros _.
      destruct i as [itemId shown]. simpl in *.
      exists itemId, shown, r, held. eexists _, _.
      split_and!; [done|done|done|apply lookup_insert_eq|apply lookup_insert_eq|..];
        try done.
      * intros id Hne. by apply lookup_insert_ne.
      * intros id Hne. by apply lookup_insert_ne.
  - intros inventory requestId r itemId d q a s Hr Hd Hreq Hst Ha Hf Hq Hle Hsafe run.
    destruct (find_delivered _ _ _ _ Hd Hf) as [Hinv _]. simpl in Hinv.
    assert (Hsub : Number.sub (Inv.quantity d) (Req.amount r) = Num (q - a)).
    { rewrite Hq, Ha. simpl. by apply round_safe. }
    assert (Hrun : run = match commit e [UpdateRequest requestId "Shipped" (Some now);
                                         UpdateInventory itemId (Num (q - a)) now'] s with
                         | Some s' => (Written, s')
                         | None => (Rejected, s)
                         end).
    { subst run. rewrite ship_run by done. rewrite Hf. simpl.
      rewrite Hsub. simpl.
      destruct (Z.ltb_spec (q - a) 0) as [?|_]; [lia|done]. }
    destruct (online e) eqn:Ho.
    + rewrite (commit_ship e requestId itemId "Shipped" (Some now)
                 (Num (q - a)) now' r d s Ho Hreq Hinv) in Hrun.
      rewrite Hrun. simpl. split; [done|]. intros _.
      rewrite Hinv, !lookup_insert_eq. simpl. by rewrite Hq.
    + rewrite (commit_offline e _ s Ho) in Hrun. rewrite Hrun. simpl.
      split; done.
Qed.

(** C2, amended. A Ship run for a request whose item the page shows
    with less stock than the amount asked for ends with "Insufficient
    stock" and the store as it was: neither the stock nor the status is
    written, whatever the store holds.
    The button that would start such a run is rendered disabled on top of
    that. *)
Theorem ship_insufficient_stock_writes_nothing
    e now now' inventory requestId r itemId shown q a s :
  Req.status r = "Approved" →
  Req.amount r = Num a →
  find (λ i, String.eqb (Inv.item i.2) (Req.item r)) inventory = Some (itemId, shown) →
  Inv.quantity shown = Num q →
  q < a →
  let run := handleStatusUpdate e now now' inventory requestId (Req.item r)
               (Req.amount r) "Shipped" s in
  run.2 = s ∧
  (ready e → run.1 = Insufficient) ∧
  inventoryCollection run.2 !! itemId = inventoryCollection s !! itemId ∧
  requestsCollection run.2 !! requestId = requestsCollection s !! requestId ∧
  (∀ buttons b,
     requestCard (isAuthReady e) inventory (requestId, r) = Some buttons →
     b ∈ buttons → newStatus (onClick b) = "Shipped" → disabled b = true).
Proof.
  intros Hst Ha Hf Hq Hlt run.
  assert (Hrun : run.2 = s ∧ (ready e → run.1 = Insufficient)).
  { subst run. destruct (db e) eqn:Hdb, (isAuthReady e) eqn:Hau;
      try (rewrite not_ready_status_run by (intros [? ?]; congruence);
           split; [done|intros [? ?]; congruence]).
    rewrite ship_run by done. rewrite Hf. simpl. rewrite Hq, Ha.
    cbn [Number.sub]. rewrite round_lt_0.
    destruct (Z.ltb_spec (q - a) 0) as [_|?]; [done|lia]. }
  destruct Hrun as [Hs Ho]. rewrite Hs. split_and!; [done..|].
  intros buttons b. unfold requestCard. simpl. rewrite Hf, Hst.
  change (String.eqb "Approved" "Pending") with false.
  change (String.eqb "Approved" "Approved") with true.
  simpl. rewrite Hq, Ha. simpl.
  destruct (Z.ltb_spec q a) as [_|?]; [|lia]. simpl.
  intros [= <-]. rewrite !elem_of_cons, elem_of_nil.
  intros [->|[->|[]]]; simpl; [by rewrite orb_true_r|done].
Qed.

(** C9. A Ship run for an item name that no inventory document carries
    stops at "Cannot ship": nothing is committed, the store is as it was,
    and so is the request whose status update had been staged. *)
Theorem ship_unknown_item_writes_nothing
    e now now' inventory requestId requestItem requestAmount s :
  Firestore.delivers (inventoryCollection s) inventory →
  (∀ id d, inventoryCollection s !! id = Some d → Inv.item d ≠ requestItem) →
  let run := handleStatusUpdate e now now' inventory requestId requestItem
               requestAmount "Shipped" s in
  run.2 = s ∧
  requestsCollection run.2 !! requestId = requestsCollection s !! requestId ∧
  (ready e → run.1 = NotFound).
Proof.
  intros Hd Hno run.
  assert (Hf : find (λ i, String.eqb (Inv.item i.2) requestItem) inventory = None).
  { destruct (find _ inventory) as [[id d]|] eqn:Hf; [|done].
    apply (find_delivered _ _ _ _ Hd) in Hf as [Hc Heq]. simpl in *.
    apply String.eqb_eq in Heq. by destruct (Hno id d Hc). }
  assert (Hrun : run.2 = s ∧ (ready e → run.1 = NotFound)).
  { subst run. destruct (db e) eqn:Hdb, (isAuthReady e) eqn:Hau;
      try (rewrite not_ready_status_run by (intros [? ?]; congruence);
           split; [done|intros [? ?]; congruence]).
    rewrite ship_run by done. by rewrite Hf. }
  destruct Hrun as [Hs Ho]. by rewrite Hs.
Qed.

End Shipping.


Section ShippingScenarios.
Import Dashboard Scenario.

(** The scenario of C1: 600 boxes of dry pasta, 100 requested.  And the
    same click after the pasta document has been deleted from the store:
    the batch is refused as a whole, and the request stays "Approved". *)
Lemma ship_dry_pasta_600_100 :
  (let run := handleStatusUpdate up "2025-10-09T10:00:00.000Z" "2025-10-09T10:00:00.001Z"
                (stock 600) "req-bank" "Dry Pasta" (Num 100) "Shipped"
                (warehouse 600 100) in
   run.1 = Written ∧
   Inv.quantity <$> inventoryCollection (warehouse 600 100) !! "inv-pasta"
     = Some (Num 600) ∧
   Inv.quantity <$> inventoryCollection run.2 !! "inv-pasta" = Some (Num 500) ∧
   Req.status <$> requestsCollection run.2 !! "req-bank" = Some "Shipped") ∧
  (let run := handleStatusUpdate up "2025-10-09T10:00:00.000Z" "2025-10-09T10:00:00.001Z"
                (stock 600) "req-bank" "Dry Pasta" (Num 100) "Shipped" pastaGone in
   run.1 = Rejected ∧
   run.2 = pastaGone ∧
   Req.status <$> requestsCollection pastaGone !! "req-bank" = Some "Approved").
Proof.
  destruct (ship_decrements_stock_and_marks_shipped up
              "2025-10-09T10:00:00.000Z" "2025-10-09T10:00:00.001Z")
    as [Hbatch Hship].
  split.
  - destruct (Hship (stock 600) "req-bank" (foodBank 100) "inv-pasta" (dryPasta 600)
                600 100 (warehouse 600 100))
      as (Hgo & Hdone).
    + exact up_ready.
    + apply stock_delivered.
    + reflexivity.
    + reflexivity.
    + reflexivity.
    + reflexivity.
    + reflexivity.
    + lia.
    + unfold Number.safe. lia.
    + specialize (Hgo eq_refl).
      destruct (Hdone Hgo) as (Hq & Hi & Hr).
      split; [exact Hgo|]. split; [exact Hq|]. split; [exact Hi|exact Hr].
  - split; [reflexivity|]. split; [|reflexivity].
    apply (proj1 (Hbatch (stock 600) "req-bank" "Dry Pasta" (Num 100) pastaGone)).
    intros H. discriminate H.
Defined.

(** C1, as stated, fails in two ways.  From a page that is one shipment
    behind (it still shows 600 boxes of pasta where the store holds 500),
    shipping 100 goes through and leaves the stock at 500, not at 400.
    And past [2 ^ 53] the difference is rounded: shipping 1 of
    9007199254740994 leaves 9007199254740992. *)
Lemma ship_is_not_always_stock_minus_amount :
  (let run := handleStatusUpdate up "2025-10-09T10:00:00.000Z" "2025-10-09T10:00:00.001Z"
                (stock 600) "req-bank" "Dry Pasta" (Num 100) "Shipped"
                (warehouse 500 100) in
   run.1 = Written ∧
   Req.status <$> requestsCollection (warehouse 500 100) !! "req-bank"
     = Some "Approved" ∧
   Inv.quantity <$> inventoryCollection (warehouse 500 100) !! "inv-pasta"
     = Some (Num 500) ∧
   Inv.quantity <$> inventoryCollection run.2 !! "inv-pasta" = Some (Num 500) ∧
   Inv.quantity <$> inventoryCollection run.2 !! "inv-pasta" ≠ Some (Num (500 - 100))) ∧
  (let run := handleStatusUpdate up "2025-10-09T10:00:00.000Z" "2025-10-09T10:00:00.001Z"
                (stock 9007199254740994) "req-bank" "Dry Pasta" (Num 1) "Shipped"
                (warehouse 9007199254740994 1) in
   run.1 = Written ∧
   Inv.quantity <$> inventoryCollection run.2 !! "inv-pasta"
     = Some (Num 9007199254740992) ∧
   Inv.quantity <$> inventoryCollection run.2 !! "inv-pasta"
     ≠ Some (Num (9007199254740994 - 1))).
Proof.
  split.
  - split_and!; [reflexivity..|]. intros H. discriminate H.
  - split_and!; [reflexivity..|]. intros H. discriminate H.
Qed.

(** The scenario of C2: 5 boxes of dry pasta, 10 requested. *)
Lemma ship_dry_pasta_5_10 :
  let run := handleStatusUpdate up "2025-10-09T10:00:00.000Z" "2025-10-09T10:00:00.001Z"
               (stock 5) "req-bank" "Dry Pasta" (Num 10) "Shipped"
               (warehouse 5 10) in
  run.1 = Insufficient ∧
  Inv.quantity <$> inventoryCollection run.2 !! "inv-pasta" = Some (Num 5) ∧
  Req.status <$> requestsCollection run.2 !! "req-bank" = Some "Approved".
Proof.
  destruct (ship_insufficient_stock_writes_nothing up
              "2025-10-09T10:00:00.000Z" "2025-10-09T10:00:00.001Z"
              (stock 5) "req-bank" (foodBank 10) "inv-pasta" (dryPasta 5)
              5 10 (warehouse 5 10))
    as (_ & Hout & Hi & Hr & _).
  - reflexivity.
  - reflexivity.
  - reflexivity.
  - reflexivity.
  - lia.
  - split; [exact (Hout up_ready)|]. split.
    + exact (f_equal (fmap Inv.quantity) Hi).
    + exact (f_equal (fmap Req.status) Hr).
Defined.

(** C2, as stated, fails from a page that is behind: the store holds 5
    boxes of pasta, less than the 10 of the approved request, while the
    page still shows 600.  Its Ship button is enabled, and the run it
    starts goes through: it writes 590 boxes and "Shipped". *)
Lemma ship_from_old_page_overdraws :
  let run := handleStatusUpdate up "2025-10-09T10:00:00.000Z" "2025-10-09T10:00:00.001Z"
               (stock 600) "req-bank" "Dry Pasta" (Num 10) "Shipped"
               (warehouse 5 10) in
  Inv.quantity <$> inventoryCollection (warehouse 5 10) !! "inv-pasta" = Some (Num 5) ∧
  requestsCollection (warehouse 5 10) !! "req-bank" = Some (foodBank 10) ∧
  Req.status (foodBank 10) = "Approved" ∧
  Req.amount (foodBank 10) = Num 10 ∧
  RequestManager true (orders 10) (stock 600) =
    Some [ {| label := "Approve"; disabled := false;
              onClick := {| requestId := "req-shelter"; requestItem := "Canned Beans";
                            requestAmount := Num 50; newStatus := "Approved" |} |};
           {| label := "Ship"; disabled := false;
              onClick := {| requestId := "req-bank"; requestItem := "Dry Pasta";
                            requestAmount := Num 10; newStatus := "Shipped" |} |};
           {| label := "Reset"; disabled := false;
              onClick := {| requestId := "req-bank"; requestItem := "Dry Pasta";
                            requestAmount := Num 10; newStatus := "Pending" |} |} ] ∧
  run.1 = Written ∧
  Inv.quantity <$> inventoryCollection run.2 !! "inv-pasta" = Some (Num 590) ∧
  Req.status <$> requestsCollection run.2 !! "req-bank" = Some "Shipped".
Proof.
  split_and!; reflexivity.
Qed.

(** A request for an item the warehouse does not hold. *)
Lemma ship_cereal_not_stocked :
  let run := handleStatusUpdate up "2025-10-09T10:00:00.000Z" "2025-10-09T10:00:00.001Z"
               (stock 600) "req-bank" "Cereal" (Num 100) "Shipped"
               (warehouse 600 100) in
  run.1 = NotFound ∧ run.2 = warehouse 600 100.
Proof.
  destruct (ship_unknown_item_writes_nothing up
              "2025-10-09T10:00:00.000Z" "2025-10-09T10:00:00.001Z"
              (stock 600) "req-bank" "Cereal" (Num 100) (warehouse 600 100))
    as (Hs & _ & Hout).
  - apply stock_delivered.
  - intros id d Hc.
    apply (delivers_elem _ _ _ _ (stock_delivered 600 100)) in Hc.
    unfold stock in Hc. rewrite !elem_of_cons, elem_of_nil in Hc.
    destruct Hc as [Hc|[Hc|[Hc|[Hc|[]]]]]; inversion Hc; discriminate.
  - split; [exact (Hout up_ready)|exact Hs].
Defined.

End ShippingScenarios.



Section Rendering.
Import Dashboard.
Implicit Types (e : Env) (s : Store) (inventory : list (string * Inv.t)).

(** The buttons of one card that can be pressed, and what they pass on. *)
Lemma requestCard_pressable isReady inventory request card b :
  requestCard isReady inventory request = Some card →
  b ∈ card → disabled b = false →
  isReady = true ∧
  requestId (onClick b) = request.1 ∧
  requestItem (onClick b) = Req.item request.2 ∧
  requestAmount (onClick b) = Req.amount request.2 ∧
  (Req.status request.2 = "Pending" ∧ newStatus (onClick b) = "Approved" ∨
   Req.status request.2 = "Approved" ∧ newStatus (onClick b) = "Shipped" ∧
     isShippable (find (λ i, String.eqb (Inv.item i.2) (Req.item request.2)) inventory)
       request.2 = true ∨
   Req.status request.2 = "Approved" ∧ newStatus (onClick b) = "Pending" ∨
   Req.status request.2 = "Shipped" ∧ newStatus (onClick b) = "Pending").
Proof.
  unfold requestCard.
  set (found := find _ inventory).
  destruct (String.eqb (Req.status request.2) "Pending") eqn:Hp;
  destruct (String.eqb (Req.status request.2) "Approved") eqn:Ha;
  destruct (String.eqb (Req.status request.2) "Shipped") eqn:Hs;
  try apply String.eqb_eq in Hp; try apply String.eqb_eq in Ha;
  try apply String.eqb_eq in Hs; try congruence;
  destruct (isShippable found request.2) eqn:Hsh, found as [i|] eqn:Hfound;
  simpl; try done; intros [= <-];
  rewrite ?elem_of_cons, elem_of_nil; intros Hb Hd;
  repeat (destruct Hb as [->|Hb]); try done; simpl in *;
  destruct isReady; try done; split_and!; try done; tauto.
Qed.

(** A pressable button of the page belongs to the card of one of the
    requests shown. *)
Lemma RequestManager_button isReady requests inventory buttons b :
  RequestManager isReady requests inventory = Some buttons →
  b ∈ buttons →
  ∃ request card, request ∈ requests ∧
    requestCard isReady inventory request = Some card ∧ b ∈ card.
Proof.
  unfold RequestManager. intros H Hb.
  destruct (mapM _ requests) as [cards|] eqn:Hm; [|done].
  simpl in H. injection H as <-.
  apply list_elem_of_In, in_concat in Hb as (card & Hcard & Hb).
  apply list_elem_of_In in Hb, Hcard.
  apply mapM_Some in Hm.
  apply list_elem_of_lookup in Hcard as [n Hn].
  destruct (Forall2_lookup_r _ _ _ _ _ Hm Hn) as (request & Hreq & Hcard).
  exists request, card. split_and!; [|done..].
  apply list_elem_of_lookup. eauto.
Qed.

End Rendering.

Section Invariants.
Import Dashboard.
Implicit Types (e : Env) (s : Store) (inventory : list (string * Inv.t)).

(** An action from the page that shows the current snapshots is an
    action from a page that may be behind. *)
Lemma step_press e s s' :
  step e s s' → press e (inventoryCollection s) (requestsCollection s) s s'.
Proof.
  intros [inventory requests buttons b now now' Hdi Hdr Hpage Hb Hen
         |inventory itemId now Hdi Hin].
  - by eapply press_status.
  - by eapply press_stock.
Qed.

Lemma restock_keeps_stock_not_negative e now shown inventory itemId s :
  stock_ok shown → stock_ok (inventoryCollection s) →
  Firestore.delivers shown inventory →
  stock_not_negative (inventoryCollection (handleUpdateStock e now inventory itemId s).2).
Proof.
  intros Hshown Hok Hd.
  destruct (handleUpdateStock_effect e now inventory itemId s)
    as [->|(i & d & Hf & Hc & ->)]; [by apply stock_ok_not_negative|].
  simpl. apply stock_not_negative_insert; [done|]. simpl.
  apply not_negative_add_10.
  apply (find_delivered _ _ _ _ Hd) in Hf as [Hi _]. by apply (Hshown _ _ Hi).
Qed.

Lemma status_run_keeps_stock_not_negative
    e now now' shown inventory requestId requestItem (a : Z) newStatus s :
  stock_ok shown → stock_ok (inventoryCollection s) →
  Firestore.delivers shown inventory →
  stock_not_negative (inventoryCollection
                        (handleStatusUpdate e now now' inventory requestId requestItem
                           (Num a) newStatus s).2).
Proof.
  intros Hshown Hok Hd.
  destruct (handleStatusUpdate_effect e now now' inventory requestId requestItem
              (Num a) newStatus s)
    as [->|(r & _ & _ & [[-> _]|(i & d & _ & Hf & Hlt & _ & ->)])];
    [by apply stock_ok_not_negative..|].
  apply stock_not_negative_insert; [done|]. simpl.
  apply not_negative_not_lt; [|done].
  apply sub_integers_not_NaN.
  apply (find_delivered _ _ _ _ Hd) in Hf as [Hi _]. by apply (Hshown _ _ Hi).
Qed.

Lemma press_keeps_stock_not_negative e shownInventory shownRequests s s' :
  stock_ok shownInventory → stock_ok (inventoryCollection s) →
  press e shownInventory shownRequests s s' →
  stock_not_negative (inventoryCollection s').
Proof.
  intros Hshown Hok [inventory requests buttons b now now' Hdi Hdr Hpage Hb Hen
                    |inventory itemId now Hdi _].
  - unfold inventoryListener, requestsListener in *.
    destruct (RequestManager_button _ _ _ _ _ Hpage Hb)
      as (request & card & _ & Hcard & Hbc).
    destruct (requestCard_pressable _ _ _ _ _ Hcard Hbc Hen)
      as (_ & _ & Hitem & Hamount & Hcases).
    destruct (handleStatusUpdate_effect e now now' inventory
                (requestId (onClick b)) (requestItem (onClick b))
                (requestAmount (onClick b)) (newStatus (onClick b)) s)
      as [->|(r & _ & _ & [[-> _]|(i & d & Hnew & Hf & Hlt & _ & ->)])];
      [by apply stock_ok_not_negative..|].
    apply stock_not_negative_insert; [done|]. simpl.
    apply not_negative_not_lt; [|done].
    destruct Hcases as [[_ ?]|[(_ & _ & Hsh)|[[_ ?]|[_ ?]]]]; try congruence.
    rewrite <-Hitem, Hf in Hsh. simpl in Hsh.
    pose proof (find_delivered _ _ _ _ Hdi Hf) as [Hi _].
    specialize (Hshown _ _ Hi).
    destruct (Inv.quantity i.2) as [x| |] eqn:Hx; try done.
    apply ge_integer in Hsh as [(y & Hy & _)|Hy]; rewrite Hamount, Hy.
    + by apply (sub_integers_not_NaN (Num x)).
    + done.
  - by apply (restock_keeps_stock_not_negative e now shownInventory).
Qed.

(** C8. From stock levels that are integers and not negative, every
    stock level is [>= 0] afterwards (an integer again, or the infinity
    that a difference with an enormous negative amount overflows to):
    after a restock run, after a status run (Ship included, whether it
    goes through or is turned down) for an integer amount, and after any
    action the dashboard offers, be it from a page that is behind. *)
Theorem stock_never_negative e s :
  stock_ok (inventoryCollection s) →
  (∀ now inventory itemId,
     Firestore.delivers (inventoryCollection s) inventory →
     stock_not_negative
       (inventoryCollection (handleUpdateStock e now inventory itemId s).2)) ∧
  (∀ now now' inventory requestId requestItem (a : Z) newStatus,
     Firestore.delivers (inventoryCollection s) inventory →
     stock_not_negative
       (inventoryCollection
          (handleStatusUpdate e now now' inventory requestId requestItem
             (Num a) newStatus s).2)) ∧
  (∀ s', step e s s' → stock_not_negative (inventoryCollection s')) ∧
  (∀ shownInventory shownRequests s',
     stock_ok shownInventory → press e shownInventory shownRequests s s' →
     stock_not_negative (inventoryCollection s')).
Proof.
  intros Hok. split_and!.
  - intros. by apply (restock_keeps_stock_not_negative e now (inventoryCollection s)).
  - intros. by apply (status_run_keeps_stock_not_negative e now now' (inventoryCollection s)).
  - intros s' Hs%step_press.
    by apply (press_keeps_stock_not_negative e (inventoryCollection s)
                (requestsCollection s) s s').
  - intros shownInventory shownRequests s' Hshown Hs.
    by apply (press_keeps_stock_not_negative e shownInventory shownRequests s s').
Qed.

(** The status of a request after one action of the dashboard: what it
    was, or the end of an allowed transition from the status that the
    page showed. *)
Lemma press_status_cases e shownInventory shownRequests s s' :
  press e shownInventory shownRequests s s' →
  ∀ id r, requestsCollection s !! id = Some r →
  ∃ r', requestsCollection s' !! id = Some r' ∧
        (Req.status r' = Req.status r ∨
         ∃ r0, shownRequests !! id = Some r0 ∧
               allowed_transition (Req.status r0) (Req.status r')).
Proof.
  intros [inventory requests buttons b now now' Hdi Hdr Hpage Hb Hen
         |inventory itemId now Hdi _] id r Hr.
  - unfold inventoryListener, requestsListener in *.
    destruct (RequestManager_button _ _ _ _ _ Hpage Hb)
      as (request & card & Hin & Hcard & Hbc).
    destruct (requestCard_pressable _ _ _ _ _ Hcard Hbc Hen)
      as (_ & Hid & _ & _ & Hcases).
    destruct request as [rid r0].
    apply (delivers_elem _ _ _ _ Hdr) in Hin. simpl in *.
    destruct (handleStatusUpdate_effect e now now' inventory
                (requestId (onClick b)) (requestItem (onClick b))
                (requestAmount (onClick b)) (newStatus (onClick b)) s)
      as [->|(r1 & Hr1 & -> & _)]; [by eauto|].
    rewrite Hid in *. rewrite lookup_insert. case_decide as Hcase.
    + subst id. assert (r1 = r) as -> by congruence.
      eexists. split; [done|]. right. exists r0. split; [done|].
      simpl. unfold allowed_transition.
      destruct Hcases as [[-> ->]|[(-> & -> & _)|[[-> ->]|[-> ->]]]];
        set_solver.
    + eauto.
  - destruct (handleUpdateStock_effect e now (inventoryListener inventory) itemId s)
      as [->|(i & d & _ & _ & ->)]; eauto.
Qed.

(** C3, amended. Under an action from the page that shows the current
    snapshots, the status of a request moves along Pending→Approved,
    Approved→Shipped, Approved→Pending or Shipped→Pending, or it does
    not move: a pair of statuses outside this set is never a change.
    Under an action from a page that is behind, a status that moves goes
    to the end of such a transition from the status that the page
    showed. *)
Theorem status_moves_only_along_allowed_transitions e s s' :
  (step e s s' →
   ∀ id r, requestsCollection s !! id = Some r →
   ∃ r', requestsCollection s' !! id = Some r' ∧
         (¬ allowed_transition (Req.status r) (Req.status r') →
          Req.status r' = Req.status r)) ∧
  (∀ shownInventory shownRequests,
   press e shownInventory shownRequests s s' →
   ∀ id r, requestsCollection s !! id = Some r →
   ∃ r', requestsCollection s' !! id = Some r' ∧
         (Req.status r' ≠ Req.status r →
          ∃ r0, shownRequests !! id = Some r0 ∧
                allowed_transition (Req.status r0) (Req.status r'))).
Proof.
  split.
  - intros Hstep%step_press id r Hr.
    destruct (press_status_cases e _ _ s s' Hstep id r Hr) as (r' & Hr' & Hcases).
    exists r'. split; [done|]. intros Hnot.
    destruct Hcases as [?|(r0 & Hr0 & Hallowed)]; [done|].
    assert (r0 = r) as -> by congruence. done.
  - intros shownInventory shownRequests Hpress id r Hr.
    destruct (press_status_cases e _ _ s s' Hpress id r Hr) as (r' & Hr' & Hcases).
    exists r'. split; [done|]. intros Hne. by destruct Hcases.
Qed.

End Invariants.

Section InvariantScenarios.
Import Dashboard Scenario.

Lemma warehouse_stock_ok boxes units :
  0 <= boxes → stock_ok (inventoryCollection (warehouse boxes units)).
Proof.
  intros Hb id d Hc.
  apply (delivers_elem _ _ _ _ (stock_delivered boxes units)) in Hc.
  unfold stock in Hc. rewrite !elem_of_cons, elem_of_nil in Hc.
  destruct Hc as [Hc|[Hc|[Hc|[Hc|[]]]]]; injection Hc as _ ->; simpl; lia.
Qed.

(** C8 on the seeded warehouse: restocking the milk, shipping the pasta,
    and asking for more pasta than there is. *)
Lemma seeded_stock_never_negative :
  stock_not_negative
    (inventoryCollection
       (handleUpdateStock up "2025-10-09T10:00:00.000Z" (stock 600)
          "inv-milk" (warehouse 600 100)).2) ∧
  stock_not_negative
    (inventoryCollection
       (handleStatusUpdate up "2025-10-09T10:00:00.000Z"
          "2025-10-09T10:00:00.001Z" (stock 600) "req-bank" "Dry Pasta"
          (Num 100) "Shipped" (warehouse 600 100)).2) ∧
  stock_not_negative
    (inventoryCollection
       (handleStatusUpdate up "2025-10-09T10:00:00.000Z"
          "2025-10-09T10:00:00.001Z" (stock 600) "req-bank" "Dry Pasta"
          (Num 601) "Shipped" (warehouse 600 100)).2).
Proof.
  destruct (stock_never_negative up (warehouse 600 100)
              (warehouse_stock_ok 600 100 ltac:(lia)))
    as (Hrestock & Hship & _).
  split; [|split].
  - apply Hrestock. apply stock_delivered.
  - apply Hship. apply stock_delivered.
  - apply Hship. apply stock_delivered.
Defined.

(** What comes out is [>= 0] but need not be an integer: shipping an
    enormous negative amount from an enormous stock overflows. *)
Example shipment_can_overflow :
  stock_ok (inventoryCollection (warehouse (2 ^ 1023) (- 2 ^ 1023))) ∧
  Inv.quantity <$>
    inventoryCollection
      (handleStatusUpdate up "2025-10-09T10:00:00.000Z" "2025-10-09T10:00:00.001Z"
         (stock (2 ^ 1023)) "req-bank" "Dry Pasta" (Num (- 2 ^ 1023)) "Shipped"
         (warehouse (2 ^ 1023) (- 2 ^ 1023))).2 !! "inv-pasta" = Some (Inf false).
Proof.
  split; [apply warehouse_stock_ok; lia|]. vm_compute. reflexivity.
Qed.

(** Pressing "Approve" on the card of Community Shelter A is an action of
    the dashboard. *)
Lemma approve_shelter_step :
  step up (warehouse 600 100)
    (handleStatusUpdate up "2025-10-09T10:00:00.000Z" "2025-10-09T10:00:00.001Z"
       (stock 600) "req-shelter" "Canned Beans" (Num 50) "Approved"
       (warehouse 600 100)).2.
Proof.
  pose (b := {| label := "Approve"; disabled := false;
                onClick := {| requestId := "req-shelter";
                              requestItem := "Canned Beans";
                              requestAmount := Num 50;
                              newStatus := "Approved" |} |}).
  refine (step_status up (warehouse 600 100) (stock 600) (orders 100) _ b
            "2025-10-09T10:00:00.000Z" "2025-10-09T10:00:00.001Z"
            (stock_delivered 600 100) (orders_delivered 600 100) eq_refl _ eq_refl).
  apply list_elem_of_here.
Qed.

(** C3 on that action: the shelter's request goes from "Pending" to
    "Approved", the food bank's stays "Approved". *)
Lemma approve_shelter_allowed :
  let s' := (handleStatusUpdate up "2025-10-09T10:00:00.000Z"
               "2025-10-09T10:00:00.001Z" (stock 600) "req-shelter"
               "Canned Beans" (Num 50) "Approved" (warehouse 600 100)).2 in
  (∃ r', requestsCollection s' !! "req-shelter" = Some r' ∧
         (¬ allowed_transition "Pending" (Req.status r') →
          Req.status r' = "Pending")) ∧
  Req.status <$> requestsCollection s' !! "req-shelter" = Some "Approved" ∧
  Req.status <$> requestsCollection s' !! "req-bank" = Some "Approved".
Proof.
  split; [|split].
  - exact (proj1 (status_moves_only_along_allowed_transitions up (warehouse 600 100) _)
             approve_shelter_step "req-shelter" shelterA eq_refl).
  - reflexivity.
  - reflexivity.
Defined.

(** C3, as stated, fails from a page that is behind.  Two managers look
    at the seeded warehouse; one resets the approved request of the food
    bank; the page of the other still shows it approved, with its Ship
    button enabled, and pressing it takes the request from "Pending" to
    "Shipped". *)
Lemma old_page_ships_a_pending_request :
  let shown := warehouse 600 100 in
  let s := (handleStatusUpdate up "2025-10-09T10:00:00.000Z"
              "2025-10-09T10:00:00.001Z" (stock 600) "req-bank" "Dry Pasta"
              (Num 100) "Pending" shown).2 in
  let s' := (handleStatusUpdate up "2025-10-09T10:00:05.000Z"
               "2025-10-09T10:00:05.001Z" (stock 600) "req-bank" "Dry Pasta"
               (Num 100) "Shipped" s).2 in
  step up shown s ∧
  press up (inventoryCollection shown) (requestsCollection shown) s s' ∧
  Req.status <$> requestsCollection s !! "req-bank" = Some "Pending" ∧
  Req.status <$> requestsCollection s' !! "req-bank" = Some "Shipped" ∧
  ¬ allowed_transition "Pending" "Shipped".
Proof.
  intros shown s s'. split_and!.
  - pose (b := {| label := "Reset"; disabled := false;
                  onClick := {| requestId := "req-bank"; requestItem := "Dry Pasta";
                                requestAmount := Num 100; newStatus := "Pending" |} |}).
    refine (step_status up shown (stock 600) (orders 100) _ b
              "2025-10-09T10:00:00.000Z" "2025-10-09T10:00:00.001Z"
              (stock_delivered 600 100) (orders_delivered 600 100) eq_refl _ eq_refl).
    do 2 apply list_elem_of_further. apply list_elem_of_here.
  - pose (b := {| label := "Ship"; disabled := false;
                  onClick := {| requestId := "req-bank"; requestItem := "Dry Pasta";
                                requestAmount := Num 100; newStatus := "Shipped" |} |}).
    refine (press_status up _ _ s (stock 600) (orders 100) _ b
              "2025-10-09T10:00:05.000Z" "2025-10-09T10:00:05.001Z"
              (stock_delivered 600 100) (orders_delivered 600 100) eq_refl _ eq_refl).
    apply list_elem_of_further, list_elem_of_here.
  - reflexivity.
  - reflexivity.
  - unfold allowed_transition. rewrite !elem_of_cons, elem_of_nil.
    intros [H|[H|[H|[H|[]]]]]; discriminate H.
Qed.

End InvariantScenarios.



Section Restock.
Import Dashboard Scenario.
Implicit Types (e : Env) (s : Store) (inventory : list (string * Inv.t)).

(** C7, as stated, fails in three ways.  Restocking the UHT milk of the
    seeded warehouse raises its quantity from 30 to 40 and also rewrites
    its [lastUpdated] field, from the time of seeding to the time of the
    click.  From a page that is behind (it shows 600 boxes of pasta where
    the store holds 500) the restock writes 610, which is 110 more.  And
    past [2 ^ 53] the sum is rounded: 9007199254740991 becomes
    9007199254741000, which is 9 more. *)
Lemma restock_is_not_plus_ten_alone :
  (let s' := (handleUpdateStock up "2025-10-09T10:00:00.000Z" (stock 600)
                "inv-milk" (warehouse 600 100)).2 in
   inventoryCollection (warehouse 600 100) !! "inv-milk" = Some uhtMilk ∧
   inventoryCollection s' !! "inv-milk" =
     Some {| Inv.item := "Dairy (UHT Milk)"; Inv.quantity := Num 40;
             Inv.unit := "gallons"; Inv.expiration := "2025-11-05";
             Inv.lastUpdated := "2025-10-09T10:00:00.000Z" |} ∧
   inventoryCollection s' !! "inv-milk" ≠
     Some {| Inv.item := Inv.item uhtMilk; Inv.quantity := Num 40;
             Inv.unit := Inv.unit uhtMilk; Inv.expiration := Inv.expiration uhtMilk;
             Inv.lastUpdated := Inv.lastUpdated uhtMilk |}) ∧
  (let s' := (handleUpdateStock up "2025-10-09T10:00:00.000Z" (stock 600)
                "inv-pasta" (warehouse 500 100)).2 in
   Inv.quantity <$> inventoryCollection (warehouse 500 100) !! "inv-pasta"
     = Some (Num 500) ∧
   Inv.quantity <$> inventoryCollection s' !! "inv-pasta" = Some (Num 610) ∧
   Inv.quantity <$> inventoryCollection s' !! "inv-pasta" ≠ Some (Num (500 + 10))) ∧
  (let s' := (handleUpdateStock up "2025-10-09T10:00:00.000Z"
                (stock 9007199254740991) "inv-pasta"
                (warehouse 9007199254740991 100)).2 in
   Inv.quantity <$> inventoryCollection s' !! "inv-pasta"
     = Some (Num 9007199254741000) ∧
   Inv.quantity <$> inventoryCollection s' !! "inv-pasta"
     ≠ Some (Num (9007199254740991 + 10))).
Proof.
  split_and!; intros s'; split_and!; try reflexivity;
    intros H; vm_compute in H; discriminate H.
Qed.

(** C7, amended. A restock run that goes through on an item of the
    collection sets its [quantity] to the quantity that the page shows
    plus 10 and its [lastUpdated] to the time of the run, and leaves its
    [item], [unit] and [expiration] as they were; with a page that shows
    the current quantity [q], and [q + 10] below [2 ^ 53], that is
    exactly 10 more than the item had.  No document is created or
    deleted, no other inventory item changes and the requests are
    untouched. *)
Theorem restock_adds_ten_and_stamps
    e now inventory itemId shown held s :
  ready e → online e = true →
  find (λ i, String.eqb i.1 itemId) inventory = Some (itemId, shown) →
  inventoryCollection s !! itemId = Some held →
  let run := handleUpdateStock e now inventory itemId s in
  run.1 = Written ∧
  inventoryCollection run.2 !! itemId =
    Some {| Inv.item := Inv.item held;
            Inv.quantity := Number.add (Inv.quantity shown) (Num 10);
            Inv.unit := Inv.unit held; Inv.expiration := Inv.expiration held;
            Inv.lastUpdated := now |} ∧
  (∀ q, Inv.quantity shown = Num q → Inv.quantity held = Num q →
        Number.safe (q + 10) →
        Inv.quantity <$> inventoryCollection run.2 !! itemId = Some (Num (q + 10))) ∧
  (Firestore.delivers (inventoryCollection s) inventory → shown = held) ∧
  (∀ id, id ≠ itemId →
     inventoryCollection run.2 !! id = inventoryCollection s !! id) ∧
  dom (inventoryCollection run.2) = dom (inventoryCollection s) ∧
  requestsCollection run.2 = requestsCollection s.
Proof.
  intros Hr Ho Hf Hc run. subst run. unfold handleUpdateStock.
  rewrite (not_ready_guard e Hr), Hf, Ho.
  rewrite (updateDoc_Some _ _ _ _ Hc). simpl.
  split_and!; [done| | | | | |done].
  - by rewrite lookup_insert_eq.
  - intros q Hq _ Hsafe. rewrite lookup_insert_eq. simpl. rewrite Hq. simpl.
    by rewrite round_safe.
  - intros Hd. rewrite (find_by_id _ _ _ _ Hd Hc) in Hf. congruence.
  - intros id Hne. by rewrite lookup_insert_ne.
  - by apply dom_insert_lookup_L.
Qed.

(** The amended C7 on the seeded warehouse: beans go from 450 to 460
    cases. *)
Lemma restock_canned_beans :
  let run := handleUpdateStock up "2025-10-09T10:00:00.000Z" (stock 600)
               "inv-beans" (warehouse 600 100) in
  run.1 = Written ∧
  inventoryCollection run.2 !! "inv-beans" =
    Some {| Inv.item := "Canned Beans"; Inv.quantity := Num 460;
            Inv.unit := "cases"; Inv.expiration := "2026-08-01";
            Inv.lastUpdated := "2025-10-09T10:00:00.000Z" |} ∧
  Inv.quantity <$> inventoryCollection run.2 !! "inv-beans" = Some (Num (450 + 10)) ∧
  inventoryCollection run.2 !! "inv-milk" = Some uhtMilk.
Proof.
  destruct (restock_adds_ten_and_stamps up "2025-10-09T10:00:00.000Z" (stock 600)
              "inv-beans" cannedBeans cannedBeans (warehouse 600 100))
    as (Hout & Hi & Hexact & _ & Hothers & _).
  - exact up_ready.
  - reflexivity.
  - reflexivity.
  - reflexivity.
  - split; [exact Hout|]. split; [exact Hi|]. split.
    + apply Hexact; [reflexivity|reflexivity|]. unfold Number.safe. lia.
    + rewrite (Hothers "inv-milk"); [reflexivity|discriminate].
Defined.

(** A restock run never creates or deletes a document and never touches
    the requests, whether it goes through or not. *)
Lemma restock_frame e now inventory itemId s :
  let s' := (handleUpdateStock e now inventory itemId s).2 in
  dom (inventoryCollection s') = dom (inventoryCollection s) ∧
  requestsCollection s' = requestsCollection s ∧
  ∀ id, id ≠ itemId → inventoryCollection s' !! id = inventoryCollection s !! id.
Proof.
  intros s'. subst s'.
  destruct (handleUpdateStock_effect e now inventory itemId s)
    as [->|(i & d & _ & Hc & ->)]; [done|]. simpl.
  split_and!; [|done|].
  - by apply dom_insert_lookup_L.
  - intros id Hne. by rewrite lookup_insert_ne.
Qed.

End Restock.

Section SortFacts.
Context {A : Type} (compare : A → A → number).
Hypothesis compare_total :
  ∀ x y, Number.lt (Num 0) (compare x y) = true →
         Number.lt (Num 0) (compare y x) = false.

Lemma insert_cons x y l :
  Portal.insert compare x (y :: l) =
  if Number.lt (Num 0) (compare x y) then y :: Portal.insert compare x l
  else x :: y :: l.
Proof. reflexivity. Qed.

Lemma sort_cons x l :
  Portal.sort compare (x :: l) = Portal.insert compare x (Portal.sort compare l).
Proof. reflexivity. Qed.

Lemma insert_Permutation x l : Portal.insert compare x l ≡ₚ x :: l.
Proof.
  induction l as [|y l IH]; [done|]. rewrite insert_cons.
  destruct (Number.lt (Num 0) (compare x y)); [|done].
  by rewrite IH, Permutation_swap.
Qed.

Lemma sort_Permutation l : Portal.sort compare l ≡ₚ l.
Proof.
  induction l as [|x l IH]; [done|].
  by rewrite sort_cons, insert_Permutation, IH.
Qed.

Lemma insert_HdRel x y l :
  Number.lt (Num 0) (compare y x) = false →
  HdRel (λ a b, Number.lt (Num 0) (compare a b) = false) y l →
  HdRel (λ a b, Number.lt (Num 0) (compare a b) = false) y (Portal.insert compare x l).
Proof.
  intros Hyx Hhd. destruct l as [|z l].
  - by constructor.
  - rewrite insert_cons.
    destruct (Number.lt (Num 0) (compare x z)); constructor; [|done].
    by inversion Hhd.
Qed.

Lemma insert_Sorted x l :
  Sorted (λ a b, Number.lt (Num 0) (compare a b) = false) l →
  Sorted (λ a b, Number.lt (Num 0) (compare a b) = false) (Portal.insert compare x l).
Proof.
  induction 1 as [|y l Hs IH Hhd].
  - by repeat constructor.
  - rewrite insert_cons. destruct (Number.lt (Num 0) (compare x y)) eqn:Hgt.
    + constructor; [done|]. apply insert_HdRel; [|done].
      by apply compare_total.
    + constructor; [by constructor|]. by constructor.
Qed.

Lemma sort_Sorted l :
  Sorted (λ a b, Number.lt (Num 0) (compare a b) = false) (Portal.sort compare l).
Proof.
  induction l as [|x l IH]; [constructor|]. rewrite sort_cons. by apply insert_Sorted.
Qed.

Lemma insert_in_front x l :
  HdRel (λ a b, Number.lt (Num 0) (compare a b) = false) x l →
  Portal.insert compare x l = x :: l.
Proof.
  intros [|y l' Hxy]; [done|]. by rewrite insert_cons, Hxy.
Qed.

Lemma sort_of_Sorted l :
  Sorted (λ a b, Number.lt (Num 0) (compare a b) = false) l →
  Portal.sort compare l = l.
Proof.
  induction 1 as [|x l _ IH Hhd]; [done|].
  rewrite sort_cons, IH. by apply insert_in_front.
Qed.

(** Inserting keeps the order inside a class of elements none of which
    compares greater than another. *)
Lemma filter_insert (P : A → bool) x l :
  (∀ y, P x = true → P y = true → Number.lt (Num 0) (compare x y) = false) →
  List.filter P (Portal.insert compare x l) =
  if P x then x :: List.filter P l else List.filter P l.
Proof.
  intros HP. induction l as [|y l IH]; [done|]. rewrite insert_cons.
  destruct (Number.lt (Num 0) (compare x y)) eqn:Hgt; [|done].
  cbn [List.filter]. rewrite IH. destruct (P x) eqn:Hx, (P y) eqn:Hy; try done.
  specialize (HP y eq_refl Hy). congruence.
Qed.

Lemma filter_sort (P : A → bool) l :
  (∀ x y, P x = true → P y = true → Number.lt (Num 0) (compare x y) = false) →
  List.filter P (Portal.sort compare l) = List.filter P l.
Proof.
  intros HP. induction l as [|x l IH]; [done|].
  rewrite sort_cons, filter_insert by eauto. cbn [List.filter]. by rewrite IH.
Qed.

End SortFacts.

Lemma Sorted_weaken {A} (R R' : A → A → Prop) (l : list A) :
  (∀ x y, R x y → R' x y) → Sorted R l → Sorted R' l.
Proof.
  intros HR. induction 1 as [|x l _ IH Hhd]; constructor; [done|].
  destruct Hhd; constructor. by apply HR.
Qed.

Lemma Sorted_weaken_Forall {A} (P : A → Prop) (R R' : A → A → Prop) (l : list A) :
  (∀ x y, P x → P y → R x y → R' x y) → Forall P l → Sorted R l → Sorted R' l.
Proof.
  intros HR HP. induction 1 as [|x l _ IH Hhd]; constructor.
  - apply IH. by inversion HP.
  - destruct Hhd; constructor. inversion HP as [|? ? ? HP']. inversion HP'.
    by apply HR.
Qed.

Lemma StronglySorted_weaken {A} (R R' : A → A → Prop) (l : list A) :
  (∀ x y, R x y → R' x y) → StronglySorted R l → StronglySorted R' l.
Proof.
  intros HR. induction 1 as [|x l _ IH Hall]; constructor; [done|].
  eapply Forall_impl; [exact Hall|]. intros y. apply HR.
Qed.

Section Feeds.
Import Dashboard Portal Scenario.
Implicit Types (docs : list (string * Rec.t)) (engine : Engine).

(** On two records with a date the comparator is greater than 0 exactly
    when the first is the older one. *)
Lemma newestFirst_gt (a b : string * Rec.t) x y :
  Rec.timestamp a.2 = Some x → Rec.timestamp b.2 = Some y →
  Number.lt (Num 0) (newestFirst a b) = (x <? y).
Proof.
  intros Ha Hb. unfold newestFirst. rewrite Ha, Hb. cbn [getTime Number.sub].
  rewrite round_gt_0.
  destruct (Z.ltb_spec 0 (y - x)), (Z.ltb_spec x y); try done; lia.
Qed.

Lemma newestFirst_total (x y : string * Rec.t) :
  Number.lt (Num 0) (newestFirst x y) = true →
  Number.lt (Num 0) (newestFirst y x) = false.
Proof.
  destruct (Rec.timestamp x.2) as [tx|] eqn:Hx, (Rec.timestamp y.2) as [ty|] eqn:Hy;
    try (unfold newestFirst; rewrite Hx, Hy; done).
  rewrite (newestFirst_gt x y tx ty), (newestFirst_gt y x ty tx) by done.
  destruct (Z.ltb_spec tx ty), (Z.ltb_spec ty tx); try done; lia.
Qed.

Lemma readable_Forall docs :
  readable docs = true ↔ Forall (λ d, is_Some (Rec.timestamp d.2)) docs.
Proof.
  unfold readable. induction docs as [|d docs IH]; simpl.
  - split; [by constructor|done].
  - rewrite andb_true_iff, IH, Forall_cons.
    destruct (Rec.timestamp d.2) as [t|]; split; intros [H ?]; split; done.
Qed.

(** Whatever the engine, the listener hands on the records it was
    given. *)
Lemma recordsListener_Permutation engine docs : recordsListener engine docs ≡ₚ docs.
Proof.
  unfold recordsListener. destruct (readable docs).
  - apply sort_Permutation.
  - apply arrange_Permutation.
Qed.

Lemma recordsListener_readable engine docs :
  readable docs = true → recordsListener engine docs = sort newestFirst docs.
Proof. unfold recordsListener. by intros ->. Qed.

(** For records that all have a date, being in the order of the
    comparator and being newest first are the same. *)
Lemma Sorted_newest_first docs :
  Forall (λ d, is_Some (Rec.timestamp d.2)) docs →
  Sorted (λ a b, Number.lt (Num 0) (newestFirst a b) = false) docs ↔
  newest_first docs.
Proof.
  intros Hall. unfold newest_first. split.
  - intros Hs.
    apply (StronglySorted_weaken
             (λ a b, ∃ x y, Rec.timestamp a.2 = Some x ∧ Rec.timestamp b.2 = Some y
                            ∧ y <= x)).
    { intros a b (x & y & -> & -> & ?). done. }
    apply Sorted_StronglySorted.
    { intros a b c (x & y & Ha & Hb & ?) (y' & z & Hb' & Hc & ?).
      exists x, z. split_and!; [done..|]. assert (y = y') by congruence. lia. }
    eapply Sorted_weaken_Forall; [|exact Hall|exact Hs].
    intros a b [x Ha] [y Hb] Hab. cbv beta in Hab.
    rewrite (newestFirst_gt a b x y) in Hab by done.
    exists x, y. split_and!; [done..|]. by destruct (Z.ltb_spec x y).
  - intros Hs%StronglySorted_Sorted.
    eapply Sorted_weaken_Forall; [|exact Hall|exact Hs].
    intros a b [x Ha] [y Hb] Hab. simpl in Hab. rewrite Ha, Hb in Hab.
    rewrite (newestFirst_gt a b x y) by done.
    destruct (Z.ltb_spec x y); [lia|done].
Qed.

Lemma recordsListener_newest_first engine docs :
  readable docs = true → newest_first (recordsListener engine docs).
Proof.
  intros Hr. rewrite recordsListener_readable by done.
  apply Sorted_newest_first.
  - rewrite sort_Permutation. by apply readable_Forall.
  - apply sort_Sorted, newestFirst_total.
Qed.

(** C6, as stated, fails in two ways.  The requests listener of the
    dashboard hands a snapshot on in the order of the store, here the
    request of Tuesday before the request of Wednesday.  And the list
    that the listener of the portal sorts is not newest first when a
    record has no date to compare: an engine that leaves such an array
    as it is hands on the record of instant 1000 before the record of
    instant 3000. *)
Lemma feeds_are_not_always_newest_first :
  (requestsListener [("req-a", tuesdayRequest); ("req-b", wednesdayRequest)] =
     [("req-a", tuesdayRequest); ("req-b", wednesdayRequest)] ∧
   ¬ requests_newest_first
       (requestsListener [("req-a", tuesdayRequest); ("req-b", wednesdayRequest)])) ∧
  (recordsListener asIs
     [("rec-1", riceFor "citizen-ab12cd3" 1000);
      ("rec-2", undated "citizen-zz99yy8");
      ("rec-3", riceFor "citizen-ab12cd3" 3000)] =
     [("rec-1", riceFor "citizen-ab12cd3" 1000);
      ("rec-2", undated "citizen-zz99yy8");
      ("rec-3", riceFor "citizen-ab12cd3" 3000)] ∧
   ¬ newest_first
       (recordsListener asIs
          [("rec-1", riceFor "citizen-ab12cd3" 1000);
           ("rec-2", undated "citizen-zz99yy8");
           ("rec-3", riceFor "citizen-ab12cd3" 3000)])).
Proof.
  split; (split; [reflexivity|]).
  - intros H. inversion H as [|? ? _ Hhd]. inversion Hhd as [|? ? Hab].
    discriminate Hab.
  - intros H. inversion H as [|? ? _ Hall]. inversion Hall as [|? ? _ Hall'].
    inversion Hall' as [|? ? Hnewer _]. simpl in Hnewer. lia.
Qed.

(** C6, amended. The feed of the distribution records hands on a
    reordering of every snapshot, sorted in the listener; when every
    record of the snapshot has a date that can be read, the list is
    sorted by time stamp, newest first.  The inventory and the request
    feeds of the dashboard hand theirs on in the order delivered. *)
Theorem record_feed_sorted_newest_first :
  (∀ engine docs,
     recordsListener engine docs ≡ₚ docs ∧
     (readable docs = true → newest_first (recordsListener engine docs))) ∧
  (∀ inventory, inventoryListener inventory = inventory) ∧
  (∀ requests, requestsListener requests = requests).
Proof.
  split_and!; [|done..].
  intros engine docs. split; [apply recordsListener_Permutation|].
  apply recordsListener_newest_first.
Qed.

(** The amended C6 on the ledger, which the store delivers oldest
    first. *)
Lemma ledger_feed_newest_first :
  newest_first (recordsListener turned ledger) ∧
  (recordsListener turned ledger).*1 = ["rec-4"; "rec-3"; "rec-2"; "rec-1"].
Proof.
  split; [|reflexivity].
  apply (proj1 record_feed_sorted_newest_first turned ledger). reflexivity.
Defined.

End Feeds.

Section Roles.
Import Portal Scenario.

Lemma prefix_app (p rest : string) : String.prefix p (p +:+ rest) = true.
Proof.
  induction p as [|c p IH]; simpl; [by destruct rest|].
  by destruct (ascii_dec c c).
Qed.

Lemma prefix_inv (p u : string) :
  String.prefix p u = true → ∃ rest, u = p +:+ rest.
Proof.
  revert u. induction p as [|c p IH]; intros u; simpl.
  - intros _. by exists u.
  - destruct u as [|c' u]; [done|]. simpl.
    destruct (ascii_dec c c') as [->|]; [|done].
    intros [rest ->]%IH. by exists rest.
Qed.

Lemma citizen_roles rest :
  isCitizen (Some ("citizen-" +:+ rest)) = true ∧
  isManager (Some ("citizen-" +:+ rest)) = false ∧
  noUser (Some ("citizen-" +:+ rest)) = false.
Proof.
  split; [|done]. apply (prefix_app "citizen-").
Qed.

(** C4. In the session of a citizen (an identifier that starts with
    "citizen-") the feed is subscribed with the filter on [recipientId],
    the page shown is the citizen portal, and the rows of its table are
    exactly the documents of the collection whose [recipientId] is the
    identifier of the session. *)
Theorem citizen_sees_exactly_own_records e engine rest records docs :
  let userId := Some ("citizen-" +:+ rest) in
  db e = true →
  Firestore.delivers_where (recordsQuery userId) records docs →
  subscribe e userId = Some (recordsQuery userId) ∧
  render userId (recordsListener engine docs) = CitizenPortal (recordsListener engine docs) ∧
  ∀ id r, (id, r) ∈ rows (render userId (recordsListener engine docs)) ↔
          records !! id = Some r ∧ Rec.recipientId r = "citizen-" +:+ rest.
Proof.
  intros userId Hdb Hdocs.
  destruct (citizen_roles rest) as (Hc & Hm & Hu). fold userId in Hc, Hm, Hu.
  split_and!.
  - unfold subscribe. by rewrite Hdb, Hu.
  - unfold render. by rewrite Hm.
  - intros id r. unfold render. rewrite Hm. simpl.
    rewrite recordsListener_Permutation.
    unfold Firestore.delivers_where in Hdocs. rewrite Hdocs.
    rewrite list_elem_of_filter, elem_of_map_to_list.
    unfold recordsQuery. rewrite Hc. subst userId. simpl.
    rewrite Is_true_true, String.eqb_eq. tauto.
Qed.

(** C10. In a session whose identifier does not start with "manager-"
    (or that has no identifier yet), [updateRecordStatus] leaves the
    collection as it is, whatever record and status it is given. *)
Theorem non_manager_update_writes_nothing e userId recordId newStatus records :
  (∀ rest, userId ≠ Some ("manager-" +:+ rest)) →
  updateRecordStatus e userId recordId newStatus records = records.
Proof.
  intros Hno. unfold updateRecordStatus.
  destruct (isManager userId) eqn:Hm; [|by rewrite orb_true_r].
  destruct userId as [u|]; [|done]. simpl in Hm.
  apply prefix_inv in Hm as [rest ->]. by destruct (Hno rest).
Qed.

End Roles.

Section RoleScenarios.
Import Portal Scenario.

Lemma ledger_delivered_to_citizen :
  Firestore.delivers_where (recordsQuery (Some "citizen-ab12cd3"))
    (list_to_map ledger)
    [("rec-4", riceFor "citizen-ab12cd3" 4000);
     ("rec-1", riceFor "citizen-ab12cd3" 1000)].
Proof.
  unfold Firestore.delivers_where.
  assert (H : map_to_list (list_to_map ledger : gmap string Rec.t) ≡ₚ ledger)
    by (apply map_to_list_to_map; compute_done).
  rewrite H. apply Permutation_swap.
Qed.

(** C4 on the ledger: the citizen sees records 1 and 4, not the record
    of the other citizen nor that of the manager. *)
Lemma citizen_ab12cd3_rows :
  let shown := rows (render (Some "citizen-ab12cd3")
                       (recordsListener asIs
                          [("rec-4", riceFor "citizen-ab12cd3" 4000);
                           ("rec-1", riceFor "citizen-ab12cd3" 1000)])) in
  ("rec-1", riceFor "citizen-ab12cd3" 1000) ∈ shown ∧
  ¬ ("rec-2", riceFor "citizen-zz99yy8" 2000) ∈ shown ∧
  ¬ ("rec-3", riceFor "manager-1f0e2d3c" 3000) ∈ shown.
Proof.
  destruct (citizen_sees_exactly_own_records Scenario.up asIs "ab12cd3"
              (list_to_map ledger)
              [("rec-4", riceFor "citizen-ab12cd3" 4000);
               ("rec-1", riceFor "citizen-ab12cd3" 1000)]
              eq_refl ledger_delivered_to_citizen) as (_ & _ & Hrows).
  split; [|split].
  - apply Hrows. split; reflexivity.
  - intros H. apply Hrows in H as [_ H]. discriminate H.
  - intros H. apply Hrows in H as [_ H]. discriminate H.
Defined.

(** C10 on the ledger: a citizen asking to complete a record changes
    nothing. *)
Lemma citizen_cannot_complete :
  updateRecordStatus Scenario.up (Some "citizen-ab12cd3") "rec-1" "Completed"
    (list_to_map ledger) = list_to_map ledger.
Proof.
  apply non_manager_update_writes_nothing.
  intros rest H. discriminate H.
Defined.

(** A manager asking the same does change the record. *)
Example manager_completes :
  Rec.status <$>
    updateRecordStatus Scenario.up (Some "manager-1f0e2d3c") "rec-1" "Completed"
      (list_to_map ledger) !! "rec-1" = Some "Completed".
Proof. reflexivity. Qed.

End RoleScenarios.

Section ParseInt.
Import RequestForm.

Lemma append_nil (s : string) : EmptyString +:+ s = s.
Proof. reflexivity. Qed.

Lemma append_cons (a : ascii) (s1 s2 : string) :
  String a s1 +:+ s2 = String a (s1 +:+ s2).
Proof. reflexivity. Qed.

(** Nothing is skipped in front of an ASCII character that is not a
    blank. *)
Lemma skip_spaces_ascii (c : ascii) (s : string) :
  (nat_of_ascii c < 128)%nat → is_space c = false →
  skip_spaces (String c s) = String c s.
Proof.
  intros Hc Hs. cbn [skip_spaces]. rewrite Hs.
  destruct s as [|c2 [|c3 s]]; [done| |].
  - unfold is_space2. destruct (Nat.eqb_spec (nat_of_ascii c) 194); [lia|done].
  - unfold is_space2, is_space3.
    destruct (Nat.eqb_spec (nat_of_ascii c) 194); [lia|].
    destruct (Nat.eqb_spec (nat_of_ascii c) 225); [lia|].
    destruct (Nat.eqb_spec (nat_of_ascii c) 226); [lia|].
    destruct (Nat.eqb_spec (nat_of_ascii c) 227); [lia|].
    destruct (Nat.eqb_spec (nat_of_ascii c) 239); [lia|]. done.
Qed.

(** The value of a numeral read from the left with an accumulator. *)
Lemma digits_numeral (d : uint) (acc : Z) :
  digits 10 (NilEmpty.string_of_uint d) (Some acc) =
  Some (Z.of_N (Unsigned.of_lu (rev d)) + acc * 10 ^ Z.of_N (Unsigned.usize d)).
Proof.
  revert acc.
  induction d as [|d IH|d IH|d IH|d IH|d IH|d IH|d IH|d IH|d IH|d IH];
    intros acc; simpl NilEmpty.string_of_uint;
    [simpl; f_equal; lia|..];
    unfold rev; simpl revapp; rewrite Unsigned.of_lu_revapp;
    cbn [digits];
    match goal with
    | |- context [digit_of 10 ?c] =>
        let v := eval vm_compute in (digit_of 10 c) in
        change (digit_of 10 c) with v
    end;
    cbn [default]; rewrite IH;
    cbn [Unsigned.usize];
    rewrite N2Z.inj_add, N2Z.inj_mul, N2Z.inj_pow, N2Z.inj_succ;
    rewrite Z.pow_succ_r by lia;
    match goal with
    | |- context [Unsigned.of_lu (?D Nil)] =>
        let v := eval vm_compute in (Z.of_N (Unsigned.of_lu (D Nil))) in
        change (Z.of_N (Unsigned.of_lu (D Nil))) with v
    end;
    change (Z.of_N 10) with 10; unfold id; f_equal; ring.
Qed.

Lemma digits_numeral_start (d : uint) :
  d ≠ Nil →
  digits 10 (NilEmpty.string_of_uint d) None = Some (Z.of_uint d).
Proof.
  intros Hd. unfold Z.of_uint. rewrite Unsigned.of_uint_alt.
  assert (H : digits 10 (NilEmpty.string_of_uint d) None =
              digits 10 (NilEmpty.string_of_uint d) (Some 0))
    by (by destruct d).
  rewrite H, digits_numeral. f_equal. lia.
Qed.

(** What follows the numeral, from the first character that is not a
    decimal digit on, is not read. *)
Lemma digits_numeral_tail (d : uint) (c : ascii) (rest : string) (acc : option Z) :
  digit_of 10 c = None →
  digits 10 (NilEmpty.string_of_uint d +:+ String c rest) acc =
  digits 10 (NilEmpty.string_of_uint d) acc.
Proof.
  intros Hc. revert acc.
  induction d as [|d IH|d IH|d IH|d IH|d IH|d IH|d IH|d IH|d IH|d IH];
    intros acc; simpl NilEmpty.string_of_uint;
    [rewrite append_nil; cbn [digits]; by rewrite Hc|..];
    rewrite append_cons; cbn [digits];
    match goal with
    | |- context [digit_of 10 ?c'] =>
        let v := eval vm_compute in (digit_of 10 c') in
        change (digit_of 10 c') with v
    end;
    apply IH.
Qed.

(** [0x] is read as a prefix only when spelled so. *)
Lemma magnitude_zero_then (c : ascii) (s : string) :
  c ≠ "x"%char → c ≠ "X"%char →
  magnitude (String "0" (String c s)) = digits 10 (String "0" (String c s)) None.
Proof.
  intros Hx HX. unfold magnitude.
  destruct c as [[] [] [] [] [] [] [] []]; try done.
Qed.


Lemma magnitude_numeral_tail (d : uint) (c : ascii) (rest : string) :
  d ≠ Nil →
  digit_of 10 c = None →
  (d = D0 Nil → c ≠ "x"%char ∧ c ≠ "X"%char) →
  magnitude (NilEmpty.string_of_uint d +:+ String c rest) = Some (Z.of_uint d).
Proof.
  intros Hd Hc Hx.
  rewrite <-digits_numeral_start, <-(digits_numeral_tail d c rest None) by done.
  destruct d as [|d|d|d|d|d|d|d|d|d|d]; try done.
  destruct d; try done.
  destruct Hx as [Hx HX]; [done|]. by apply magnitude_zero_then.
Qed.

(** A text that starts with a numeral has no blank and no sign in
    front. *)
Lemma parseInt_numeral_start (d : uint) (tail : string) :
  d ≠ Nil →
  parseInt (NilEmpty.string_of_uint d +:+ tail) =
  match magnitude (NilEmpty.string_of_uint d +:+ tail) with
  | Some n => Number.round n
  | None => NaN
  end.
Proof.
  intros Hd.
  destruct d; try done; simpl NilEmpty.string_of_uint; rewrite append_cons;
    unfold parseInt; rewrite skip_spaces_ascii by (vm_compute; (lia || done));
    cbv iota beta; destruct (magnitude _); try done; f_equal; lia.
Qed.

Lemma parseInt_minus (s : string) :
  parseInt (String "-" s) =
  match magnitude s with
  | Some n => Number.round (- n)
  | None => NaN
  end.
Proof.
  unfold parseInt. rewrite skip_spaces_ascii by (vm_compute; (lia || done)).
  cbv iota beta. destruct (magnitude s); [|done]. f_equal; lia.
Qed.

Lemma toString_numeral (n : Z) :
  toString n =
  match n with
  | Z0 => "0"
  | Zpos p => NilEmpty.string_of_uint (Pos.to_uint p)
  | Zneg p => String "-" (NilEmpty.string_of_uint (Pos.to_uint p))
  end.
Proof.
  unfold toString.
  destruct n as [|p|p]; [done|..]; simpl Z.to_int;
    pose proof (Unsigned.to_uint_nonnil p) as Hp;
    simpl; unfold NilZero.string_of_uint; by destruct (Pos.to_uint p).
Qed.

Lemma of_to_uint (p : positive) : Z.of_uint (Pos.to_uint p) = Z.pos p.
Proof.
  pose proof (DecimalZ.of_to (Z.pos p)) as H. simpl in H. exact H.
Qed.

Lemma to_uint_not_zero (p : positive) (P : Prop) : Pos.to_uint p = D0 Nil → P.
Proof.
  intros E. pose proof (DecimalPos.Unsigned.of_to p) as Hof.
  rewrite E in Hof. discriminate Hof.
Qed.


(** The same with something behind the numeral. *)
Lemma parseInt_toString_tail (n : Z) (c : ascii) (rest : string) :
  digit_of 10 c = None →
  (n = 0 → c ≠ "x"%char ∧ c ≠ "X"%char) →
  parseInt (toString n +:+ String c rest) = Number.round n.
Proof.
  intros Hc Hx. rewrite toString_numeral. destruct n as [|p|p].
  - destruct Hx as [Hx HX]; [done|]. unfold parseInt.
    change ("0" +:+ String c rest) with (String "0" (String c rest)).
    rewrite skip_spaces_ascii by (vm_compute; (lia || done)). cbv iota beta.
    rewrite magnitude_zero_then by done. cbn [digits].
    change (digit_of 10 "0") with (Some 0). cbn [digits]. by rewrite Hc.
  - pose proof (Unsigned.to_uint_nonnil p) as Hp.
    rewrite parseInt_numeral_start by done.
    rewrite (magnitude_numeral_tail (Pos.to_uint p) c rest Hp Hc
               (to_uint_not_zero p _)).
    by rewrite of_to_uint.
  - pose proof (Unsigned.to_uint_nonnil p) as Hp.
    rewrite append_cons, parseInt_minus.
    rewrite (magnitude_numeral_tail (Pos.to_uint p) c rest Hp Hc
               (to_uint_not_zero p _)).
    by rewrite of_to_uint.
Qed.


End ParseInt.

Section Submission.
Import RequestForm Scenario.





(** While the service is not ready, or when the store refuses the
    document, nothing is added. *)
Lemma failed_submission_adds_nothing e now now' newId f requests :
  ¬ ready e ∨ online e = false →
  let run := handleSubmit e now now' newId f requests in
  run.2 = requests ∧ submissionStatus run.1 = Some "error".
Proof.
  intros H run. subst run. unfold handleSubmit.
  destruct (db e) eqn:Hdb, (isAuthReady e) eqn:Hau, (online e) eqn:Ho;
    simpl; try done.
  destruct H as [H|H]; [|done]. destruct H. by split.
Qed.

End Submission.

Section FurtherScenarios.
Import Dashboard Portal Scenario.

(** The listener puts the ledger newest first. *)
Example ledger_newest_first :
  (recordsListener asIs ledger).*1 = ["rec-4"; "rec-3"; "rec-2"; "rec-1"].
Proof. reflexivity. Qed.

(** Records with the same time stamp keep the order of the snapshot. *)
Example same_instant_keeps_order :
  (recordsListener asIs [("rec-a", riceFor "citizen-ab12cd3" 1000);
                    ("rec-b", riceFor "citizen-zz99yy8" 2000);
                    ("rec-c", riceFor "citizen-ab12cd3" 1000)]).*1 =
  ["rec-b"; "rec-a"; "rec-c"].
Proof. reflexivity. Qed.

(** Pressing "Ship" on the card of Food Bank Central is an action of the
    dashboard while the pasta is in stock. *)
Example ship_food_bank_step :
  step up (warehouse 600 100)
    (handleStatusUpdate up "2025-10-09T10:00:00.000Z" "2025-10-09T10:00:00.001Z"
       (stock 600) "req-bank" "Dry Pasta" (Num 100) "Shipped"
       (warehouse 600 100)).2.
Proof.
  pose (b := {| label := "Ship"; disabled := false;
                onClick := {| requestId := "req-bank";
                              requestItem := "Dry Pasta";
                              requestAmount := Num 100;
                              newStatus := "Shipped" |} |}).
  refine (step_status up (warehouse 600 100) (stock 600) (orders 100) _ b
            "2025-10-09T10:00:00.000Z" "2025-10-09T10:00:00.001Z"
            (stock_delivered 600 100) (orders_delivered 600 100) eq_refl _ eq_refl).
  apply list_elem_of_further, list_elem_of_here.
Qed.

(** A card for an approved request whose item is not in the inventory
    cannot be rendered. *)
Example card_without_item_fails :
  RequestManager true (orders 100) [("inv-beans", cannedBeans)] = None.
Proof. reflexivity. Qed.

(** What [parseInt] makes of some amount fields. *)
Example parseInt_samples :
  RequestForm.parseInt "20" = Num 20 ∧
  RequestForm.parseInt " 007" = Num 7 ∧
  RequestForm.parseInt "12.5" = Num 12 ∧
  RequestForm.parseInt "1e2" = Num 1 ∧
  RequestForm.parseInt "-3" = Num (-3) ∧
  RequestForm.parseInt "0x1F" = Num 31 ∧
  RequestForm.parseInt "" = NaN ∧
  RequestForm.parseInt ".5" = NaN.
Proof. repeat split; reflexivity. Qed.

(** A session whose identifier carries neither prefix is shown the
    citizen portal over the unfiltered collection. *)
Lemma unprefixed_session_is_unfiltered userId r :
  isManager userId = false → isCitizen userId = false →
  recordsQuery userId r = true ∧
  ∀ records, render userId records = CitizenPortal records.
Proof.
  intros Hm Hc. unfold recordsQuery, render. by rewrite Hm, Hc.
Qed.

End FurtherScenarios.

(** * Further properties of the dashboard *)

Section DashboardFrame.
Import Dashboard Scenario.
Implicit Types (e : Env) (s : Store) (inventory : list (string * Inv.t)).

Lemma dom_insert_present {A} (c : gmap string A) id d d' :
  c !! id = Some d → dom (<[id := d']> c) = dom c.
Proof. intros H. apply dom_insert_lookup_L. eauto. Qed.

(** A status run leaves the documents of both collections in place,
    changes no request but the one it is given and nothing of that one but
    its [status] and [processedBy], changes nothing of an inventory item
    but its [quantity] and [lastUpdated], and does not touch the inventory
    at all unless the new status is "Shipped". *)
Theorem status_run_frame
    e now now' inventory requestId requestItem requestAmount newStatus s :
  let s' := (handleStatusUpdate e now now' inventory requestId requestItem
               requestAmount newStatus s).2 in
  dom (requestsCollection s') = dom (requestsCollection s) ∧
  dom (inventoryCollection s') = dom (inventoryCollection s) ∧
  (∀ id, id ≠ requestId →
     requestsCollection s' !! id = requestsCollection s !! id) ∧
  (∀ id r r', requestsCollection s !! id = Some r →
     requestsCollection s' !! id = Some r' → same_request_details r r') ∧
  (∀ id d d', inventoryCollection s !! id = Some d →
     inventoryCollection s' !! id = Some d' → same_item_details d d') ∧
  (newStatus ≠ "Shipped" → inventoryCollection s' = inventoryCollection s).
Proof.
  intros s'. subst s'.
  assert (Hsame_r : ∀ r : Req.t, same_request_details r r) by (by repeat split).
  assert (Hsame_d : ∀ d : Inv.t, same_item_details d d) by (by repeat split).
  destruct (handleStatusUpdate_effect e now now' inventory requestId requestItem
              requestAmount newStatus s)
    as [->|(r0 & Hr0 & Hreq & Hinv)].
  { split_and!; try done.
    - intros id r r' H1 H2. assert (r' = r) as -> by congruence. apply Hsame_r.
    - intros id d d' H1 H2. assert (d' = d) as -> by congruence. apply Hsame_d. }
  rewrite Hreq. split_and!.
  - by eapply dom_insert_present.
  - destruct Hinv as [[-> _]|(i & d & _ & _ & _ & Hd & ->)]; [done|].
    by eapply dom_insert_present.
  - intros id Hne. by rewrite lookup_insert_ne.
  - intros id r r'. rewrite lookup_insert. case_decide as Hid.
    + subst id. intros H1 [= <-]. assert (r0 = r) as -> by congruence.
      by repeat split.
    + intros H1 H2. assert (r' = r) as -> by congruence. apply Hsame_r.
  - destruct Hinv as [[-> _]|(i & d0 & _ & _ & _ & Hd & ->)].
    + intros id d d' H1 H2. assert (d' = d) as -> by congruence. apply Hsame_d.
    + intros id d d'. rewrite lookup_insert. case_decide as Hid.
      * subst id. intros H1 [= <-]. assert (d0 = d) as -> by congruence.
        by repeat split.
      * intros H1 H2. assert (d' = d) as -> by congruence. apply Hsame_d.
  - destruct Hinv as [[-> _]|(i & d & -> & _)]; done.
Qed.

(** Any action of the dashboard keeps the documents of both collections
    in place and rewrites none of the details of a request or of an
    inventory item; while [db] is missing it changes nothing. *)
Theorem step_frame e s s' :
  step e s s' →
  dom (requestsCollection s') = dom (requestsCollection s) ∧
  dom (inventoryCollection s') = dom (inventoryCollection s) ∧
  (∀ id r r', requestsCollection s !! id = Some r →
     requestsCollection s' !! id = Some r' → same_request_details r r') ∧
  (∀ id d d', inventoryCollection s !! id = Some d →
     inventoryCollection s' !! id = Some d' → same_item_details d d') ∧
  (db e = false → s' = s).
Proof.
  assert (Hsame_r : ∀ r : Req.t, same_request_details r r) by (by repeat split).
  assert (Hsame_d : ∀ d : Inv.t, same_item_details d d) by (by repeat split).
  intros [inventory requests buttons b now now' _ _ _ _ _
         |inventory itemId now _ _].
  - set (s1 := (handleStatusUpdate _ _ _ _ _ _ _ _ s).2).
    assert (Hdb : db e = false → s1 = s).
    { intros Hdb. subst s1. rewrite not_ready_status_run; [done|].
      intros [? _]. congruence. }
    subst s1.
    destruct (handleStatusUpdate_effect e now now' (inventoryListener inventory)
                (requestId (onClick b)) (requestItem (onClick b))
                (requestAmount (onClick b)) (newStatus (onClick b)) s)
      as [->|(r0 & Hr0 & Hreq & Hinv)].
    { split_and!; try done.
      - intros id r r' H1 H2. assert (r' = r) as -> by congruence. apply Hsame_r.
      - intros id d d' H1 H2. assert (d' = d) as -> by congruence. apply Hsame_d. }
    rewrite Hreq. split_and!; [| | | |done].
    + by eapply dom_insert_present.
    + destruct Hinv as [[-> _]|(i & d & _ & _ & _ & Hd & ->)]; [done|].
      by eapply dom_insert_present.
    + intros id r r'. rewrite lookup_insert. case_decide as Hid.
      * subst id. intros H1 [= <-]. assert (r0 = r) as -> by congruence.
        by repeat split.
      * intros H1 H2. assert (r' = r) as -> by congruence. apply Hsame_r.
    + destruct Hinv as [[-> _]|(i & d0 & _ & _ & _ & Hd & ->)].
      * intros id d d' H1 H2. assert (d' = d) as -> by congruence. apply Hsame_d.
      * intros id d d'. rewrite lookup_insert. case_decide as Hid.
        -- subst id. intros H1 [= <-]. assert (d0 = d) as -> by congruence.
           by repeat split.
        -- intros H1 H2. assert (d' = d) as -> by congruence. apply Hsame_d.
  - assert (Hdb : db e = false →
                  (handleUpdateStock e now (inventoryListener inventory) itemId s).2 = s).
    { intros Hdb. unfold handleUpdateStock. by rewrite Hdb. }
    destruct (handleUpdateStock_effect e now (inventoryListener inventory) itemId s)
      as [->|(i & d0 & _ & Hd & Heq)].
    { split_and!; try done.
      - intros id r r' H1 H2. assert (r' = r) as -> by congruence. apply Hsame_r.
      - intros id d d' H1 H2. assert (d' = d) as -> by congruence. apply Hsame_d. }
    rewrite Heq in Hdb |- *. split_and!; [done| | | |exact Hdb]; simpl.
    + by eapply dom_insert_present.
    + intros id r r' H1 H2. assert (r' = r) as -> by congruence. apply Hsame_r.
    + intros id d d'. rewrite lookup_insert. case_decide as Hid.
      * subst id. intros H1 [= <-]. assert (d0 = d) as -> by congruence.
        by repeat split.
      * intros H1 H2. assert (d' = d) as -> by congruence. apply Hsame_d.
Qed.

(** The witness of [step_frame]: approving the request of the shelter. *)
Lemma approve_shelter_frame :
  let s' := (handleStatusUpdate up "2025-10-09T10:00:00.000Z"
               "2025-10-09T10:00:00.001Z" (stock 600) "req-shelter"
               "Canned Beans" (Num 50) "Approved" (warehouse 600 100)).2 in
  dom (requestsCollection s') = dom (requestsCollection (warehouse 600 100)) ∧
  dom (inventoryCollection s') = dom (inventoryCollection (warehouse 600 100)).
Proof.
  destruct (step_frame up (warehouse 600 100) _ approve_shelter_step)
    as (Hr & Hi & _).
  split; [exact Hr|exact Hi].
Defined.

End DashboardFrame.

Section DashboardRoundTrips.
Import Dashboard Scenario.
Implicit Types (e : Env) (s : Store) (inventory : list (string * Inv.t)).

Lemma commit_status e requestId st p r s :
  online e = true →
  requestsCollection s !! requestId = Some r →
  commit e [UpdateRequest requestId st p] s =
  Some {| inventoryCollection := inventoryCollection s;
          requestsCollection := <[requestId := Req.merge st p r]> (requestsCollection s) |}.
Proof.
  intros Ho Hr. unfold commit. rewrite Ho. simpl.
  by rewrite (updateDoc_Some _ _ _ _ Hr).
Qed.

(** Approving a pending request and then resetting it gives back the
    store as it was but for one field of the request: it is "Approved"
    with a [processedBy] stamp in between, and at the end it is "Pending"
    again with a [processedBy] that is [null].  The store is exactly as
    it was only for a request whose [processedBy] was [null] already,
    which a request that nobody has processed yet does not have. *)
Theorem approve_then_reset_leaves_null_stamp
    e t1 t1' t2 t2' inventory inventory' requestId requestItem requestAmount r s :
  ready e → online e = true →
  requestsCollection s !! requestId = Some r →
  Req.status r = "Pending" →
  let approved := (handleStatusUpdate e t1 t1' inventory requestId requestItem
                     requestAmount "Approved" s).2 in
  let reset := (handleStatusUpdate e t2 t2' inventory' requestId requestItem
                  requestAmount "Pending" approved).2 in
  (∃ r1, requestsCollection approved !! requestId = Some r1 ∧
         Req.status r1 = "Approved" ∧ Req.processedBy r1 = Value t1 ∧
         same_request_details r r1) ∧
  (∃ r2, requestsCollection reset !! requestId = Some r2 ∧
         Req.status r2 = "Pending" ∧ Req.processedBy r2 = Null ∧
         same_request_details r r2) ∧
  (∀ id, id ≠ requestId →
     requestsCollection reset !! id = requestsCollection s !! id) ∧
  inventoryCollection reset = inventoryCollection s ∧
  (reset = s ↔ Req.processedBy r = Null).
Proof.
  intros Hr Ho Hreq Hst approved reset.
  assert (Ha : approved =
               {| inventoryCollection := inventoryCollection s;
                  requestsCollection :=
                    <[requestId := Req.merge "Approved" (Some t1) r]>
                      (requestsCollection s) |}).
  { subst approved. rewrite status_run by done.
    by rewrite (commit_status e requestId _ _ r s Ho Hreq). }
  assert (Hre : reset =
               {| inventoryCollection := inventoryCollection s;
                  requestsCollection :=
                    <[requestId := Req.merge "Pending" None r]> (requestsCollection s) |}).
  { subst reset. rewrite Ha. rewrite status_run by done.
    erewrite commit_status; [|done|apply lookup_insert_eq]. simpl.
    by rewrite insert_insert_eq. }
  rewrite Ha, Hre. simpl. split_and!.
  - eexists. split; [apply lookup_insert_eq|]. by split_and!.
  - eexists. split; [apply lookup_insert_eq|]. by split_and!.
  - intros id Hne. by apply lookup_insert_ne.
  - done.
  - split.
    + intros Hs. apply (f_equal (λ st, requestsCollection st !! requestId)) in Hs.
      simpl in Hs. rewrite lookup_insert_eq, Hreq in Hs.
      injection Hs as <-. done.
    + intros Hp. destruct s as [inv reqs], r; simpl in *. subst.
      f_equal. by apply insert_id.
Qed.

Lemma approve_then_reset_shelter :
  let approved :=
    (handleStatusUpdate up "2025-10-09T10:00:00.000Z" "2025-10-09T10:00:00.001Z"
       (stock 600) "req-shelter" "Canned Beans" (Num 50) "Approved"
       (warehouse 600 100)).2 in
  let reset :=
    (handleStatusUpdate up "2025-10-09T11:00:00.000Z" "2025-10-09T11:00:00.001Z"
       (stock 600) "req-shelter" "Canned Beans" (Num 50) "Pending" approved).2 in
  Req.processedBy shelterA = Absent ∧
  Req.processedBy <$> requestsCollection approved !! "req-shelter"
    = Some (Value "2025-10-09T10:00:00.000Z") ∧
  Req.processedBy <$> requestsCollection reset !! "req-shelter" = Some Null ∧
  Req.status <$> requestsCollection reset !! "req-shelter" = Some "Pending" ∧
  reset ≠ warehouse 600 100.
Proof.
  destruct (approve_then_reset_leaves_null_stamp up
              "2025-10-09T10:00:00.000Z" "2025-10-09T10:00:00.001Z"
              "2025-10-09T11:00:00.000Z" "2025-10-09T11:00:00.001Z"
              (stock 600) (stock 600) "req-shelter" "Canned Beans" (Num 50)
              shelterA (warehouse 600 100)
              up_ready eq_refl eq_refl eq_refl)
    as ((r1 & Hr1 & _ & Hp1 & _) & (r2 & Hr2 & Hs2 & Hp2 & _) & _ & _ & Hiff).
  split; [reflexivity|]. split_and!.
  - rewrite Hr1. simpl. by rewrite Hp1.
  - rewrite Hr2. simpl. by rewrite Hp2.
  - rewrite Hr2. simpl. by rewrite Hs2.
  - intros Hs. apply Hiff in Hs. discriminate Hs.
Defined.

(** Resetting a shipped request does not bring the stock back: after a
    Ship that went through (from a page in step with the store, for a
    difference below [2 ^ 53]) and a Reset, the request is "Pending"
    again, its [processedBy] is [null], and the item still holds the
    decremented quantity. *)
Theorem ship_then_reset_keeps_stock_decremented
    e t1 t1' t2 t2' inventory inventory' requestId r itemId d q a s :
  ready e → online e = true →
  Firestore.delivers (inventoryCollection s) inventory →
  requestsCollection s !! requestId = Some r →
  Req.amount r = Num a →
  find (λ i, String.eqb (Inv.item i.2) (Req.item r)) inventory = Some (itemId, d) →
  Inv.quantity d = Num q →
  a <= q →
  Number.safe (q - a) →
  let shipped := (handleStatusUpdate e t1 t1' inventory requestId (Req.item r)
                    (Req.amount r) "Shipped" s).2 in
  let reset := (handleStatusUpdate e t2 t2' inventory' requestId (Req.item r)
                  (Req.amount r) "Pending" shipped).2 in
  (∃ r', requestsCollection reset !! requestId = Some r' ∧
         Req.status r' = "Pending" ∧ Req.processedBy r' = Null ∧
         same_request_details r r') ∧
  (∃ d', inventoryCollection reset !! itemId = Some d' ∧
         Inv.quantity d' = Num (q - a) ∧ Inv.lastUpdated d' = t1' ∧
         same_item_details d d') ∧
  inventoryCollection reset = inventoryCollection shipped.
Proof.
  intros Hr Ho Hd Hreq Ha Hf Hq Hle Hsafe shipped reset.
  destruct (find_delivered _ _ _ _ Hd Hf) as [Hinv _]. simpl in Hinv.
  assert (Hsub : Number.sub (Inv.quantity d) (Req.amount r) = Num (q - a)).
  { rewrite Hq, Ha. simpl. by apply round_safe. }
  assert (Hs : shipped =
               {| inventoryCollection :=
                    <[itemId := Inv.merge (Num (q - a)) t1' d]> (inventoryCollection s);
                  requestsCollection :=
                    <[requestId := Req.merge "Shipped" (Some t1) r]>
                      (requestsCollection s) |}).
  { subst shipped. rewrite ship_run by done. rewrite Hf. simpl.
    rewrite Hsub. simpl.
    destruct (Z.ltb_spec (q - a) 0) as [?|_]; [lia|].
    by rewrite (commit_ship e requestId itemId _ _ _ _ r d s Ho Hreq Hinv). }
  subst reset. rewrite Hs. rewrite status_run by done.
  erewrite commit_status; [|done|apply lookup_insert_eq]. simpl.
  split_and!; [| |done].
  - rewrite insert_insert_eq, lookup_insert_eq. eexists. split; [done|].
    by split_and!.
  - rewrite lookup_insert_eq. eexists. split; [done|]. by split_and!.
Qed.

Lemma ship_then_reset_dry_pasta :
  let reset :=
    (handleStatusUpdate up "2025-10-09T11:00:00.000Z" "2025-10-09T11:00:00.001Z"
       (stock 500) "req-bank" "Dry Pasta" (Num 100) "Pending"
       (handleStatusUpdate up "2025-10-09T10:00:00.000Z" "2025-10-09T10:00:00.001Z"
          (stock 600) "req-bank" "Dry Pasta" (Num 100) "Shipped"
          (warehouse 600 100)).2).2 in
  Inv.quantity (dryPasta 600) = Num 600 ∧
  Req.status <$> requestsCollection reset !! "req-bank" = Some "Pending" ∧
  Req.processedBy <$> requestsCollection reset !! "req-bank" = Some Null ∧
  Inv.quantity <$> inventoryCollection reset !! "inv-pasta" = Some (Num 500).
Proof.
  destruct (ship_then_reset_keeps_stock_decremented up
              "2025-10-09T10:00:00.000Z" "2025-10-09T10:00:00.001Z"
              "2025-10-09T11:00:00.000Z" "2025-10-09T11:00:00.001Z"
              (stock 600) (stock 500) "req-bank" (foodBank 100) "inv-pasta"
              (dryPasta 600) 600 100 (warehouse 600 100))
    as ((r' & Hreq & Hst & Hp & _) & (d' & Hinv & Hq & _) & _).
  - exact up_ready.
  - reflexivity.
  - apply stock_delivered.
  - reflexivity.
  - reflexivity.
  - reflexivity.
  - reflexivity.
  - lia.
  - unfold Number.safe. lia.
  - split; [reflexivity|]. split_and!.
    + exact (eq_trans (f_equal (fmap Req.status) Hreq) (f_equal Some Hst)).
    + exact (eq_trans (f_equal (fmap Req.processedBy) Hreq) (f_equal Some Hp)).
    + exact (eq_trans (f_equal (fmap Inv.quantity) Hinv) (f_equal Some Hq)).
Defined.

(** The guard of the Ship button and the guard of the handler agree on
    integers: for an integer amount and integer stock levels, the button
    is enabled exactly when a Ship run would go through. *)
Theorem ship_button_agrees_with_handler
    e now now' inventory requestId r a s :
  ready e → online e = true →
  Firestore.delivers (inventoryCollection s) inventory →
  requestsCollection s !! requestId = Some r →
  Req.amount r = Num a →
  (∀ i, i ∈ inventory → ∃ q, Inv.quantity i.2 = Num q) →
  isShippable (find (λ i, String.eqb (Inv.item i.2) (Req.item r)) inventory) r = true ↔
  (handleStatusUpdate e now now' inventory requestId (Req.item r) (Req.amount r)
     "Shipped" s).1 = Written.
Proof.
  intros Hr Ho Hd Hreq Ha Hint. rewrite ship_run by done.
  destruct (find _ inventory) as [[itemId d]|] eqn:Hf; [|done].
  destruct (find_delivered _ _ _ _ Hd Hf) as [Hinv _]. simpl in Hinv.
  destruct (find_elem _ _ _ Hf) as [Hin _].
  destruct (Hint _ Hin) as [q Hq].
  cbn [isShippable fst snd] in *. rewrite Hq, Ha.
  cbn [Number.sub Number.ge Number.lt]. rewrite round_lt_0.
  destruct (Z.ltb_spec (q - a) 0) as [Hlt|Hge], (Z.ltb_spec q a) as [Hlt'|Hge'];
    try lia.
  - done.
  - rewrite (commit_ship e requestId itemId _ _ _ _ r d s Ho Hreq Hinv).
    done.
Qed.

Lemma ship_button_agrees_dry_pasta :
  isShippable (find (λ i, String.eqb (Inv.item i.2) "Dry Pasta") (stock 600))
    (foodBank 100) = true ∧
  (handleStatusUpdate up "2025-10-09T10:00:00.000Z" "2025-10-09T10:00:00.001Z"
     (stock 600) "req-bank" "Dry Pasta" (Num 100) "Shipped"
     (warehouse 600 100)).1 = Written.
Proof.
  assert (Hiff := ship_button_agrees_with_handler up
                    "2025-10-09T10:00:00.000Z" "2025-10-09T10:00:00.001Z"
                    (stock 600) "req-bank" (foodBank 100) 100 (warehouse 600 100)
                    up_ready eq_refl (stock_delivered 600 100) eq_refl eq_refl).
  assert (Hint : ∀ i, i ∈ stock 600 → ∃ q, Inv.quantity i.2 = Num q).
  { intros i Hi. unfold stock in Hi. rewrite !elem_of_cons, elem_of_nil in Hi.
    destruct Hi as [->|[->|[->|[->|[]]]]]; simpl; eauto. }
  split; [reflexivity|]. apply (proj1 (Hiff Hint)). reflexivity.
Defined.

(** The request list renders unless some approved request names an item
    that no inventory document carries; one such request takes the whole
    list down. *)
Theorem RequestManager_fails_iff_approved_item_missing
    isReady (requests : list (string * Req.t)) (inventory : list (string * Inv.t)) :
  RequestManager isReady requests inventory = None ↔
  ∃ request, request ∈ requests ∧ Req.status request.2 = "Approved" ∧
             find (λ i, String.eqb (Inv.item i.2) (Req.item request.2)) inventory = None.
Proof.
  assert (Hcard : ∀ request,
            requestCard isReady inventory request = None ↔
            Req.status request.2 = "Approved" ∧
            find (λ i, String.eqb (Inv.item i.2) (Req.item request.2)) inventory = None).
  { intros request. unfold requestCard.
    destruct (String.eqb (Req.status request.2) "Approved") eqn:Ha.
    - apply String.eqb_eq in Ha.
      destruct (find _ inventory) as [i|]; simpl.
      + destruct (Number.ge _ _); simpl; split; [done|by intros [_ ?]|done|by intros [_ ?]].
      + by split.
    - apply String.eqb_neq in Ha. simpl. split; [done|]. by intros [? _]. }
  unfold RequestManager.
  destruct (mapM _ requests) as [cards|] eqn:Hm; simpl.
  - split; [done|]. intros (request & Hin & Hmiss).
    apply mapM_Some in Hm. apply list_elem_of_lookup in Hin as [n Hn].
    destruct (Forall2_lookup_l _ _ _ _ _ Hm Hn) as (card & _ & Hsome).
    apply Hcard in Hmiss. congruence.
  - split; [|done]. intros _.
    assert (Hnot : ¬ Forall (λ request, is_Some (requestCard isReady inventory request))
                     requests).
    { intros Hall. apply mapM_is_Some in Hall. rewrite Hm in Hall. by destruct Hall. }
    apply not_Forall_Exists in Hnot; [|apply _].
    apply Exists_exists in Hnot as (request & Hin & Hnone).
    exists request. split; [done|]. apply Hcard.
    by apply eq_None_not_Some.
Qed.

End DashboardRoundTrips.

Section Figures.
Import Dashboard Scenario.
Implicit Types (e : Env) (s : Store) (inventory : list (string * Inv.t)).








Lemma count_Permutation {A} (P : A → bool) (l l' : list A) :
  l ≡ₚ l' → length (List.filter P l) = length (List.filter P l').
Proof.
  induction 1 as [|x l l' _ IH|x y l|l1 l2 l3 _ IH1 _ IH2]; simpl.
  - done.
  - destruct (P x); simpl; congruence.
  - by destruct (P x), (P y).
  - congruence.
Qed.

(** Two snapshots around the rewriting of one document differ in that
    document only. *)
Lemma snapshot_replace {A} (c : gmap string A) id d d' docs docs' :
  c !! id = Some d →
  Firestore.delivers c docs →
  Firestore.delivers (<[id := d']> c) docs' →
  ∃ rest, docs ≡ₚ (id, d) :: rest ∧ docs' ≡ₚ (id, d') :: rest.
Proof.
  unfold Firestore.delivers. intros Hc H1 H2.
  exists (map_to_list (delete id c)). split.
  - rewrite H1. symmetry. by apply map_to_list_delete.
  - rewrite H2, <-(insert_delete_eq c id d').
    apply map_to_list_insert, lookup_delete_eq.
Qed.


(** A status run by its outcome: "Written" means that the request was
    rewritten and, for "Shipped", the found item with it; any other
    outcome means that nothing was. *)
Lemma handleStatusUpdate_outcome
    e now now' inventory requestId requestItem requestAmount newStatus s :
  let run := handleStatusUpdate e now now' inventory requestId requestItem
               requestAmount newStatus s in
  (run.1 ≠ Written ∧ run.2 = s) ∨
  (run.1 = Written ∧
   ∃ r, requestsCollection s !! requestId = Some r ∧
        requestsCollection run.2 =
          <[requestId := Req.merge newStatus
                           (if negb (String.eqb newStatus "Pending") then Some now else None) r]>
            (requestsCollection s) ∧
        (newStatus ≠ "Shipped" ∧ inventoryCollection run.2 = inventoryCollection s ∨
         newStatus = "Shipped" ∧
         ∃ i d, find (λ i, String.eqb (Inv.item i.2) requestItem) inventory = Some i ∧
                Number.lt (Number.sub (Inv.quantity i.2) requestAmount) (Num 0) = false ∧
                inventoryCollection s !! i.1 = Some d ∧
                inventoryCollection run.2 =
                  <[i.1 := Inv.merge (Number.sub (Inv.quantity i.2) requestAmount) now' d]>
                    (inventoryCollection s))).
Proof.
  intros run. subst run. unfold handleStatusUpdate.
  destruct (negb (db e) || negb (isAuthReady e)); [by left|].
  destruct (String.eqb newStatus "Shipped") eqn:Hship.
  - apply String.eqb_eq in Hship as ->.
    destruct (find _ inventory) as [i|] eqn:Hf; [|by left].
    destruct (Number.lt _ _) eqn:Hlt; [by left|].
    unfold commit. destruct (online e); [|by left]. simpl.
    destruct (Firestore.updateDoc requestId _ _) as [c|] eqn:Hu; [|by left].
    simpl. apply updateDoc_inv in Hu as (r & Hr & ->).
    destruct (Firestore.updateDoc i.1 _ _) as [c'|] eqn:Hu'; [|by left].
    simpl in *. apply updateDoc_inv in Hu' as (d & Hd & ->).
    right. split; [done|]. exists r. split_and!; [done..|].
    right. split; [done|]. by exists i, d.
  - apply String.eqb_neq in Hship.
    unfold commit. destruct (online e); [|by left]. simpl.
    destruct (Firestore.updateDoc requestId _ _) as [c|] eqn:Hu; [|by left].
    simpl. apply updateDoc_inv in Hu as (r & Hr & ->).
    right. split; [done|]. exists r. split_and!; [done..|]. by left.
Qed.





End Figures.

Section Counts.
Import Dashboard Scenario.
Implicit Types (e : Env) (s : Store) (inventory : list (string * Inv.t)).

(** The "pending requests" figure follows the status runs: a run that
    goes through takes the request out of the count when it was pending
    and puts it in when the new status is "Pending". *)
Theorem status_run_pending_count
    e now now' inventory requestId requestItem requestAmount newStatus s
    requests requests' r :
  Firestore.delivers (requestsCollection s) requests →
  requestsCollection s !! requestId = Some r →
  let run := handleStatusUpdate e now now' inventory requestId requestItem
               requestAmount newStatus s in
  run.1 = Written →
  Firestore.delivers (requestsCollection run.2) requests' →
  (pendingRequests requests' + (if String.eqb (Req.status r) "Pending" then 1 else 0) =
   pendingRequests requests + (if String.eqb newStatus "Pending" then 1 else 0))%nat.
Proof.
  intros Hd Hr run Hw Hd'.
  destruct (handleStatusUpdate_outcome e now now' inventory requestId requestItem
              requestAmount newStatus s)
    as [[Hw' _]|(_ & r0 & Hr0 & Hreq & _)]; fold run in Hw' || fold run in Hreq.
  { by destruct Hw'. }
  assert (r0 = r) as -> by congruence.
  rewrite Hreq in Hd'.
  destruct (snapshot_replace _ _ _ _ _ _ Hr Hd Hd') as (rest & H1 & H2).
  unfold pendingRequests.
  rewrite (count_Permutation _ _ _ H1), (count_Permutation _ _ _ H2). simpl.
  destruct (String.eqb (Req.status r) "Pending"),
           (String.eqb newStatus "Pending"); simpl; lia.
Qed.

Lemma approve_shelter_pending_count :
  pendingRequests (orders 100) = 1%nat ∧
  pendingRequests
    [("req-shelter", Req.merge "Approved" (Some "2025-10-09T10:00:00.000Z") shelterA);
     ("req-bank", foodBank 100)] = 0%nat.
Proof.
  split; [reflexivity|].
  assert (H := status_run_pending_count up "2025-10-09T10:00:00.000Z"
                 "2025-10-09T10:00:00.001Z" (stock 600) "req-shelter"
                 "Canned Beans" (Num 50) "Approved" (warehouse 600 100)
                 (orders 100)
                 [("req-shelter",
                   Req.merge "Approved" (Some "2025-10-09T10:00:00.000Z") shelterA);
                  ("req-bank", foodBank 100)] shelterA
                 (orders_delivered 600 100) eq_refl eq_refl
                 ltac:(apply delivers_concrete; [compute_done|reflexivity])).
  change (pendingRequests (orders 100)) with 1%nat in H.
  change (String.eqb (Req.status shelterA) "Pending") with true in H.
  change (String.eqb "Approved" "Pending") with false in H.
  cbv iota in H. lia.
Defined.



(** The class string of every status has three words, so that the fourth
    one, which the request card takes as its border colour, is never
    there. *)
Theorem card_border_colour_is_undefined (request : Req.t) :
  length (split " " (getStatusColor (Req.status request))) = 3%nat ∧
  borderColor request = None.
Proof.
  unfold borderColor, getStatusColor.
  repeat (destruct (String.eqb (Req.status request) _)); by split.
Qed.

End Counts.

Section Seeding.
Import Dashboard Scenario.
Implicit Types (s : Store) (newId : nat → string) (accepted : nat → bool).

Lemma addAll_lookup_other {A} newId accepted first (docs : list A) c id :
  (∀ k, newId k ≠ id) →
  (addAll newId accepted first docs c).2 !! id = c !! id.
Proof.
  intros Hid. revert first c.
  induction docs as [|d docs IH]; intros first c; simpl; [done|].
  rewrite IH. destruct (accepted first); [|done].
  unfold Firestore.addDoc. by rewrite lookup_insert_ne.
Qed.

Lemma addAll_lookup {A} newId accepted first (docs : list A) c id d :
  (addAll newId accepted first docs c).2 !! id = Some d →
  c !! id = Some d ∨ d ∈ docs.
Proof.
  revert first c. induction docs as [|d0 docs IH]; intros first c; simpl; [by left|].
  intros [H|H]%IH; [|right; by apply list_elem_of_further].
  destruct (accepted first); [|by left].
  unfold Firestore.addDoc in H. rewrite lookup_insert in H.
  case_decide; [|by left]. injection H as <-. right. apply list_elem_of_here.
Qed.

Lemma addAll_keeps_keys {A} newId accepted first (docs : list A) c id :
  is_Some (c !! id) → is_Some ((addAll newId accepted first docs c).2 !! id).
Proof.
  revert first c. induction docs as [|d docs IH]; intros first c; simpl; [done|].
  intros Hc. apply IH. destruct (accepted first); [|done].
  unfold Firestore.addDoc. rewrite lookup_insert. by case_decide.
Qed.

Lemma addAll_accepted_key {A} newId accepted first (docs : list A) c k :
  (k < length docs)%nat → accepted (first + k)%nat = true →
  is_Some ((addAll newId accepted first docs c).2 !! newId (first + k)%nat).
Proof.
  revert first c k. induction docs as [|d docs IH]; intros first c k; simpl; [lia|].
  intros Hk Ha. destruct k as [|k].
  - rewrite Nat.add_0_r in *. rewrite Ha. apply addAll_keeps_keys.
    unfold Firestore.addDoc. rewrite lookup_insert_eq. eauto.
  - replace (first + S k)%nat with (S first + k)%nat in * by lia.
    apply IH; [lia|done].
Qed.

Lemma addAll_refused {A} newId accepted first (docs : list A) c k :
  (k < length docs)%nat → accepted (first + k)%nat = false →
  (addAll newId accepted first docs c).1 = false.
Proof.
  revert first c k. induction docs as [|d docs IH]; intros first c k; simpl; [lia|].
  intros Hk Ha. destruct k as [|k].
  - rewrite Nat.add_0_r in Ha. by rewrite Ha.
  - replace (first + S k)%nat with (S first + k)%nat in * by lia.
    rewrite (IH (S first) _ k); [|lia|done]. apply andb_false_r.
Qed.

Lemma initialData_stock clock d :
  d ∈ initialData clock → Number.nonneg (Inv.quantity d).
Proof.
  unfold initialData. rewrite !elem_of_cons, elem_of_nil.
  intros [->|[->|[->|[->|[]]]]]; simpl; lia.
Qed.

(** Seeding only ever adds: a document whose id the store does not hand
    out again is left as it is, in both collections, every stock level
    stays a non-negative integer, and the requests are not touched at all
    when the store refused one of the four inventory documents. *)
Theorem seeding_only_adds newId accepted clock s :
  let s' := seedInitialData newId accepted clock s in
  (∀ id, (∀ k, newId k ≠ id) →
     inventoryCollection s' !! id = inventoryCollection s !! id ∧
     requestsCollection s' !! id = requestsCollection s !! id) ∧
  (stock_ok (inventoryCollection s) → stock_ok (inventoryCollection s')) ∧
  (∀ k, (k < 4)%nat → accepted k = false →
     requestsCollection s' = requestsCollection s).
Proof.
  intros s'. subst s'. unfold seedInitialData. split_and!.
  - intros id Hid.
    destruct (addAll _ _ 0%nat _ _).1;
      cbn [inventoryCollection requestsCollection];
      rewrite ?addAll_lookup_other by done; done.
  - intros Hok id d.
    assert (Hin : (addAll newId accepted 0 (initialData clock)
                     (inventoryCollection s)).2 !! id = Some d →
                  Number.nonneg (Inv.quantity d)).
    { intros [H|H]%addAll_lookup; [by eapply Hok|by eapply initialData_stock]. }
    by destruct (addAll _ _ 0%nat _ _).1.
  - intros k Hk Ha.
    rewrite (addAll_refused newId accepted 0 (initialData clock) _ k); done.
Qed.

(** The inventory is seeded once at most: after a seeding of which the
    store took at least one inventory document, and whenever the snapshot
    shows a document, the listener leaves the store alone. *)
Theorem seeding_happens_once newId accepted clock docs s :
  Firestore.delivers (inventoryCollection s) docs →
  (∃ k, (k < 4)%nat ∧ accepted k = true) →
  let s1 := (onInventorySnapshot newId accepted clock docs s).2 in
  ∀ newId' accepted' clock' docs1,
    Firestore.delivers (inventoryCollection s1) docs1 →
    (onInventorySnapshot newId' accepted' clock' docs1 s1).2 = s1.
Proof.
  intros Hd (k & Hk & Ha) s1 newId' accepted' clock' docs1 Hd1.
  assert (Hsome : ∃ id d, inventoryCollection s1 !! id = Some d).
  { subst s1. unfold onInventorySnapshot, inventoryListener. simpl.
    destruct docs as [|[id d] docs]; simpl.
    - destruct (addAll_accepted_key newId accepted 0 (initialData clock)
                  (inventoryCollection s) k Hk Ha) as [d Hd0].
      exists (newId k), d. unfold seedInitialData.
      by destruct (addAll _ _ 0%nat _ _).1.
    - exists id, d. apply (delivers_elem _ _ _ _ Hd), list_elem_of_here. }
  destruct Hsome as (id & d & Hc).
  apply (delivers_elem _ _ _ _ Hd1) in Hc.
  unfold onInventorySnapshot, inventoryListener. simpl.
  destruct docs1; [by apply elem_of_nil in Hc|done].
Qed.

(** The first snapshot of an empty warehouse seeds it; the next one does
    not seed it again. *)
Lemma empty_warehouse_seeded_once :
  let s1 := (onInventorySnapshot freshId (λ _, true) (λ _, seededAt) []
               emptyWarehouse).2 in
  size (inventoryCollection s1) = 4%nat ∧ size (requestsCollection s1) = 2%nat ∧
  (onInventorySnapshot freshId (λ _, true) (λ _, seededAt)
     (imap (λ k d, (freshId k, d)) (initialData (λ _, seededAt))) s1).2 = s1.
Proof.
  intros s1.
  split; [reflexivity|]. split; [reflexivity|].
  apply (seeding_happens_once freshId (λ _, true) (λ _, seededAt) [] emptyWarehouse).
  - unfold Firestore.delivers. simpl. by rewrite map_to_list_empty.
  - exists 0%nat. split; [lia|reflexivity].
  - apply delivers_concrete.
    + compute_done.
    + reflexivity.
Defined.

(** Seeding over the warehouse of the scenario: the pasta stays as it
    is, and when the third inventory document is refused the requests are
    not touched. *)
Lemma seeding_over_the_warehouse :
  inventoryCollection
    (seedInitialData freshId (λ _, true) (λ _, seededAt) (warehouse 600 100))
    !! "inv-pasta" = Some (dryPasta 600) ∧
  requestsCollection
    (seedInitialData freshId (λ k, negb (k =? 2)%nat) (λ _, seededAt)
       (warehouse 600 100)) = requestsCollection (warehouse 600 100).
Proof.
  split.
  - destruct (seeding_only_adds freshId (λ _, true) (λ _, seededAt)
                (warehouse 600 100)) as (Hkeep & _).
    destruct (Hkeep "inv-pasta") as [Hinv _].
    + intros k H. discriminate H.
    + exact Hinv.
  - destruct (seeding_only_adds freshId (λ k, negb (k =? 2)%nat) (λ _, seededAt)
                (warehouse 600 100)) as (_ & _ & Hreq).
    apply (Hreq 2%nat); [lia|reflexivity].
Defined.

End Seeding.

(** * Further properties of the request form *)

Section FormAmount.
Import RequestForm Dashboard Scenario.

(** The amount that is stored is the integer the field starts with:
    what follows the numeral, from the first character that is not a
    decimal digit on, is dropped (["12.5"] gives 12 and ["1e2"] gives 1).
    This for an integer below [2 ^ 53] in magnitude, which a double
    holds as it is. *)
Theorem stored_amount_is_leading_integer now now' f (n : Z) (c : ascii) (rest : string) :
  Number.safe n →
  amount f = Typed (toString n +:+ String c rest) →
  digit_of 10 c = None →
  (n = 0 → c ≠ "x"%char ∧ c ≠ "X"%char) →
  Req.amount (newRequest now now' f) = Num n.
Proof.
  intros Hn Hf Hc Hx. unfold newRequest. cbn [Req.amount]. rewrite Hf.
  cbn [parseInt_amount]. rewrite parseInt_toString_tail by done.
  by apply round_safe.
Qed.

Lemma stored_amount_of_one_e_two :
  Req.amount
    (newRequest "2025-10-09T10:00:00.000Z" "2025-10-09T10:00:00.001Z"
       (shelterAsks "1e2")) = Num 1.
Proof.
  apply (stored_amount_is_leading_integer _ _ _ 1 "e" "2").
  - unfold Number.safe. lia.
  - reflexivity.
  - reflexivity.
  - intros H. discriminate H.
Defined.

(** White space in front of the amount is skipped, be it of one, two or
    three bytes; past [2 ^ 53] the amount is rounded, and past the
    largest double it is infinite. *)
Example parseInt_white_space_and_rounding :
  parseInt (String (ascii_of_nat 9) (String (ascii_of_nat 32) "42")) = Num 42 ∧
  parseInt (String (ascii_of_nat 194) (String (ascii_of_nat 160) "42")) = Num 42 ∧
  parseInt (String (ascii_of_nat 226) (String (ascii_of_nat 128)
              (String (ascii_of_nat 137) "42"))) = Num 42 ∧
  parseInt (String (ascii_of_nat 239) (String (ascii_of_nat 187)
              (String (ascii_of_nat 191) "42"))) = Num 42 ∧
  parseInt (String (ascii_of_nat 226) (String (ascii_of_nat 128)
              (String (ascii_of_nat 139) "42"))) = NaN ∧
  parseInt "9007199254740993" = Num 9007199254740992 ∧
  parseInt (toString (10 ^ 400)) = Inf false ∧
  parseInt (toString (- 10 ^ 400)) = Inf true.
Proof. split_and!; vm_compute; reflexivity. Qed.

(** A request filed through the form shows on the dashboard as a card
    with the "Approve" button alone, whatever the inventory holds: it can
    be neither shipped nor reset before it is approved, and its card
    always renders. *)
Theorem filed_request_can_only_be_approved
    isReady (inventory : list (string * Inv.t)) id now now' f :
  requestCard isReady inventory (id, newRequest now now' f) =
  Some [{| label := "Approve"; disabled := negb isReady;
           onClick := {| requestId := id; requestItem := requestedItem f;
                         requestAmount := parseInt_amount (amount f);
                         newStatus := "Approved" |} |}].
Proof. reflexivity. Qed.

End FormAmount.

(** * Further properties of the portal *)


Section Listener.
Import Portal Scenario.
Implicit Types (docs : list (string * Rec.t)) (engine : Engine).

Lemma readable_Permutation docs docs' :
  docs ≡ₚ docs' → readable docs = true → readable docs' = true.
Proof. intros Hp. rewrite !readable_Forall. by rewrite Hp. Qed.

(** The sort of the listener is stable: in a snapshot whose records all
    have a date, the records of one instant come out in the order in
    which the snapshot delivered them. *)
Theorem recordsListener_stable engine docs (t : Z) :
  readable docs = true →
  List.filter (dated t) (recordsListener engine docs) = List.filter (dated t) docs.
Proof.
  intros Hr. rewrite recordsListener_readable by done.
  apply filter_sort. intros x y Hx Hy. unfold dated in *.
  destruct (Rec.timestamp x.2) as [tx|] eqn:Ex; [|done].
  destruct (Rec.timestamp y.2) as [ty|] eqn:Ey; [|done].
  apply Z.eqb_eq in Hx, Hy. subst.
  rewrite (newestFirst_gt x y t t) by done. apply Z.ltb_irrefl.
Qed.

(** A snapshot whose records all have a date and that comes newest first
    is handed on as it is; so sorting twice is sorting once. *)
Theorem recordsListener_fixes_sorted engine docs :
  readable docs = true →
  (newest_first docs → recordsListener engine docs = docs) ∧
  recordsListener engine (recordsListener engine docs) = recordsListener engine docs.
Proof.
  intros Hr. rewrite !recordsListener_readable by done. split.
  - intros Hs. apply sort_of_Sorted.
    apply Sorted_newest_first; [by apply readable_Forall|done].
  - rewrite recordsListener_readable.
    + apply sort_of_Sorted, sort_Sorted, newestFirst_total.
    + apply (readable_Permutation docs); [|done]. symmetry. apply sort_Permutation.
Qed.

Lemma find_first_of_sorted (P : string * Rec.t → bool) docs x :
  newest_first docs →
  find P docs = Some x →
  x ∈ docs ∧ P x = true ∧
  ∀ y, y ∈ docs → P y = true →
       match Rec.timestamp x.2, Rec.timestamp y.2 with
       | Some tx, Some ty => ty <= tx
       | _, _ => True
       end.
Proof.
  unfold newest_first. induction 1 as [|a l Hs IH Hall]; simpl; [done|].
  destruct (P a) eqn:Ha.
  - intros [= <-]. split_and!; [apply list_elem_of_here|done|].
    intros y [->|Hy]%elem_of_cons _.
    + destruct (Rec.timestamp a.2); [lia|done].
    + rewrite Forall_forall in Hall. by apply Hall.
  - intros (Hin & HP & Hmax)%IH. split_and!; [by apply list_elem_of_further|done|].
    intros y [->|Hy]%elem_of_cons Hy'; [congruence|by apply Hmax].
Qed.

Lemma find_none_count (P : string * Rec.t → bool) docs :
  find P docs = None ↔ length (List.filter P docs) = 0%nat.
Proof.
  induction docs as [|a l IH]; simpl; [done|].
  destruct (P a); simpl; [done|apply IH].
Qed.

(** In a snapshot whose records all have a date, "Next pickup location"
    is the location of the newest pending record ("TBD" when that
    location is empty), and "TBD" when no record is pending, which is
    when the pending count is 0. *)
Theorem next_pickup_is_newest_pending engine docs :
  readable docs = true →
  let records := recordsListener engine docs in
  (totalPending records = 0%nat ↔ ∀ r, r ∈ docs → Rec.status r.2 ≠ "Pending") ∧
  (totalPending records = 0%nat → nextDistribution records = "TBD") ∧
  (totalPending records ≠ 0%nat →
   ∃ r t, r ∈ docs ∧ Rec.status r.2 = "Pending" ∧
          Rec.timestamp r.2 = Some t ∧
          (∀ r', r' ∈ docs → Rec.status r'.2 = "Pending" →
                 ∃ t', Rec.timestamp r'.2 = Some t' ∧ t' <= t) ∧
          nextDistribution records =
            if String.eqb (Rec.location r.2) "" then "TBD" else Rec.location r.2).
Proof.
  intros Hread records.
  assert (Hperm : ∀ r, r ∈ records ↔ r ∈ docs).
  { intros r. subst records. by rewrite recordsListener_Permutation. }
  assert (Hdate : ∀ r, r ∈ docs → is_Some (Rec.timestamp r.2)).
  { apply Forall_forall. by apply readable_Forall. }
  unfold totalPending, countStatus, nextDistribution.
  rewrite <-find_none_count.
  destruct (find _ records) as [r|] eqn:Hf.
  - assert (Hsorted : newest_first records)
      by (by apply recordsListener_newest_first).
    destruct (find_first_of_sorted _ _ _ Hsorted Hf) as (Hin & HP & Hmax).
    apply String.eqb_eq in HP.
    split_and!; [split; [done|]|done|].
    + intros Hnone. destruct (Hnone r); [by apply Hperm|done].
    + intros _. destruct (Hdate r) as [t Ht]; [by apply Hperm|].
      exists r, t. split_and!; [by apply Hperm|done|done| |done].
      intros r' Hin' Hst. destruct (Hdate r' Hin') as [t' Ht'].
      exists t'. split; [done|].
      specialize (Hmax r' (proj2 (Hperm r') Hin')). rewrite Ht, Ht' in Hmax.
      apply Hmax. by apply String.eqb_eq.
  - split_and!; [split; [intros _|done]|done|done].
    intros r Hin Hst. apply Hperm, list_elem_of_In in Hin.
    pose proof (find_none _ _ Hf r Hin) as Hno. simpl in Hno.
    apply String.eqb_neq in Hno. done.
Qed.

End Listener.

Section Managers.
Import Portal Scenario.
Implicit Types (e : Env) (records : gmap string Rec.t).

Lemma manager_roles rest :
  isManager (Some ("manager-" +:+ rest)) = true ∧
  isCitizen (Some ("manager-" +:+ rest)) = false ∧
  noUser (Some ("manager-" +:+ rest)) = false.
Proof.
  split; [|done]. apply (prefix_app "manager-").
Qed.

(** [updateRecordStatus] never creates or deletes a record, touches no
    record but the one it is given, and rewrites nothing of that one but
    its [status]. *)
Theorem updateRecordStatus_frame e userId recordId newStatus records :
  let records' := updateRecordStatus e userId recordId newStatus records in
  dom records' = dom records ∧
  (∀ id, id ≠ recordId → records' !! id = records !! id) ∧
  (∀ r r', records !! recordId = Some r → records' !! recordId = Some r' →
     Rec.recipientId r' = Rec.recipientId r ∧ Rec.foodItem r' = Rec.foodItem r ∧
     Rec.quantity r' = Rec.quantity r ∧ Rec.location r' = Rec.location r ∧
     Rec.timestamp r' = Rec.timestamp r).
Proof.
  intros records'. subst records'. unfold updateRecordStatus.
  assert (Hsame : ∀ r r' : Rec.t, Some r = Some r' →
            Rec.recipientId r' = Rec.recipientId r ∧ Rec.foodItem r' = Rec.foodItem r ∧
            Rec.quantity r' = Rec.quantity r ∧ Rec.location r' = Rec.location r ∧
            Rec.timestamp r' = Rec.timestamp r) by (by intros r r' [= <-]).
  destruct (negb (db e) || negb (isManager userId));
    [split_and!; [done..|intros r r' H1 H2; apply Hsame; congruence]|].
  destruct (online e); [|split_and!; [done..|intros r r' H1 H2; apply Hsame; congruence]].
  destruct (Firestore.updateDoc recordId _ _) as [c|] eqn:Hu;
    [|split_and!; [done..|intros r r' H1 H2; apply Hsame; congruence]].
  apply updateDoc_inv in Hu as (r0 & Hr0 & ->). split_and!.
  - by eapply dom_insert_present.
  - intros id Hne. by rewrite lookup_insert_ne.
  - intros r r' Hr. rewrite lookup_insert_eq. intros [= <-].
    assert (r0 = r) as -> by congruence. done.
Qed.

(** In the session of a manager the feed is subscribed without a filter,
    the manager dashboard is shown, its rows are the whole collection, and
    the rows that carry a "Complete" button are the pending ones. *)
Theorem manager_sees_every_record e engine rest records docs :
  let userId := Some ("manager-" +:+ rest) in
  db e = true →
  Firestore.delivers_where (recordsQuery userId) records docs →
  render userId (recordsListener engine docs) = ManagerDashboard (recordsListener engine docs) ∧
  (∀ id r, (id, r) ∈ rows (render userId (recordsListener engine docs)) ↔
           records !! id = Some r) ∧
  (∀ id, id ∈ completeButtons (render userId (recordsListener engine docs)) ↔
         ∃ r, records !! id = Some r ∧ Rec.status r = "Pending").
Proof.
  intros userId Hdb Hdocs.
  destruct (manager_roles rest) as (Hm & Hc & Hu). fold userId in Hm, Hc, Hu.
  assert (Hrows : ∀ id r, (id, r) ∈ recordsListener engine docs ↔ records !! id = Some r).
  { intros id r. rewrite recordsListener_Permutation.
    unfold Firestore.delivers_where in Hdocs. rewrite Hdocs.
    rewrite list_elem_of_filter, elem_of_map_to_list.
    unfold recordsQuery. rewrite Hc. simpl. tauto. }
  unfold render. rewrite Hm. split_and!; [done|exact Hrows|].
  intros id. simpl. rewrite list_elem_of_fmap. split.
  - intros ([id' r] & -> & Hin). simpl.
    apply list_elem_of_In, filter_In in Hin as [Hin Hst].
    apply list_elem_of_In, Hrows in Hin. apply String.eqb_eq in Hst. eauto.
  - intros (r & Hr & Hst). exists (id, r). split; [done|].
    apply list_elem_of_In, filter_In. split.
    + by apply list_elem_of_In, Hrows.
    + by apply String.eqb_eq.
Qed.

Lemma ledger_delivered_to_manager :
  Firestore.delivers_where (recordsQuery (Some "manager-1f0e2d3c"))
    (list_to_map ledger) ledger.
Proof.
  unfold Firestore.delivers_where.
  assert (H : map_to_list (list_to_map ledger : gmap string Rec.t) ≡ₚ ledger)
    by (apply map_to_list_to_map; compute_done).
  by rewrite H.
Qed.

Lemma manager_sees_ledger :
  ("rec-2", riceFor "citizen-zz99yy8" 2000)
    ∈ rows (render (Some "manager-1f0e2d3c") (recordsListener asIs ledger)) ∧
  "rec-2" ∈ completeButtons (render (Some "manager-1f0e2d3c") (recordsListener asIs ledger)).
Proof.
  destruct (manager_sees_every_record Scenario.up asIs "1f0e2d3c" (list_to_map ledger)
              ledger eq_refl ledger_delivered_to_manager) as (_ & Hrows & Hbuttons).
  split.
  - apply Hrows. reflexivity.
  - apply Hbuttons. exists (riceFor "citizen-zz99yy8" 2000). split; reflexivity.
Defined.

(** A manager completing a record of the collection: the record is
    "Completed" and otherwise as it was, and on the next snapshot its row
    has no "Complete" button any more, while the buttons of the other rows
    are as before. *)
Theorem completed_record_loses_its_button e engine rest recordId r records docs docs' :
  let userId := Some ("manager-" +:+ rest) in
  db e = true → online e = true →
  records !! recordId = Some r →
  let records' := updateRecordStatus e userId recordId "Completed" records in
  Firestore.delivers_where (recordsQuery userId) records docs →
  Firestore.delivers_where (recordsQuery userId) records' docs' →
  records' !! recordId = Some (Rec.merge "Completed" r) ∧
  ¬ recordId ∈ completeButtons (render userId (recordsListener engine docs')) ∧
  (∀ id, id ≠ recordId →
     id ∈ completeButtons (render userId (recordsListener engine docs')) ↔
     id ∈ completeButtons (render userId (recordsListener engine docs))).
Proof.
  intros userId Hdb Ho Hr records' Hdocs Hdocs'.
  destruct (manager_roles rest) as (Hm & _). fold userId in Hm.
  assert (Hrec : records' = <[recordId := Rec.merge "Completed" r]> records).
  { subst records'. unfold updateRecordStatus.
    by rewrite Hdb, Hm, Ho, (updateDoc_Some _ _ _ _ Hr). }
  assert (Hb : ∀ (m : gmap string Rec.t) l,
            Firestore.delivers_where (recordsQuery userId) m l →
            ∀ id, id ∈ completeButtons (render userId (recordsListener engine l)) ↔
                  ∃ r, m !! id = Some r ∧ Rec.status r = "Pending").
  { intros m l Hl id.
    assert (Hrows : ∀ id r, (id, r) ∈ recordsListener engine l ↔ m !! id = Some r).
    { intros id0 r0. rewrite recordsListener_Permutation.
      unfold Firestore.delivers_where in Hl. rewrite Hl.
      rewrite list_elem_of_filter, elem_of_map_to_list.
      unfold recordsQuery.
      destruct (manager_roles rest) as (_ & Hc & _). fold userId in Hc.
      rewrite Hc. simpl. tauto. }
    unfold render. rewrite Hm. simpl. rewrite list_elem_of_fmap. split.
    - intros ([id' r0] & -> & Hin). simpl.
      apply list_elem_of_In, filter_In in Hin as [Hin Hst].
      apply list_elem_of_In, Hrows in Hin. apply String.eqb_eq in Hst. eauto.
    - intros (r0 & Hr0 & Hst). exists (id, r0). split; [done|].
      apply list_elem_of_In, filter_In. split.
      + by apply list_elem_of_In, Hrows.
      + by apply String.eqb_eq. }
  split_and!.
  - rewrite Hrec. apply lookup_insert_eq.
  - rewrite (Hb _ _ Hdocs'), Hrec. intros (r0 & Hr0 & Hst).
    rewrite lookup_insert_eq in Hr0. injection Hr0 as <-. discriminate Hst.
  - intros id Hne. rewrite (Hb _ _ Hdocs'), (Hb _ _ Hdocs), Hrec.
    by rewrite lookup_insert_ne.
Qed.

Lemma manager_completes_rec_2 :
  let records' := updateRecordStatus Scenario.up (Some "manager-1f0e2d3c") "rec-2"
                    "Completed" (list_to_map ledger) in
  Rec.status <$> records' !! "rec-2" = Some "Completed" ∧
  ¬ "rec-2" ∈ completeButtons
                (render (Some "manager-1f0e2d3c")
                   (recordsListener asIs
                      [("rec-1", riceFor "citizen-ab12cd3" 1000);
                       ("rec-2", Rec.merge "Completed" (riceFor "citizen-zz99yy8" 2000));
                       ("rec-3", riceFor "manager-1f0e2d3c" 3000);
                       ("rec-4", riceFor "citizen-ab12cd3" 4000)])).
Proof.
  intros records'. split; [reflexivity|].
  refine (proj1 (proj2 (completed_record_loses_its_button Scenario.up asIs "1f0e2d3c"
                          "rec-2" (riceFor "citizen-zz99yy8" 2000)
                          (list_to_map ledger) ledger _
                          eq_refl eq_refl eq_refl
                          ledger_delivered_to_manager _))).
  unfold Firestore.delivers_where.
  assert (H : map_to_list
                (updateRecordStatus Scenario.up (Some "manager-1f0e2d3c") "rec-2"
                   "Completed" (list_to_map ledger)) ≡ₚ
              [("rec-1", riceFor "citizen-ab12cd3" 1000);
               ("rec-2", Rec.merge "Completed" (riceFor "citizen-zz99yy8" 2000));
               ("rec-3", riceFor "manager-1f0e2d3c" 3000);
               ("rec-4", riceFor "citizen-ab12cd3" 4000)]).
  { symmetry. apply delivers_concrete.
    - compute_done.
    - reflexivity. }
  by rewrite H.
Defined.

(** A session for which the identity service gives no user, or a user
    without [uid], gets a generated identifier: it is a citizen, never a
    manager, and its [updateRecordStatus] writes nothing.  A [uid] that is
    there is taken as it is. *)
Theorem fallback_identity_is_a_citizen rnd user :
  (user = None ∨ user = Some "" →
   onAuthStateChanged rnd user = Some ("citizen-" +:+ rnd) ∧
   isCitizen (onAuthStateChanged rnd user) = true ∧
   isManager (onAuthStateChanged rnd user) = false ∧
   ∀ e recordId newStatus records,
     updateRecordStatus e (onAuthStateChanged rnd user) recordId newStatus records
     = records) ∧
  (∀ uid, user = Some uid → uid ≠ "" → onAuthStateChanged rnd user = Some uid).
Proof.
  split.
  - intros Huser.
    assert (Hid : onAuthStateChanged rnd user = Some ("citizen-" +:+ rnd))
      by (by destruct Huser as [-> | ->]).
    rewrite Hid. destruct (citizen_roles rnd) as (Hc & Hm & _).
    split_and!; [done..|].
    intros e recordId newStatus records. unfold updateRecordStatus.
    by rewrite Hm, orb_true_r.
  - intros uid -> Hne. simpl. by apply String.eqb_neq in Hne as ->.
Qed.

End Managers.

Section Samples.
Import Portal Scenario.
Implicit Types (e : Env) (records c : gmap string Rec.t) (newId : nat → string).

Lemma setAll_lookup_other newId first (docs : list Rec.t) c id :
  (∀ k, (k < length docs)%nat → newId (first + k)%nat ≠ id) →
  setAll newId first docs c !! id = c !! id.
Proof.
  revert first c. induction docs as [|d docs IH]; intros first c Hid; simpl; [done|].
  rewrite IH.
  - apply lookup_insert_ne. specialize (Hid 0%nat). rewrite Nat.add_0_r in Hid.
    apply Hid. simpl. lia.
  - intros k Hk. replace (S first + k)%nat with (first + S k)%nat by lia.
    apply Hid. simpl. lia.
Qed.

Lemma setAll_lookup_new newId first (docs : list Rec.t) c k :
  (∀ i j, (i < length docs)%nat → (j < length docs)%nat →
          newId (first + i)%nat = newId (first + j)%nat → i = j) →
  (k < length docs)%nat →
  setAll newId first docs c !! newId (first + k)%nat = docs !! k.
Proof.
  revert first c k. induction docs as [|d docs IH]; intros first c k Hinj Hk;
    simpl in *; [lia|].
  assert (Hinj' : ∀ i j, (i < length docs)%nat → (j < length docs)%nat →
            newId (S first + i)%nat = newId (S first + j)%nat → i = j).
  { intros i j Hi Hj Heq.
    replace (S first + i)%nat with (first + S i)%nat in Heq by lia.
    replace (S first + j)%nat with (first + S j)%nat in Heq by lia.
    apply Hinj in Heq; lia. }
  destruct k as [|k].
  - rewrite Nat.add_0_r. rewrite setAll_lookup_other; [apply lookup_insert_eq|].
    intros j Hj Heq.
    replace (S first + j)%nat with (first + S j)%nat in Heq by lia.
    replace first with (first + 0)%nat in Heq at 2 by lia.
    apply Hinj in Heq; lia.
  - replace (first + S k)%nat with (S first + k)%nat by lia.
    apply IH; [done|lia].
Qed.

Lemma setAll_size newId first (docs : list Rec.t) c :
  (∀ i j, (i < length docs)%nat → (j < length docs)%nat →
          newId (first + i)%nat = newId (first + j)%nat → i = j) →
  (∀ k, (k < length docs)%nat → c !! newId (first + k)%nat = None) →
  size (setAll newId first docs c) = (size c + length docs)%nat.
Proof.
  revert first c. induction docs as [|d docs IH]; intros first c Hinj Hfresh;
    simpl in *; [lia|].
  rewrite IH.
  - rewrite map_size_insert_None; [lia|].
    specialize (Hfresh 0%nat). rewrite Nat.add_0_r in Hfresh. apply Hfresh. lia.
  - intros i j Hi Hj Heq.
    replace (S first + i)%nat with (first + S i)%nat in Heq by lia.
    replace (S first + j)%nat with (first + S j)%nat in Heq by lia.
    apply Hinj in Heq; lia.
  - intros k Hk. rewrite lookup_insert_ne.
    + replace (S first + k)%nat with (first + S k)%nat by lia. apply Hfresh. lia.
    + intros Heq. replace (S first + k)%nat with (first + S k)%nat in Heq by lia.
      replace first with (first + 0)%nat in Heq at 1 by lia.
      apply Hinj in Heq; lia.
Qed.

Lemma substring_all (s : string) : String.substring 0 (String.length s) s = s.
Proof. induction s as [|c s IH]; simpl; [done|]. by rewrite IH. Qed.

(** Replacing the prefix of a generated identifier. *)
Lemma replace_citizen_prefix (replacement rest : string) :
  replace "citizen-" replacement ("citizen-" +:+ rest) = replacement +:+ rest.
Proof.
  change ("citizen-" +:+ rest) with
    (String "c" (String "i" (String "t" (String "i" (String "z" (String "e"
       (String "n" (String "-" rest)))))))).
  cbn [replace String.prefix]. repeat (destruct (ascii_dec _ _); [|done]).
  cbn [String.length Nat.sub String.substring].
  destruct rest; simpl; [done|]. by rewrite substring_all.
Qed.

(** An upload that goes through adds the five sample records under the
    five ids the store hands out and changes no record that was there;
    three of them go to fresh citizen identifiers, one to a fresh manager
    identifier and the last one to the uploader.  Without [db], or when
    the store refuses the batch, nothing is added. *)
Theorem uploadSampleData_adds_five_records
    e userId uuid rnd loaded now now' newId records :
  (∀ k, (k < 5)%nat → records !! newId k = None) →
  (∀ i j, (i < 5)%nat → (j < 5)%nat → newId i = newId j → i = j) →
  let samples := sampleRecords userId uuid rnd loaded now now' in
  let records' := uploadSampleData e userId uuid rnd loaded now now' newId records in
  (λ r, Rec.recipientId r) <$> samples =
    [ "manager-" +:+ String.substring 0 8 (uuid 0%nat);
      "citizen-" +:+ String.substring 0 5 (uuid 1%nat) +:+ rnd 0%nat;
      "citizen-" +:+ String.substring 0 5 (uuid 2%nat) +:+ rnd 1%nat;
      "citizen-" +:+ String.substring 0 5 (uuid 3%nat) +:+ rnd 2%nat;
      userId ] ∧
  (db e = true → online e = true →
     (∀ k, (k < 5)%nat → records' !! newId k = samples !! k) ∧
     (∀ id r, records !! id = Some r → records' !! id = Some r) ∧
     size records' = (size records + 5)%nat) ∧
  (db e = false ∨ online e = false → records' = records).
Proof.
  intros Hfresh Hinj samples records'. split_and!.
  - subst samples. unfold sampleRecords, initialRecords, generateUserId.
    cbn -[replace String.append String.substring].
    by rewrite !replace_citizen_prefix.
  - intros Hdb Ho.
    assert (Hrec : records' = setAll newId 0 samples records).
    { subst records'. unfold uploadSampleData. by rewrite Hdb, Ho. }
    assert (Hlen : length samples = 5%nat) by done.
    rewrite Hrec. split_and!.
    + intros k Hk. apply (setAll_lookup_new newId 0 samples records k).
      * rewrite Hlen. intros i j Hi Hj. simpl. by apply Hinj.
      * by rewrite Hlen.
    + intros id r Hr. rewrite setAll_lookup_other; [done|].
      rewrite Hlen. intros k Hk Heq. simpl in Heq. subst id.
      rewrite Hfresh in Hr; done.
    + rewrite setAll_size, Hlen; [done|..]; rewrite Hlen.
      * intros i j Hi Hj. simpl. by apply Hinj.
      * intros k Hk. simpl. by apply Hfresh.
  - subst records'. unfold uploadSampleData.
    intros [-> | Ho]; [done|]. rewrite Ho. by destruct (negb (db e)).
Qed.

Lemma manager_uploads_samples :
  let fresh k := "sample-" +:+ String (ascii_of_nat (97 + k)) EmptyString in
  let records' :=
    uploadSampleData Scenario.up "manager-1f0e2d3c"
      (λ _, "3b241101-e2bb-4255-8caf-4136c566a962") (λ _, "k3x9q0z")
      (λ _, 1760000000000) 1760000100000 1760000100001 fresh
      (list_to_map ledger) in
  size records' = 9%nat ∧
  Rec.recipientId <$> records' !! "sample-e" = Some "manager-1f0e2d3c" ∧
  records' !! "rec-1" = Some (riceFor "citizen-ab12cd3" 1000).
Proof.
  intros fresh records'.
  destruct (uploadSampleData_adds_five_records Scenario.up "manager-1f0e2d3c"
              (λ _, "3b241101-e2bb-4255-8caf-4136c566a962") (λ _, "k3x9q0z")
              (λ _, 1760000000000) 1760000100000 1760000100001 fresh
      (list_to_map ledger))
    as (_ & Hup & _).
  - intros k Hk.
    do 5 (destruct k as [|k]; [reflexivity|]). lia.
  - intros i j Hi Hj.
    do 5 (destruct i as [|i]; [do 5 (destruct j as [|j]; [by intros|]); lia|]).
    lia.
  - destruct (Hup eq_refl eq_refl) as (Hnew & Hold & Hsize).
    split; [exact Hsize|]. split.
    + exact (f_equal (fmap (M:=option) Rec.recipientId) (Hnew 4%nat (le_n 5))).
    + apply Hold. reflexivity.
Defined.

End Samples.

Section StaleAndFailed.
Import Dashboard Portal RequestForm Scenario.

(** A Ship run computes the new stock from the page, not from the store:
    when the page shows an older snapshot, the quantity written is the
    quantity shown minus the amount (a difference below [2 ^ 53] here),
    whatever the store holds by then. *)
Theorem ship_writes_the_quantity_of_the_page
    e now now' (inventory : list (string * Inv.t)) requestId r itemId shown held q a
    (s : Store) :
  ready e → online e = true →
  requestsCollection s !! requestId = Some r →
  Req.amount r = Num a →
  find (λ i, String.eqb (Inv.item i.2) (Req.item r)) inventory = Some (itemId, shown) →
  inventoryCollection s !! itemId = Some held →
  Inv.quantity shown = Num q →
  a <= q →
  Number.safe (q - a) →
  let run := handleStatusUpdate e now now' inventory requestId (Req.item r)
               (Req.amount r) "Shipped" s in
  run.1 = Written ∧
  ∃ held', inventoryCollection run.2 !! itemId = Some held' ∧
           Inv.quantity held' = Num (q - a) ∧
           Inv.lastUpdated held' = now' ∧
           same_item_details held held'.
Proof.
  intros Hr Ho Hreq Ha Hf Hheld Hq Hle Hsafe run. subst run.
  rewrite ship_run by done. rewrite Hf. cbn [fst snd]. rewrite Hq, Ha.
  cbn [Number.sub]. rewrite round_lt_0, round_safe by done.
  destruct (Z.ltb_spec (q - a) 0) as [?|_]; [lia|].
  rewrite (commit_ship e requestId itemId _ _ _ _ r held s Ho Hreq Hheld).
  cbn [fst snd inventoryCollection]. split; [done|].
  eexists. split; [apply lookup_insert_eq|]. by split_and!.
Qed.

(** Two managers, 600 boxes on both pages: the first ships 50 to another
    organization (the store is at 550), the second ships 100 from the
    page that still shows 600, and the store is at 500: neither what it
    held, nor 100 less. *)
Lemma second_shipment_from_old_page :
  let run := handleStatusUpdate up "2025-10-09T10:05:00.000Z" "2025-10-09T10:05:00.001Z"
               (stock 600) "req-bank" "Dry Pasta" (Num 100) "Shipped"
               (warehouse 550 100) in
  run.1 = Written ∧
  Inv.quantity <$> inventoryCollection (warehouse 550 100) !! "inv-pasta"
    = Some (Num 550) ∧
  ∃ held', inventoryCollection run.2 !! "inv-pasta" = Some held' ∧
           Inv.quantity held' = Num 500 ∧
           Inv.lastUpdated held' = "2025-10-09T10:05:00.001Z".
Proof.
  destruct (ship_writes_the_quantity_of_the_page up
              "2025-10-09T10:05:00.000Z" "2025-10-09T10:05:00.001Z"
              (stock 600) "req-bank" (foodBank 100) "inv-pasta"
              (dryPasta 600) (dryPasta 550) 600 100 (warehouse 550 100))
    as (Hw & held' & Hi & Hq & Hu & _).
  - exact up_ready.
  - reflexivity.
  - reflexivity.
  - reflexivity.
  - reflexivity.
  - reflexivity.
  - reflexivity.
  - lia.
  - unfold Number.safe. lia.
  - split; [exact Hw|]. split; [reflexivity|].
    exists held'. split; [exact Hi|]. split; [exact Hq|exact Hu].
Defined.

(** A session whose identifier starts neither with "manager-" nor with
    "citizen-" is shown the citizen portal over the whole collection: its
    feed carries no filter. *)
Theorem unprefixed_session_sees_every_record e engine u records docs :
  u ≠ "" →
  (∀ rest, u ≠ "manager-" +:+ rest) →
  (∀ rest, u ≠ "citizen-" +:+ rest) →
  db e = true →
  Firestore.delivers_where (recordsQuery (Some u)) records docs →
  subscribe e (Some u) = Some (recordsQuery (Some u)) ∧
  render (Some u) (recordsListener engine docs) = CitizenPortal (recordsListener engine docs) ∧
  ∀ id r, (id, r) ∈ rows (render (Some u) (recordsListener engine docs)) ↔
          records !! id = Some r.
Proof.
  intros Hu Hm Hc Hdb Hdocs.
  assert (Hm' : isManager (Some u) = false).
  { destruct (isManager (Some u)) eqn:E; [|done].
    apply prefix_inv in E as [rest ->]. by destruct (Hm rest). }
  assert (Hc' : isCitizen (Some u) = false).
  { destruct (isCitizen (Some u)) eqn:E; [|done].
    apply prefix_inv in E as [rest ->]. by destruct (Hc rest). }
  split_and!.
  - unfold subscribe. rewrite Hdb. simpl. by apply String.eqb_neq in Hu as ->.
  - unfold render. by rewrite Hm'.
  - intros id r. unfold render. rewrite Hm'. simpl.
    rewrite recordsListener_Permutation.
    unfold Firestore.delivers_where in Hdocs. rewrite Hdocs.
    rewrite list_elem_of_filter, elem_of_map_to_list.
    unfold recordsQuery. rewrite Hc'. simpl. tauto.
Qed.

Lemma ledger_delivered_to_uid :
  Firestore.delivers_where (recordsQuery (Some "Zk41hQ9vXw")) (list_to_map ledger) ledger.
Proof.
  unfold Firestore.delivers_where.
  assert (H : map_to_list (list_to_map ledger : gmap string Rec.t) ≡ₚ ledger)
    by (apply map_to_list_to_map; compute_done).
  by rewrite H.
Qed.

Lemma plain_uid_sees_ledger :
  ("rec-3", riceFor "manager-1f0e2d3c" 3000)
    ∈ rows (render (Some "Zk41hQ9vXw") (recordsListener asIs ledger)).
Proof.
  destruct (unprefixed_session_sees_every_record Scenario.up asIs "Zk41hQ9vXw"
              (list_to_map ledger) ledger) as (_ & _ & Hrows).
  - intros H. discriminate H.
  - intros rest H. discriminate H.
  - intros rest H. discriminate H.
  - reflexivity.
  - exact ledger_delivered_to_uid.
  - apply Hrows. reflexivity.
Defined.

(** A submission that does not go through (service not ready, or the
    document refused) adds nothing, reports "error" and keeps what the
    user typed; one that goes through blanks the organization and the
    e-mail, puts the amount back to 10 and keeps the selected item. *)
Theorem submission_outcome_and_form e now now' newId f requests :
  let run := handleSubmit e now now' newId f requests in
  (¬ ready e ∨ online e = false →
   run.2 = requests ∧ submissionStatus run.1 = Some "error" ∧
   organizationName run.1 = organizationName f ∧ amount run.1 = amount f ∧
   contactEmail run.1 = contactEmail f ∧ requestedItem run.1 = requestedItem f) ∧
  (ready e → online e = true →
   submissionStatus run.1 = Some "success" ∧
   organizationName run.1 = "" ∧ amount run.1 = Preset 10 ∧
   contactEmail run.1 = "" ∧ requestedItem run.1 = requestedItem f ∧
   parseInt_amount (amount run.1) = Num 10).
Proof.
  intros run. subst run. unfold handleSubmit. split.
  - intros H.
    destruct (db e) eqn:Hdb, (isAuthReady e) eqn:Hau, (online e) eqn:Ho;
      simpl; try done.
    destruct H as [H|H]; [|done]. destruct H. by split.
  - intros [-> ->] ->. simpl. split_and!; try done.
Qed.

End StaleAndFailed.

Section MoreScenarios.
Import Dashboard Portal RequestForm Scenario.

(** The records of one citizen, already newest first, go through the
    listener unchanged. *)
Lemma sorted_snapshot_unchanged :
  recordsListener asIs [("rec-4", riceFor "citizen-ab12cd3" 4000);
                   ("rec-1", riceFor "citizen-ab12cd3" 1000)] =
  [("rec-4", riceFor "citizen-ab12cd3" 4000);
   ("rec-1", riceFor "citizen-ab12cd3" 1000)].
Proof.
  apply (proj1 (recordsListener_fixes_sorted asIs
                  [("rec-4", riceFor "citizen-ab12cd3" 4000);
                   ("rec-1", riceFor "citizen-ab12cd3" 1000)] eq_refl)).
  unfold newest_first. repeat constructor. simpl. lia.
Defined.

(** Two records of instant 1000 around one of instant 2000: the two
    keep their order. *)
Lemma same_instant_records_keep_order :
  (List.filter (dated 1000)
     (recordsListener asIs [("rec-a", riceFor "citizen-ab12cd3" 1000);
                            ("rec-b", riceFor "citizen-zz99yy8" 2000);
                            ("rec-c", riceFor "citizen-ab12cd3" 1000)])).*1 =
  ["rec-a"; "rec-c"].
Proof.
  rewrite (recordsListener_stable asIs
             [("rec-a", riceFor "citizen-ab12cd3" 1000);
              ("rec-b", riceFor "citizen-zz99yy8" 2000);
              ("rec-c", riceFor "citizen-ab12cd3" 1000)] 1000 eq_refl).
  reflexivity.
Defined.

(** On the ledger the next pickup is that of record 4, the newest
    pending one. *)
Lemma next_pickup_on_ledger :
  ∃ r t, r ∈ ledger ∧ Rec.status r.2 = "Pending" ∧
         Rec.timestamp r.2 = Some t ∧
         (∀ r', r' ∈ ledger → Rec.status r'.2 = "Pending" →
                ∃ t', Rec.timestamp r'.2 = Some t' ∧ t' <= t) ∧
         nextDistribution (recordsListener turned ledger) =
           if String.eqb (Rec.location r.2) "" then "TBD" else Rec.location r.2.
Proof.
  apply (proj2 (proj2 (next_pickup_is_newest_pending turned ledger eq_refl))).
  intros H. discriminate H.
Defined.

(** No user from the identity service: a generated citizen. *)
Lemma no_user_is_a_citizen :
  onAuthStateChanged "k3x9q0z" None = Some "citizen-k3x9q0z" ∧
  isManager (onAuthStateChanged "k3x9q0z" None) = false.
Proof.
  destruct (proj1 (fallback_identity_is_a_citizen "k3x9q0z" None) (or_introl eq_refl))
    as (Hid & _ & Hm & _).
  split; [exact Hid|exact Hm].
Defined.

(** The store refuses the request of Shelter A: nothing is added and the
    form keeps the organization. *)
Lemma refused_submission_keeps_form :
  let run := handleSubmit offline "2025-10-09T10:00:00.000Z"
               "2025-10-09T10:00:00.001Z" "req-new" shelterForm
               (requestsCollection (warehouse 600 100)) in
  run.2 = requestsCollection (warehouse 600 100) ∧
  submissionStatus run.1 = Some "error" ∧
  organizationName run.1 = "Shelter A".
Proof.
  destruct (proj1 (submission_outcome_and_form offline "2025-10-09T10:00:00.000Z"
                     "2025-10-09T10:00:00.001Z" "req-new" shelterForm
                     (requestsCollection (warehouse 600 100)))
              (or_intror eq_refl)) as (Hs & Hst & Horg & _).
  split; [exact Hs|]. split; [exact Hst|exact Horg].
Defined.

End MoreScenarios.
